(** * pdf-to-pptx: the AI-assisted slide reconstruction pipeline

    A shallow embedding of [converter/pdf_to_pptx.py]: the content extractor
    ([analyze_slide_with_gemini]), colour resolution ([hex_to_rgb]), the slide
    reconstructor ([create_slide_from_ai_data]) and the page loop of the
    driver ([create_pptx_from_pdf_with_ai]).

    Python values are modelled as the interpreter has them: a [str] is a list
    of Unicode code points, an [int] is a [Z], a [float] is an IEEE binary64
    number ([spec_float] at precision 53), the result of [json.loads] is a
    tree of such values, and an operation that may raise returns a [result].

    The collaborators of the program stay outside. [json.loads] and the
    model service are parameters of the extractor and the driver; a rendered
    page is named by the page and the settings of its rendering; of the
    presentation writer, the shapes, paragraphs and runs it is asked to
    create are recorded, together with the checks it makes on the values
    assigned to a colour, a paragraph level and a bold or italic flag.
    Printing, the saving of the file and the choice between this path and
    the image-only path are not part of the model. *)

From Stdlib Require Import ZArith NArith List String Ascii Bool Lia SpecFloat.
From Stdlib Require Import Sorted.
Import ListNotations.
Open Scope Z_scope.

(* ================================================================== *)
(** * Python strings *)
(* ================================================================== *)

Module Py.

Local Open Scope N_scope.

(** A character is a Unicode code point; a [str] is a sequence of them. *)
Definition char := N.
Definition pystr := list char.

(** An ASCII literal as a [pystr]. *)
Definition str (s : string) : pystr := map N_of_ascii (list_ascii_of_string s).

Definition bullet_glyph : char := 8226.   (* U+2022 *)
Definition newline : char := 10.

Definition char_in (c : char) (set : pystr) : bool :=
  existsb (N.eqb c) set.

Fixpoint str_eqb (a b : pystr) : bool :=
  match a, b with
  | [], [] => true
  | x :: a', y :: b' => (x =? y) && str_eqb a' b'
  | _, _ => false
  end.

(** [str.isspace] on one character: the characters [str.strip()] removes. *)
Definition isspace (c : char) : bool :=
  ((9 <=? c) && (c <=? 13)) || ((28 <=? c) && (c <=? 32))
  || (c =? 133) || (c =? 160) || (c =? 5760)
  || ((8192 <=? c) && (c <=? 8202))
  || (c =? 8232) || (c =? 8233) || (c =? 8239) || (c =? 8287) || (c =? 12288).

(** [s.lstrip(chars)], [s.rstrip(chars)] and [s.strip(chars)], with the set
    of characters given as a predicate. *)
Fixpoint lstrip_by (p : char -> bool) (s : pystr) : pystr :=
  match s with
  | c :: s' => if p c then lstrip_by p s' else s
  | [] => []
  end.

Definition rstrip_by (p : char -> bool) (s : pystr) : pystr :=
  rev (lstrip_by p (rev s)).

Definition strip_by (p : char -> bool) (s : pystr) : pystr :=
  rstrip_by p (lstrip_by p s).

Definition strip (s : pystr) : pystr := strip_by isspace s.
Definition lstrip_chars (chars s : pystr) : pystr :=
  lstrip_by (fun c => char_in c chars) s.

Fixpoint startswith (s prefix : pystr) : bool :=
  match prefix, s with
  | [], _ => true
  | p :: prefix', c :: s' => (c =? p) && startswith s' prefix'
  | _ :: _, [] => false
  end.

Definition endswith (s suffix : pystr) : bool :=
  startswith (rev s) (rev suffix).

(** [needle in haystack]. *)
Fixpoint contains (haystack needle : pystr) : bool :=
  startswith haystack needle ||
  match haystack with
  | [] => false
  | _ :: h' => contains h' needle
  end.

(** [s[n:]] and [s[:-n]] for a non-negative [n]. *)
Definition drop_front (n : nat) (s : pystr) : pystr := skipn n s.
Definition drop_back (n : nat) (s : pystr) : pystr :=
  firstn (List.length s - n) s.

(** [s.split(sep)] for a one-character separator. *)
Fixpoint split_on (sep : char) (s : pystr) : list pystr :=
  match s with
  | [] => [[]]
  | c :: s' =>
      if c =? sep then [] :: split_on sep s'
      else match split_on sep s' with
           | l :: ls => (c :: l) :: ls
           | [] => [[c]]
           end
  end.

(** [s.replace(old, '')] for a non-empty [old]: every occurrence found
    scanning from the left is removed. The recursion is on [fuel], which
    [remove_all] sets to the length of [s]. *)
Fixpoint remove_all_from (fuel : nat) (old s : pystr) : pystr :=
  match fuel with
  | O => s
  | S fuel' =>
      match s with
      | [] => []
      | c :: s' =>
          if startswith s old
          then remove_all_from fuel' old (skipn (List.length old) s)
          else c :: remove_all_from fuel' old s'
      end
  end.

Definition remove_all (old s : pystr) : pystr :=
  remove_all_from (List.length s) old s.

(* ------------------------------------------------------------------ *)
(** ** [int(s, base)] on a [str] *)
(* ------------------------------------------------------------------ *)

(** First code points of the runs of ten decimal digits outside ASCII
    (Unicode category Nd, Unicode 14.0 as shipped with CPython 3.11). *)
Definition decimal_runs : list N :=
  [1632; 1776; 1984; 2406; 2534; 2662; 2790; 2918; 3046; 3174; 3302; 3430;
   3558; 3664; 3792; 3872; 4160; 4240; 6112; 6160; 6470; 6608; 6784; 6800;
   6992; 7088; 7232; 7248; 42528; 43216; 43264; 43472; 43504; 43600; 44016;
   65296; 66720; 68912; 69734; 69872; 69942; 70096; 70384; 70736; 70864;
   71248; 71360; 71472; 71904; 72016; 72784; 73040; 73120; 92768; 92864;
   93008; 120782; 120792; 120802; 120812; 120822; 123200; 123632; 125264;
   130032].

Definition unicode_decimal (c : char) : option N :=
  match find (fun b => (b <=? c) && (c <? b + 10)) decimal_runs with
  | Some b => Some (c - b)
  | None => None
  end.

(** The interpreter first rewrites the text to ASCII: a character below 127
    stays, other white space becomes a blank, other decimal digits become
    ASCII digits, and anything else makes the conversion fail. *)
Definition to_ascii_char (c : char) : option char :=
  if c <? 127 then Some c
  else if isspace c then Some 32
  else match unicode_decimal c with
       | Some d => Some (48 + d)
       | None => None
       end.

Fixpoint to_ascii_digits (s : pystr) : option pystr :=
  match s with
  | [] => Some []
  | c :: s' =>
      match to_ascii_char c, to_ascii_digits s' with
      | Some a, Some r => Some (a :: r)
      | _, _ => None
      end
  end.

(** White space of the C locale, as [int] skips it around the number. *)
Definition c_isspace (c : char) : bool :=
  ((9 <=? c) && (c <=? 13)) || (c =? 32).

Definition digit_value (c : char) : option Z :=
  if (48 <=? c) && (c <=? 57) then Some (Z.of_N (c - 48))
  else if (97 <=? c) && (c <=? 122) then Some (Z.of_N (c - 97 + 10))
  else if (65 <=? c) && (c <=? 90) then Some (Z.of_N (c - 65 + 10))
  else None.

Definition underscore : char := 95.

(** Digits with single underscores between them. [count] is the number of
    digits read so far, [after_us] says the previous character was an
    underscore. Returns the value, the number of digits and the unread rest. *)
Fixpoint scan_digits (base acc : Z) (count : nat) (after_us : bool)
  (s : pystr) : option (Z * nat * pystr) :=
  let finish :=
    if after_us then None
    else match count with O => None | S _ => Some (acc, count, s) end in
  match s with
  | [] => finish
  | c :: s' =>
      if c =? underscore then
        if after_us then None else scan_digits base acc count true s'
      else
        match digit_value c with
        | Some d =>
            if (d <? base)%Z
            then scan_digits base (acc * base + d)%Z (S count) false s'
            else finish
        | None => finish
        end
  end.

(** The interpreter refuses to convert more than this many digits in a base
    that is not a power of two ([sys.int_max_str_digits]). *)
Definition max_str_digits : nat := 4300.

Definition skip_sign (s : pystr) : bool * pystr :=
  match s with
  | 43 :: s' => (false, s')      (* + *)
  | 45 :: s' => (true, s')       (* - *)
  | _ => (false, s)
  end.

(** After the sign, base 16 accepts [0x] or [0X] and one underscore. *)
Definition skip_prefix (base : Z) (s : pystr) : pystr :=
  match s with
  | 48 :: x :: s' =>
      if (base =? 16)%Z && ((x =? 120) || (x =? 88)) then
        match s' with
        | 95 :: s'' => s''
        | _ => s'
        end
      else s
  | _ => s
  end.

(** The number read from text already rewritten to ASCII. *)
Definition int_of_ascii (base : Z) (a : pystr) : option Z :=
  let '(negative, body) := skip_sign (lstrip_by c_isspace a) in
  let body := skip_prefix base body in
  match body with
  | 95 :: _ => None
  | _ =>
      match scan_digits base 0 0 false body with
      | Some (v, digits, rest) =>
          if (base =? 10)%Z && (max_str_digits <? digits)%nat then None
          else
            match lstrip_by c_isspace rest with
            | [] => Some (if negative then (- v)%Z else v)
            | _ :: _ => None
            end
      | None => None
      end
  end.

(** [int(s, base)] for base 10 or 16; [None] stands for [ValueError]. *)
Definition int_of_str (base : Z) (s : pystr) : option Z :=
  match to_ascii_digits s with
  | None => None
  | Some a => int_of_ascii base a
  end.

Local Close Scope N_scope.

(* ------------------------------------------------------------------ *)
(** ** Exceptions *)
(* ------------------------------------------------------------------ *)

(** The classes of [Exception] the program can meet. [OtherError] stands
    for any class the handlers do not tell apart (the errors of the model
    service among them). *)
Inductive exn_class :=
| JSONDecodeError | AttributeError | TypeError | ValueError
| OverflowError | ZeroDivisionError | IndexError | OtherError.

(** An exception: its class and [str(e)]. *)
Record exn := Exn { exn_kind : exn_class; exn_message : pystr }.

Inductive result (A : Type) :=
| Ok (a : A)
| Raise (e : exn).
Arguments Ok {A} a.
Arguments Raise {A} e.

Definition bind {A B} (r : result A) (k : A -> result B) : result B :=
  match r with
  | Ok a => k a
  | Raise e => Raise e
  end.

Definition raise {A} (c : exn_class) (msg : string) : result A :=
  Raise (Exn c (str msg)).

Definition is_ok {A} (r : result A) : bool :=
  match r with Ok _ => true | Raise _ => false end.

Definition is_json_decode_error (e : exn) : bool :=
  match exn_kind e with JSONDecodeError => true | _ => false end.

(** Runs [f] over a list from the left, stopping at the first exception. *)
Fixpoint fold_result {A S} (f : S -> A -> result S) (l : list A) (s : S)
  : result S :=
  match l with
  | [] => Ok s
  | a :: l' => bind (f s a) (fold_result f l')
  end.

End Py.

Declare Scope py_scope.
Delimit Scope py_scope with py.
Notation "x <- e ;; k" := (Py.bind e (fun x => k))
  (at level 61, e at next level, right associativity) : py_scope.
Notation "' pat <- e ;; k" := (Py.bind e (fun x => match x with pat => k end))
  (at level 61, pat pattern, e at next level, right associativity) : py_scope.
Open Scope py_scope.

(* ================================================================== *)
(** * Numbers: [int] and binary64 [float] *)
(* ================================================================== *)

Module F64.
Import Py.

Definition prec : Z := 53.
Definition emax : Z := 1024.

Definition div := SFdiv prec emax.
Definition mul := SFmul prec emax.
Definition sub := SFsub prec emax.

Definition is_finite (f : spec_float) : bool :=
  match f with
  | S754_zero _ | S754_finite _ _ _ => true
  | S754_infinity _ | S754_nan => false
  end.

(** The nearest float to an integer (ties to even), infinite past the range. *)
Definition nearest (z : Z) : spec_float :=
  binary_normalize prec emax z 0 false.

(** [float(z)] as the arithmetic operators apply it to an [int] operand. *)
Definition of_int (z : Z) : result spec_float :=
  let f := nearest z in
  if is_finite f then Ok f
  else raise OverflowError "int too large to convert to float".

(** [int(f)]: truncation toward zero. *)
Definition to_int (f : spec_float) : result Z :=
  match f with
  | S754_zero _ => Ok 0
  | S754_finite s m e =>
      let magnitude :=
        match e with
        | Z0 => Zpos m
        | Zpos _ => Zpos m * 2 ^ e
        | Zneg _ => Zpos m / 2 ^ (- e)
        end in
      Ok (if s then - magnitude else magnitude)
  | S754_infinity _ =>
      raise OverflowError "cannot convert float infinity to integer"
  | S754_nan => raise ValueError "cannot convert float NaN to integer"
  end.

(** [a / b] on two [int]s, [b] positive: the quotient correctly rounded. *)
Definition int_true_div (a b : Z) : result spec_float :=
  let q :=
    match a, b with
    | Z0, _ => S754_zero false
    | Zpos m, Zpos d =>
        div (S754_finite false m 0) (S754_finite false d 0)
    | Zneg m, Zpos d =>
        div (S754_finite true m 0) (S754_finite false d 0)
    | _, _ => S754_nan
    end in
  if is_finite q then Ok q
  else raise OverflowError "integer division result too large for a float".

(** Exact comparison of an integer with a float; [None] when unordered. *)
Definition compare_int_float (z : Z) (f : spec_float) : option comparison :=
  match f with
  | S754_nan => None
  | S754_infinity s => Some (if s then Gt else Lt)
  | S754_zero _ => Some (z ?= 0)
  | S754_finite s m e =>
      let sm := if s then Zneg m else Zpos m in
      match e with
      | Z0 => Some (z ?= sm)
      | Zpos _ => Some (z ?= sm * 2 ^ e)
      | Zneg _ => Some (z * 2 ^ (- e) ?= sm)
      end
  end.

End F64.

(* ================================================================== *)
(** * The values [json.loads] returns *)
(* ================================================================== *)

Module Json.
Import Py.

#[warnings="-register-all"] Inductive json :=
| JNull
| JBool (b : bool)
| JInt (z : Z)
| JFloat (f : spec_float)
| JStr (s : pystr)
| JArr (items : list json)
| JObj (fields : list (pystr * json)).

(** The name of the type of a value, as error messages give it. *)
Definition type_name (v : json) : string :=
  match v with
  | JNull => "NoneType"
  | JBool _ => "bool"
  | JInt _ => "int"
  | JFloat _ => "float"
  | JStr _ => "str"
  | JArr _ => "list"
  | JObj _ => "dict"
  end.

Definition no_attribute (v : json) (name : string) : string :=
  String.append "'"
    (String.append (type_name v)
       (String.append "' object has no attribute '" (String.append name "'"))).

(** A [dict] keeps one value per key; the first binding of a key is its value. *)
Fixpoint lookup (key : pystr) (fields : list (pystr * json)) : option json :=
  match fields with
  | [] => None
  | (k, v) :: rest => if str_eqb k key then Some v else lookup key rest
  end.

(** [obj.get(key, default)]: only a [dict] has the method. *)
Definition get (obj : json) (key : string) (default : json) : result json :=
  match obj with
  | JObj fields =>
      Ok (match lookup (str key) fields with
          | Some v => v
          | None => default
          end)
  | _ => raise AttributeError (no_attribute obj "get")
  end.

(** Truth value, as [if v], [not v] and [v or w] test it. *)
Definition truthy (v : json) : bool :=
  match v with
  | JNull => false
  | JBool b => b
  | JInt z => negb (z =? 0)
  | JFloat (S754_zero _) => false
  | JFloat _ => true
  | JStr s => match s with [] => false | _ => true end
  | JArr l => match l with [] => false | _ => true end
  | JObj d => match d with [] => false | _ => true end
  end.

(** [len(v)]. *)
Definition len (v : json) : result Z :=
  match v with
  | JStr s => Ok (Z.of_nat (List.length s))
  | JArr l => Ok (Z.of_nat (List.length l))
  | JObj d => Ok (Z.of_nat (List.length d))
  | _ =>
      raise TypeError
        (String.append "object of type '"
           (String.append (type_name v) "' has no len()"))
  end.

(** [for x in v]: a list yields its items, a [str] its characters, a [dict]
    its keys. *)
Definition iterate (v : json) : result (list json) :=
  match v with
  | JArr l => Ok l
  | JStr s => Ok (map (fun c => JStr [c]) s)
  | JObj d => Ok (map (fun kv => JStr (fst kv)) d)
  | _ =>
      raise TypeError
        (String.append "'" (String.append (type_name v) "' object is not iterable"))
  end.

(** [v == s] for a [str] literal [s]. *)
Definition eq_str (v : json) (s : string) : bool :=
  match v with
  | JStr t => str_eqb t (str s)
  | _ => false
  end.

(** Numbers: [int] (and [bool], its subclass) or [float]. *)
Inductive num :=
| NInt (z : Z)
| NFloat (f : spec_float).

Definition as_num (v : json) : option num :=
  match v with
  | JBool b => Some (NInt (if b then 1 else 0))
  | JInt z => Some (NInt z)
  | JFloat f => Some (NFloat f)
  | _ => None
  end.

(** Comparison of two numbers is exact; [None] when one is NaN. *)
Definition num_compare (a b : num) : option comparison :=
  match a, b with
  | NInt x, NInt y => Some (x ?= y)
  | NInt x, NFloat g => F64.compare_int_float x g
  | NFloat f, NInt y =>
      match F64.compare_int_float y f with
      | Some c => Some (CompOpp c)
      | None => None
      end
  | NFloat f, NFloat g => SFcompare f g
  end.

Definition num_lt (a b : num) : bool :=
  match num_compare a b with Some Lt => true | _ => false end.
Definition num_gt (a b : num) : bool :=
  match num_compare a b with Some Gt => true | _ => false end.

Definition operands_message (op : string) (a b : json) : string :=
  String.append "'"
    (String.append op
       (String.append "' not supported between instances of '"
          (String.append (type_name a)
             (String.append "' and '" (String.append (type_name b) "'"))))).

(** [a > b] and [a < b]. In the program one operand is always an [int], so
    the other must be a number. *)
Definition gt (a b : json) : result bool :=
  match as_num a, as_num b with
  | Some x, Some y => Ok (num_gt x y)
  | _, _ => raise TypeError (operands_message ">" a b)
  end.

Definition lt (a b : json) : result bool :=
  match as_num a, as_num b with
  | Some x, Some y => Ok (num_lt x y)
  | _, _ => raise TypeError (operands_message "<" a b)
  end.

(** [max(a, b)] keeps [a] unless [b > a]; [min(a, b)] keeps [a] unless
    [b < a]. *)
Definition py_max (a b : json) : result json :=
  c <- gt b a ;; Ok (if c then b else a).
Definition py_min (a b : json) : result json :=
  c <- lt b a ;; Ok (if c then b else a).

Definition unsupported_operand (op : string) (v : json) : string :=
  String.append "unsupported operand type(s) for "
    (String.append op
       (String.append ": '" (String.append (type_name v) "' and 'int'"))).

(** [v / 100]. *)
Definition div_100 (v : json) : result spec_float :=
  match as_num v with
  | Some (NInt z) => F64.int_true_div z 100
  | Some (NFloat f) => Ok (F64.div f (F64.nearest 100))
  | None => raise TypeError (unsupported_operand "/" v)
  end.

(** [f * n] for a float [f] and an [int] [n]. *)
Definition mul_int (f : spec_float) (n : Z) : result spec_float :=
  g <- F64.of_int n ;; Ok (F64.mul f g).

(** [v - 1]. *)
Definition minus_one (v : json) : result json :=
  match as_num v with
  | Some (NInt z) => Ok (JInt (z - 1))
  | Some (NFloat f) => Ok (JFloat (F64.sub f (F64.nearest 1)))
  | None => raise TypeError (unsupported_operand "-" v)
  end.

End Json.

(* ================================================================== *)
(** * Colour resolution: [hex_to_rgb] *)
(* ================================================================== *)

Module Color.
Import Py Json.

Definition black : Z * Z * Z := (0, 0, 0).

(** [s[i:j]]. *)
Definition slice (s : pystr) (i j : nat) : pystr := firstn (j - i) (skipn i s).

(** [hex_to_rgb(hex_color)]. The argument is whatever the response held
    under the colour key. *)
Definition hex_to_rgb (hex_color : json) : result (Z * Z * Z) :=
  if negb (truthy hex_color) then Ok black
  else
    match hex_color with
    | JStr s =>
        let h := lstrip_chars (str "#") s in
        if (List.length h =? 6)%nat then
          match int_of_str 16 (slice h 0 2),
                int_of_str 16 (slice h 2 4),
                int_of_str 16 (slice h 4 6) with
          | Some r, Some g, Some b => Ok (r, g, b)
          | _, _, _ => Ok black
          end
        else Ok black
    | _ => raise AttributeError (no_attribute hex_color "lstrip")
    end.

(** The reading of the specification: one leading [#] is removed and the
    rest must be exactly six hexadecimal digits. *)
Definition is_hex_digit (c : char) : bool :=
  (((48 <=? c) && (c <=? 57)) || ((97 <=? c) && (c <=? 102))
  || ((65 <=? c) && (c <=? 70)))%N.

Definition without_one_hash (s : pystr) : pystr :=
  match s with
  | 35%N :: s' => s'
  | _ => s
  end.

Definition six_hex_digits (s : pystr) : bool :=
  (List.length s =? 6)%nat && forallb is_hex_digit s.

Definition hex_value (c : char) : Z :=
  match digit_value c with Some d => d | None => 0 end.

Definition pair_value (hi lo : char) : Z := 16 * hex_value hi + hex_value lo.

End Color.

(* ================================================================== *)
(** * The presentation being written *)
(* ================================================================== *)

Module Pptx.
Import Py Json.

(** A rendered page: the renderer is outside this development, so an image
    is named by the page it shows and the settings it was rendered with. *)
Record image := Image { image_page : nat; image_dpi : Z; image_for_ai : bool }.

Record rgb := RGB { red : Z; green : Z; blue : Z }.

Inductive alignment := ALIGN_LEFT | ALIGN_CENTER | ALIGN_RIGHT.

Record run := Run {
  run_text : pystr;
  run_size : Z;                 (* EMU, [Pt(font_size)] *)
  run_color : rgb;
  run_bold : option bool;
  run_italic : option bool;
  run_font_name : pystr
}.

Record paragraph := Paragraph {
  para_alignment : option alignment;
  para_level : Z;
  para_runs : list run
}.

Definition empty_paragraph : paragraph := Paragraph None 0 [].

Record box := Box { box_left : Z; box_top : Z; box_width : Z; box_height : Z }.

Inductive shape :=
| Picture (img : image) (at_ : box)
| TextBox (at_ : box) (word_wrap : bool) (paragraphs : list paragraph).

Record slide := Slide {
  slide_fill : option rgb;        (* solid background colour, if set *)
  slide_shapes : list shape       (* drawing order, back to front *)
}.

Definition blank_slide : slide := Slide None [].

(** English Metric Units. [Inches(x)] is [int(x * 914400)] and [Pt(x)] is
    [int(x * 12700)]; the constants are those the program uses, with the
    decimal literal given as a quotient. *)
Definition EMU_PER_INCH : Z := 914400.
Definition EMU_PER_PT : Z := 12700.

Definition Inches_literal (numerator denominator : Z) : result Z :=
  x <- F64.int_true_div numerator denominator ;;
  y <- mul_int x EMU_PER_INCH ;;
  F64.to_int y.

Definition Inches_0_2 : Z := 182880.
Definition Inches_0_4 : Z := 365760.
Definition Inches_0_6 : Z := 548640.
Definition Inches_1 : Z := 914400.
Definition Inches_2 : Z := 1828800.
Definition Inches_7_5 : Z := 6858000.
Definition Inches_10 : Z := 9144000.
Definition Inches_13_333 : Z := 12191695.

Definition Pt (points : json) : result Z :=
  match as_num points with
  | Some (NInt z) => Ok (z * EMU_PER_PT)
  | Some (NFloat f) => y <- mul_int f EMU_PER_PT ;; F64.to_int y
  | None => raise TypeError (unsupported_operand "*" points)
  end.

(** [run.text = line]. The writer spells a control character [_xHHHH_] in
    the file and refuses a text XML cannot hold: a surrogate cannot be
    encoded ([UnicodeEncodeError], a [ValueError]), and U+FFFE and U+FFFF are
    no XML characters. The run keeps the text assigned. *)
Definition is_surrogate (c : char) : bool :=
  ((55296 <=? c) && (c <=? 57343))%N.

Definition xml_compatible (c : char) : bool :=
  negb (is_surrogate c) && negb ((c =? 65534) || (c =? 65535))%N.

Definition assign_text (text : pystr) : result pystr :=
  if existsb is_surrogate text
  then raise ValueError
         "'utf-8' codec can't encode character: surrogates not allowed"
  else if forallb xml_compatible text then Ok text
  else raise ValueError
         "All strings must be XML compatible: Unicode or ASCII, no NULL bytes or control characters".

(** [shapes.add_picture] and [shapes.add_textbox] append to the shape tree. *)
Definition add_shape (s : slide) (sh : shape) : slide :=
  Slide (slide_fill s) (slide_shapes s ++ [sh]).

(** Removing the shape just added and inserting it at the first drawable
    position of the shape tree. *)
Definition send_last_to_back (s : slide) : slide :=
  match rev (slide_shapes s) with
  | [] => s
  | last :: before => Slide (slide_fill s) (last :: rev before)
  end.

(** The checks the writer makes on assignment. [RGBColor] takes three
    integers in 0..255; a paragraph level is an integer in 0..8; a bold or
    italic flag is [None] or a value equal to [True] or [False]. *)
Definition RGBColor (c : Z * Z * Z) : result rgb :=
  let '(r, g, b) := c in
  let ok v := (0 <=? v) && (v <=? 255) in
  if ok r && ok g && ok b then Ok (RGB r g b)
  else raise ValueError "RGBColor() takes three integer values 0-255".

Definition check_level (v : json) : result Z :=
  match as_num v with
  | Some (NInt z) =>
      if (0 <=? z) && (z <=? 8) then Ok z
      else raise ValueError "value must be in range 0 to 8 inclusive"
  | _ => raise TypeError "value must be an integral type"
  end.

Definition check_flag (v : json) : result (option bool) :=
  match v with
  | JNull => Ok None
  | _ =>
      match as_num v with
      | Some n =>
          match num_compare n (NInt 1), num_compare n (NInt 0) with
          | Some Eq, _ => Ok (Some true)
          | _, Some Eq => Ok (Some false)
          | _, _ => raise TypeError "only True or False may be assigned"
          end
      | None => raise TypeError "only True or False may be assigned"
      end
  end.

End Pptx.

(* ================================================================== *)
(** * The slide reconstructor: [create_slide_from_ai_data] *)
(* ================================================================== *)

Module Reconstructor.
Import Py Json Color Pptx.

(** One percentage of [position], scaled: [int((v / 100) * extent)]. *)
Definition scale (v : json) (extent : Z) : result Z :=
  pct <- div_100 v ;;
  x <- mul_int pct extent ;;
  F64.to_int x.

(** The four coordinates as computed from the percentages, before any
    adjustment. All four quotients are taken first, then the products. *)
Definition scaled_position (pos : json) (slide_width slide_height : Z)
  : result box :=
  x <- get pos "x_percent" (JInt 5) ;;
  x_pct <- div_100 x ;;
  y <- get pos "y_percent" (JInt 5) ;;
  y_pct <- div_100 y ;;
  w <- get pos "width_percent" (JInt 90) ;;
  w_pct <- div_100 w ;;
  h <- get pos "height_percent" (JInt 15) ;;
  h_pct <- div_100 h ;;
  left <- (f <- mul_int x_pct slide_width ;; F64.to_int f) ;;
  top <- (f <- mul_int y_pct slide_height ;; F64.to_int f) ;;
  width <- (f <- mul_int w_pct slide_width ;; F64.to_int f) ;;
  height <- (f <- mul_int h_pct slide_height ;; F64.to_int f) ;;
  Ok (Box left top width height).

(** "Ensure minimum dimensions". *)
Definition ensure_minimum (b : box) : box :=
  let width := if box_width b <? Inches_1 then Inches_2 else box_width b in
  let height :=
    if box_height b <? Inches_0_4 then Inches_0_6 else box_height b in
  Box (box_left b) (box_top b) width height.

(** "Clamp to slide boundaries". *)
Definition clamp_to_slide (slide_width slide_height : Z) (b : box) : box :=
  let left := if box_left b <? 0 then Inches_0_2 else box_left b in
  let top := if box_top b <? 0 then Inches_0_2 else box_top b in
  let width :=
    if left + box_width b >? slide_width
    then slide_width - left - Inches_0_2 else box_width b in
  let height :=
    if top + box_height b >? slide_height
    then slide_height - top - Inches_0_2 else box_height b in
  Box left top width height.

Definition element_box (pos : json) (slide_width slide_height : Z)
  : result box :=
  b <- scaled_position pos slide_width slide_height ;;
  Ok (clamp_to_slide slide_width slide_height (ensure_minimum b)).

(** [text.strip()] on whatever the element holds as its text. *)
Definition strip_text (v : json) : result pystr :=
  match v with
  | JStr s => Ok (strip s)
  | _ => raise AttributeError (no_attribute v "strip")
  end.

(** The lines of an element's text. *)
Definition text_lines (text : pystr) : list pystr :=
  if contains text [newline] then split_on newline text else [text].

Definition bullet_chars : pystr := bullet_glyph :: str "-* ".

Definition is_bullet_line (line : pystr) : bool :=
  startswith line [bullet_glyph] || startswith line (str "-")
  || startswith line (str "*").

(** The text a line is emitted with: [line] is already stripped. *)
Definition emitted_text (line : pystr) : pystr :=
  if is_bullet_line line then strip (lstrip_chars bullet_chars line)
  else line.

Definition resolve_alignment (style : json) : result alignment :=
  a <- get style "alignment" (JStr (str "left")) ;;
  Ok (if eq_str a "center" then ALIGN_CENTER
      else if eq_str a "right" then ALIGN_RIGHT
      else ALIGN_LEFT).

(** The level assigned to the paragraph, or [None] when it is left alone:
    [max(0, (bullet_level or 1) - 1)] under the three-way condition, whose
    first test is [bullet_level > 0]. *)
Definition resolve_level (bullet_level elem_type : json) (bullet_line : bool)
  : result (option Z) :=
  positive <- gt bullet_level (JInt 0) ;;
  if positive || bullet_line || eq_str elem_type "bullet" then
    let declared := if truthy bullet_level then bullet_level else JInt 1 in
    below <- minus_one declared ;;
    level <- py_max (JInt 0) below ;;
    lvl <- check_level level ;;
    Ok (Some lvl)
  else Ok None.

(** The declared font size: a [str] is parsed after removing every "pt",
    and any failure of that gives 18; another value is taken as it is. *)
Definition declared_font_size (style : json) : result json :=
  v <- get style "font_size" (JInt 18) ;;
  match v with
  | JStr s =>
      Ok (JInt (match int_of_str 10 (remove_all (str "pt") s) with
                | Some z => z
                | None => 18
                end))
  | _ => Ok v
  end.

(** Floors and ceiling by kind, then the clamp to the range 10..60. *)
Definition adjust_font_size (elem_type font_size : json) : result json :=
  by_kind <-
    (if eq_str elem_type "title" then py_max font_size (JInt 32)
     else if eq_str elem_type "subtitle" then py_max font_size (JInt 24)
     else if eq_str elem_type "heading" then py_max font_size (JInt 22)
     else if eq_str elem_type "caption" then py_min font_size (JInt 14)
     else Ok font_size) ;;
  capped <- py_min (JInt 60) by_kind ;;
  py_max (JInt 10) capped.

Definition resolve_font_size (style elem_type : json) : result Z :=
  declared <- declared_font_size style ;;
  font_size <- adjust_font_size elem_type declared ;;
  Pt font_size.

Definition resolve_color (style : json) : result rgb :=
  c <- get style "font_color" (JStr (str "#000000")) ;;
  triple <- hex_to_rgb c ;;
  RGBColor triple.

(** [style.get("bold", False) or elem_type in ["title", "heading"]]. *)
Definition resolve_bold (style elem_type : json) : result (option bool) :=
  b <- get style "bold" (JBool false) ;;
  if truthy b then check_flag b
  else Ok (Some (eq_str elem_type "title" || eq_str elem_type "heading")).

Definition resolve_italic (style : json) : result (option bool) :=
  i <- get style "italic" (JBool false) ;;
  check_flag i.

(** The run of one line: text, size, colour, bold, italic and the fixed
    family, in the order the program assigns them. *)
Definition make_run (style elem_type : json) (text : pystr) : result run :=
  text <- assign_text text ;;
  size <- resolve_font_size style elem_type ;;
  color <- resolve_color style ;;
  bold <- resolve_bold style elem_type ;;
  italic <- resolve_italic style ;;
  Ok (Run text size color bold italic (str "Arial")).

(** Alignment, level and run written into a paragraph. *)
Definition fill_paragraph (p : paragraph) (a : alignment) (level : option Z)
  (r : run) : paragraph :=
  Paragraph (Some a)
            (match level with Some l => l | None => para_level p end)
            (para_runs p ++ [r]).

(** One turn of the loop over [enumerate(lines)]: [paras] are the
    paragraphs of the text frame, which starts with one empty paragraph. *)
Definition add_line (style bullet_level elem_type : json)
  (paras : list paragraph) (i : nat) (raw : pystr) : result (list paragraph) :=
  let line := strip raw in
  match line with
  | [] => Ok paras
  | _ :: _ =>
      a <- resolve_alignment style ;;
      level <- resolve_level bullet_level elem_type (is_bullet_line line) ;;
      r <- make_run style elem_type (emitted_text line) ;;
      match i with
      | O =>
          match paras with
          | p0 :: rest => Ok (fill_paragraph p0 a level r :: rest)
          | [] => raise IndexError "tuple index out of range"
          end
      | S _ => Ok (paras ++ [fill_paragraph empty_paragraph a level r])
      end
  end.

Fixpoint add_lines (style bullet_level elem_type : json) (i : nat)
  (lines : list pystr) (paras : list paragraph) : result (list paragraph) :=
  match lines with
  | [] => Ok paras
  | raw :: rest =>
      paras' <- add_line style bullet_level elem_type paras i raw ;;
      add_lines style bullet_level elem_type (S i) rest paras'
  end.

(** One turn of the loop over the elements. *)
Definition add_element (slide_width slide_height : Z) (s : slide)
  (elem : json) : result slide :=
  t <- get elem "text" (JStr []) ;;
  text <- strip_text t ;;
  match text with
  | [] => Ok s
  | _ :: _ =>
      pos <- get elem "position" (JObj []) ;;
      style <- get elem "style" (JObj []) ;;
      b <- element_box pos slide_width slide_height ;;
      bullet_level <- get elem "bullet_level" (JInt 0) ;;
      elem_type <- get elem "type" (JStr (str "body")) ;;
      paras <- add_lines style bullet_level elem_type 0 (text_lines text)
                 [empty_paragraph] ;;
      Ok (add_shape s (TextBox b true paras))
  end.

(** The background of a new slide: the picture at full bleed, sent to the
    back, or else the solid colour of [background_color]. *)
Definition set_background (slide_data : json) (slide_width slide_height : Z)
  (background_image : option image) : result slide :=
  match background_image with
  | Some img =>
      Ok (send_last_to_back
            (add_shape blank_slide
               (Picture img (Box 0 0 slide_width slide_height))))
  | None =>
      bg_color <- get slide_data "background_color" (JStr (str "#FFFFFF")) ;;
      triple <- hex_to_rgb bg_color ;;
      fill <- RGBColor triple ;;
      Ok (Slide (Some fill) [])
  end.

(** [create_slide_from_ai_data(prs, slide_data, slide_width, slide_height,
    background_image)]: the slide appended to the presentation, or the
    exception that leaves the function. *)
Definition create_slide_from_ai_data (slide_data : json)
  (slide_width slide_height : Z) (background_image : option image)
  : result slide :=
  s <- set_background slide_data slide_width slide_height background_image ;;
  elements <- get slide_data "elements" (JArr []) ;;
  elems <- iterate elements ;;
  fold_result (add_element slide_width slide_height) elems s.

End Reconstructor.

(* ================================================================== *)
(** * The content extractor: [analyze_slide_with_gemini] *)
(* ================================================================== *)

Module Extractor.
Import Py Json Pptx.

(** What the call of the model service in the [try] body (the image part
    is built, then [client.models.generate_content] is called) can do:
    return a response, whose [text] may be absent, or raise an [Exception]. *)
Inductive call_outcome :=
| Returned (text : option pystr)
| Raised (e : exn).

Record request := Request { request_model : pystr; request_image : image }.

(** What the outside world sees of a run: the calls made, each with the
    outcome it had, and the pauses taken. *)
Inductive event :=
| Called (model : pystr) (outcome : call_outcome)
| Slept (seconds : Z).

(** The state threaded through a run: how many calls were made so far and
    the events in the order they happened. *)
Record world := World { calls : nat; log : list event }.

Definition start : world := World 0 [].

Definition record_call (w : world) (model : pystr) (o : call_outcome) : world :=
  World (S (calls w)) (log w ++ [Called model o]).

Definition sleep (seconds : Z) (w : world) : world :=
  World (calls w) (log w ++ [Slept seconds]).

(** The fallback order of the models. *)
Definition models : list pystr :=
  [str "gemini-2.5-flash-lite"; str "gemini-2.5-flash"; str "gemini-2.0-flash"].

Definition default_max_retries : nat := 3.

Definition fence : pystr := str "```".
Definition json_fence : pystr := str "```json".

(** The response text with its markdown fence removed. *)
Definition clean_response (text : pystr) : pystr :=
  let t := strip text in
  let t := if startswith t json_fence then drop_front 7 t
           else if startswith t fence then drop_front 3 t
           else t in
  let t := if endswith t fence then drop_back 3 t else t in
  strip t.

(** The rate-limit signature looked for in [str(e)]. *)
Definition rate_limited (e : exn) : bool :=
  contains (exn_message e) (str "429")
  || contains (exn_message e) (str "RESOURCE_EXHAUSTED").

(** How one turn of the retry loop ends. *)
Inductive attempt_exit :=
| Return (slide_data : option json)   (* the function returns *)
| NextModel.                          (* the loop over attempts is left *)

Section Service.

(** [json.loads]: the value read, or the exception raised
    ([JSONDecodeError] on text that is not JSON). *)
Variable json_loads : pystr -> result json.

(** The model service: the outcome of the n-th call made to it. *)
Variable api : nat -> request -> call_outcome.

(** The body of the [try]: from the outcome of the call to the slide data. *)
Definition read_response (o : call_outcome) : result json :=
  match o with
  | Raised e => Raise e
  | Returned None => raise AttributeError "'NoneType' object has no attribute 'strip'"
  | Returned (Some text) =>
      slide_data <- json_loads (clean_response text) ;;
      elements <- get slide_data "elements" (JArr []) ;;
      _ <- len elements ;;
      Ok slide_data
  end.

(** The loop [for attempt in range(max_retries)] for one model, entered at
    [attempt] with [remaining] turns left. *)
Fixpoint try_model (model : pystr) (img : image) (attempt remaining : nat)
  (w : world) : attempt_exit * world :=
  match remaining with
  | O => (NextModel, w)
  | S remaining' =>
      let o := api (calls w) (Request model img) in
      let w1 := record_call w model o in
      match read_response o with
      | Ok slide_data => (Return (Some slide_data), w1)
      | Raise e =>
          if is_json_decode_error e then (Return None, w1)
          else if rate_limited e then
            let wait_time := 15 * (Z.of_nat attempt + 1) in
            try_model model img (S attempt) remaining' (sleep wait_time w1)
          else (NextModel, w1)
      end
  end.

(** The loop [for model_name in models]. *)
Fixpoint try_models (ms : list pystr) (img : image) (max_retries : nat)
  (w : world) : option json * world :=
  match ms with
  | [] => (None, w)
  | model :: rest =>
      match try_model model img 0 max_retries w with
      | (Return r, w') => (r, w')
      | (NextModel, w') => try_models rest img max_retries w'
      end
  end.

(** [analyze_slide_with_gemini(client, image, slide_num, max_retries)]: the
    slide data or [None], and the world after the calls. *)
Definition analyze_slide_with_gemini (img : image) (slide_num : Z)
  (max_retries : nat) (w : world) : option json * world :=
  try_models models img max_retries w.

End Service.

(** A response text that [json.loads] refuses with [JSONDecodeError]. *)
Definition malformed (json_loads : pystr -> result json) (text : pystr) : bool :=
  match json_loads (clean_response text) with
  | Raise e => is_json_decode_error e
  | Ok _ => false
  end.

(** In the events [evs], no event follows a call whose response is
    malformed, and [stops] holds when there is such a call. *)
Definition ends_at_malformed (json_loads : pystr -> result json)
  (evs : list event) (stops : Prop) : Prop :=
  forall before model text after,
    evs = before ++ Called model (Returned (Some text)) :: after ->
    malformed json_loads text = true ->
    stops /\ after = [].

(** The errors the second handler sees: with the rate-limit signature, or
    without it. *)
Definition rate_limit_error (e : exn) : bool :=
  negb (is_json_decode_error e) && rate_limited e.
Definition other_error (e : exn) : bool :=
  negb (is_json_decode_error e) && negb (rate_limited e).

Definition first_model : pystr := str "gemini-2.5-flash-lite".
Definition second_model : pystr := str "gemini-2.5-flash".

(** The event is a call of the model [m]. *)
Definition calls_model (m : pystr) (e : event) : bool :=
  match e with
  | Called m' _ => str_eqb m m'
  | Slept _ => false
  end.

End Extractor.

(* ================================================================== *)
(** * The driver: [create_pptx_from_pdf_with_ai] *)
(* ================================================================== *)

Module Driver.
Import Py Json Pptx Extractor.

(** A page of the document, with the size of its rectangle. *)
Record page := Page { page_id : nat; pdf_width : spec_float; pdf_height : spec_float }.

(** [render_page_to_pil_image(page, dpi, for_ai)]. *)
Definition render_page_to_pil_image (p : page) (dpi : Z) (for_ai : bool) : image :=
  Image (page_id p) dpi for_ai.

(** The slide size, chosen from the first page: wide when the aspect ratio
    exceeds 1.5, standard otherwise. *)
Definition one_and_a_half : spec_float := F64.div (F64.nearest 3) (F64.nearest 2).

Definition slide_size (doc : list page) : result (Z * Z) :=
  match doc with
  | [] => raise IndexError "page not in document"
  | first_page :: _ =>
      match pdf_height first_page with
      | S754_zero _ => raise ZeroDivisionError "float division by zero"
      | _ =>
          let aspect_ratio := F64.div (pdf_width first_page) (pdf_height first_page) in
          if SFltb one_and_a_half aspect_ratio
          then Ok (Inches_13_333, Inches_7_5)
          else Ok (Inches_10, Inches_7_5)
      end
  end.

(** The slide that stands for a page whose extraction failed. *)
Definition fallback_slide (slide_width slide_height : Z) (bg_image : image) : slide :=
  add_shape blank_slide (Picture bg_image (Box 0 0 slide_width slide_height)).

(** [slide_data and slide_data.get("elements")] as a condition. *)
Definition has_elements (slide_data : option json) : result bool :=
  match slide_data with
  | None => Ok false
  | Some v =>
      if truthy v then
        e <- get v "elements" JNull ;;
        Ok (truthy e)
      else Ok false
  end.

(** A page passes when its extraction has no element, or when its slide
    data is reconstructed without an exception. *)
Definition page_passes (slide_width slide_height : Z) (p : page)
  (extracted : option json) : Prop :=
  has_elements extracted = Ok false
  \/ exists data s,
       extracted = Some data /\ has_elements extracted = Ok true
       /\ Reconstructor.create_slide_from_ai_data data slide_width slide_height
            (Some (render_page_to_pil_image p 200 false)) = Ok s.

(** The presentation so far, the failed pages and the world. *)
Record run_state := RunState {
  slides : list slide;
  failed_slides : list Z;
  outside : world
}.

Section Service.

Variable json_loads : pystr -> result json.
Variable api : nat -> request -> call_outcome.

(** The extraction of a page: what the extractor returns and the world
    after it. *)
Definition extract_page (page_num : nat) (p : page) (w : world)
  : option json * world :=
  analyze_slide_with_gemini json_loads api
    (render_page_to_pil_image p 100 true) (Z.of_nat page_num + 1)
    default_max_retries w.

(** The pause between pages, skipped after the last. *)
Definition pace (total_pages page_num : nat) (w : world) : world :=
  if (Z.of_nat page_num <? Z.of_nat total_pages - 1) then sleep 10 w else w.

(** One turn of the loop over the pages. *)
Definition process_page (slide_width slide_height : Z) (total_pages : nat)
  (st : run_state) (page_num : nat) (p : page) : result run_state :=
  let bg_image := render_page_to_pil_image p 200 false in
  let '(slide_data, w) := extract_page page_num p (outside st) in
  editable <- has_elements slide_data ;;
  st' <-
    match slide_data, editable with
    | Some data, true =>
        s <- Reconstructor.create_slide_from_ai_data data slide_width
               slide_height (Some bg_image) ;;
        Ok (RunState (slides st ++ [s]) (failed_slides st) w)
    | _, _ =>
        Ok (RunState
              (slides st ++ [fallback_slide slide_width slide_height bg_image])
              (failed_slides st ++ [Z.of_nat page_num + 1]) w)
    end ;;
  Ok (RunState (slides st') (failed_slides st')
        (pace total_pages page_num (outside st'))).

Fixpoint run_pages (slide_width slide_height : Z) (total_pages : nat)
  (pages : list page) (page_num : nat) (st : run_state) : result run_state :=
  match pages with
  | [] => Ok st
  | p :: rest =>
      st' <- process_page slide_width slide_height total_pages st page_num p ;;
      run_pages slide_width slide_height total_pages rest (S page_num) st'
  end.

(** The conversion of a document once the client exists: the final state,
    or the exception that ends the run. *)
Definition create_pptx_from_pdf_with_ai (doc : list page) (w : world)
  : result run_state :=
  '(slide_width, slide_height) <- slide_size doc ;;
  run_pages slide_width slide_height (List.length doc) doc 0
    (RunState [] [] w).

(** The world in which page [k] of [pages] is extracted, when the loop is
    entered at [page_num] in world [w]. *)
Fixpoint world_before (total_pages : nat) (pages : list page)
  (page_num : nat) (w : world) (k : nat) : world :=
  match k, pages with
  | S k', p :: rest =>
      world_before total_pages rest (S page_num)
        (pace total_pages page_num (snd (extract_page page_num p w))) k'
  | _, _ => w
  end.

End Service.
End Driver.

(* ================================================================== *)
(** * The start of the module: the [.env] file *)
(* ================================================================== *)

Module Env.
Import Py.

(** [os.environ]: the variables in the order they were set. *)
Definition environ := list (pystr * pystr).

Fixpoint getenv (key : pystr) (env : environ) : option pystr :=
  match env with
  | [] => None
  | (k, v) :: rest => if str_eqb k key then Some v else getenv key rest
  end.

Definition equals_sign : char := 61%N.

(** A character of a text read from a file, which holds no surrogate, and
    a character [os.environ] can encode: names and values are encoded as
    UTF-8, which refuses a surrogate other than those standing for an
    undecodable byte. *)
Definition scalar (c : char) : bool :=
  ((c <? 55296) || ((57344 <=? c) && (c <=? 1114111)))%N.

Definition encodable (c : char) : bool :=
  scalar c || ((56448 <=? c) && (c <=? 56575))%N.

(** [os.environ.setdefault(key, value)] on a POSIX system: the name is
    encoded and looked up, and a variable that is set is left alone; setting
    one encodes the value, refuses a null character in the name or the
    value and an equals sign in the name, and the system refuses the empty
    name. [UnicodeEncodeError] is a [ValueError]. Variables are told apart
    by their names as texts, which is exact for names without surrogates. *)
Definition setdefault (env : environ) (key value : pystr) : result environ :=
  if negb (forallb encodable key)
  then raise ValueError "'utf-8' codec can't encode character: surrogates not allowed"
  else
    match getenv key env with
    | Some _ => Ok env
    | None =>
        if negb (forallb encodable value)
        then raise ValueError "'utf-8' codec can't encode character: surrogates not allowed"
        else if char_in 0%N key || char_in 0%N value
        then raise ValueError "embedded null byte"
        else if char_in equals_sign key
        then raise ValueError "illegal environment variable name"
        else match key with
             | [] => raise OtherError "[Errno 22] Invalid argument"
             | _ :: _ => Ok (env ++ [(key, value)])
             end
    end.

(** [s.split('=', 1)] on a text that holds the separator: the text before
    the first one and the text after it. *)
Fixpoint split_first (sep : char) (s : pystr) : option (pystr * pystr) :=
  match s with
  | [] => None
  | c :: s' =>
      if N.eqb c sep then Some ([], s')
      else match split_first sep s' with
           | Some (before, after) => Some (c :: before, after)
           | None => None
           end
  end.

(** One turn of the loop over the lines of the file. *)
Definition load_line (env : environ) (raw : pystr) : result environ :=
  let line := strip raw in
  match line with
  | [] => Ok env
  | _ :: _ =>
      if negb (startswith line (str "#")) && contains line [equals_sign] then
        match split_first equals_sign line with
        | Some (key, value) => setdefault env (strip key) (strip value)
        | None => Ok env
        end
      else Ok env
  end.

(** The file, when it exists, read line by line. *)
Definition load_env (file : option (list pystr)) (env : environ)
  : result environ :=
  match file with
  | None => Ok env
  | Some lines => fold_result load_line lines env
  end.

(** [os.environ.get("GEMINI_API_KEY", "")]. *)
Definition GEMINI_API_KEY (env : environ) : pystr :=
  match getenv (str "GEMINI_API_KEY") env with
  | Some v => v
  | None => []
  end.

End Env.

(* ================================================================== *)
(** * The image-only path and [main] *)
(* ================================================================== *)

Module Main.
Import Py Json Pptx Extractor Driver.

(** The slide of a page in the image-only path: the page rendered at 200
    dpi, at full bleed. *)
Definition image_slide (slide_width slide_height : Z) (p : page) : slide :=
  add_shape blank_slide
    (Picture (Image (page_id p) 200 false) (Box 0 0 slide_width slide_height)).

(** [create_pptx_from_pdf_images(pdf_path, output_path)]: the slides
    written. *)
Definition create_pptx_from_pdf_images (doc : list page) : result (list slide) :=
  '(slide_width, slide_height) <- slide_size doc ;;
  fold_result (fun slides p =>
                 Ok (slides ++ [image_slide slide_width slide_height p]))
    doc [].

(** What [main] finds when it starts. *)
Record settings := Settings {
  input_exists : bool;
  GEMINI_AVAILABLE : bool;
  api_key : pystr
}.

(** What a run leaves behind. *)
Inductive output :=
| NoOutput
| Editable (final : run_state)
| ImagesOnly (written : list slide).

Definition is_set (key : pystr) : bool :=
  match key with [] => false | _ :: _ => true end.

Section Service.

Variable json_loads : pystr -> result json.
Variable api : nat -> request -> call_outcome.

(** [create_pptx_from_pdf_with_ai] from its first line: [None] stands for
    the two early returns of [False]. *)
Definition convert_with_ai (cfg : settings) (doc : list page) (w : world)
  : result (option run_state) :=
  if negb (GEMINI_AVAILABLE cfg) then Ok None
  else if negb (is_set (api_key cfg)) then Ok None
  else
    final <- create_pptx_from_pdf_with_ai json_loads api doc w ;;
    Ok (Some final).

(** [main()]. *)
Definition main (cfg : settings) (doc : list page) (w : world)
  : result output :=
  if negb (input_exists cfg) then Ok NoOutput
  else
    success <-
      (if GEMINI_AVAILABLE cfg && is_set (api_key cfg)
       then convert_with_ai cfg doc w
       else Ok None) ;;
    match success with
    | Some final => Ok (Editable final)
    | None =>
        written <- create_pptx_from_pdf_images doc ;;
        Ok (ImagesOnly written)
    end.

End Service.
End Main.

(* ================================================================== *)
(** * The text extractor: [extract_text_by_page] *)
(* ================================================================== *)

Module TextExtractor.
Import Py.

(** An element of a page layout: a text container with the text
    [get_text()] returns, or anything else. *)
Inductive layout_element :=
| LTTextContainer (text : pystr)
| LTOther.

(** [sep.join(parts)]. *)
Fixpoint join (sep : pystr) (parts : list pystr) : pystr :=
  match parts with
  | [] => []
  | [p] => p
  | p :: rest => p ++ sep ++ join sep rest
  end.

(** The texts collected from a page. *)
Fixpoint container_texts (layout : list layout_element) : list pystr :=
  match layout with
  | [] => []
  | LTTextContainer t :: rest => t :: container_texts rest
  | LTOther :: rest => container_texts rest
  end.

Definition cleaned_text (layout : list layout_element) : pystr :=
  strip (join [newline] (container_texts layout)).

(** [extract_text_by_page(pdf_path)], on the layouts [extract_pages]
    yields. *)
Definition extract_text_by_page (pages : list (list layout_element))
  : list pystr :=
  map cleaned_text pages.

End TextExtractor.

(* ================================================================== *)
(** * Vocabulary of the statements *)
(* ================================================================== *)

(** The response shape the prompt asks for, as a check on a parsed value:
    each field is absent or has the type the reconstructor handles. *)
Module Schema.
Import Py Json Pptx.

Definition is_object (v : json) : bool :=
  match v with JObj _ => true | _ => false end.

Definition is_string (v : json) : bool :=
  match v with JStr _ => true | _ => false end.

(** The field [key] of [obj] is absent or passes [ok]. *)
Definition field_is (obj : json) (key : string) (ok : json -> bool) : bool :=
  match obj with
  | JObj fields =>
      match lookup (str key) fields with
      | Some v => ok v
      | None => true
      end
  | _ => false
  end.

(** An [int] or a [bool]. *)
Definition int_like (v : json) : bool :=
  match v with JInt _ | JBool _ => true | _ => false end.

(** A percentage: an integer, here between -1000 and 1000. *)
Definition percent_ok (v : json) : bool :=
  match v with
  | JInt p => (-1000 <=? p) && (p <=? 1000)
  | _ => false
  end.

Definition position_ok (pos : json) : bool :=
  is_object pos
  && field_is pos "x_percent" percent_ok
  && field_is pos "y_percent" percent_ok
  && field_is pos "width_percent" percent_ok
  && field_is pos "height_percent" percent_ok.

(** A font size: an integer, a boolean or any text. *)
Definition font_size_ok (v : json) : bool :=
  match v with
  | JInt _ | JBool _ | JStr _ => true
  | _ => false
  end.

(** A colour: empty, or a text without a minus sign. *)
Definition color_ok (v : json) : bool :=
  negb (truthy v)
  || match v with
     | JStr s => negb (char_in 45%N s)
     | _ => false
     end.

Definition bold_ok (v : json) : bool :=
  match v with JBool _ => true | _ => false end.

Definition italic_ok (v : json) : bool :=
  match v with JBool _ | JNull => true | _ => false end.

(** A bullet level: a boolean or an integer up to 9. *)
Definition level_ok (v : json) : bool :=
  match v with
  | JInt z => z <=? 9
  | JBool _ => true
  | _ => false
  end.

Definition style_ok (style : json) : bool :=
  is_object style
  && field_is style "font_size" font_size_ok
  && field_is style "font_color" color_ok
  && field_is style "bold" bold_ok
  && field_is style "italic" italic_ok.

(** A text of printable characters: XML characters that are no control
    characters, tab, line feed and carriage return apart. *)
Definition printable (c : char) : bool :=
  xml_compatible c && ((32 <=? c) || (c =? 9) || (c =? 10) || (c =? 13))%N.

Definition text_ok (v : json) : bool :=
  match v with
  | JStr s => forallb printable s
  | _ => false
  end.

Definition element_ok (elem : json) : bool :=
  is_object elem
  && field_is elem "text" text_ok
  && field_is elem "position" position_ok
  && field_is elem "style" style_ok
  && field_is elem "bullet_level" level_ok.

Definition elements_ok (v : json) : bool :=
  match v with
  | JArr items => forallb element_ok items
  | _ => false
  end.

(** A slide content the reconstructor is given, with or without an image. *)
Definition content_ok (slide_data : json) (with_image : bool) : bool :=
  is_object slide_data
  && field_is slide_data "elements" elements_ok
  && (with_image || field_is slide_data "background_color" color_ok).

(** The content with every default written out: an absent field holds its
    default, a font size given as a text holds the integer read from it (18
    when none can be read), a colour that is empty or cannot be read holds
    black, an alignment other than centre and right holds left. A field of
    another kind is left as it is. *)
Definition field_or (fields : list (pystr * json)) (key : string)
  (default : json) : json :=
  match lookup (str key) fields with
  | Some v => v
  | None => default
  end.

Definition black_text : json := JStr (str "#000000").

Definition readable_color (s : pystr) : bool :=
  let h := lstrip_chars (str "#") s in
  (List.length h =? 6)%nat
  && match int_of_str 16 (Color.slice h 0 2),
           int_of_str 16 (Color.slice h 2 4),
           int_of_str 16 (Color.slice h 4 6) with
     | Some _, Some _, Some _ => true
     | _, _, _ => false
     end.

Definition explicit_color (c : json) : json :=
  if truthy c then
    match c with
    | JStr s => if readable_color s then c else black_text
    | _ => c
    end
  else black_text.

Definition explicit_font_size (v : json) : json :=
  match v with
  | JStr s =>
      JInt (match int_of_str 10 (remove_all (str "pt") s) with
            | Some z => z
            | None => 18
            end)
  | _ => v
  end.

Definition explicit_alignment (a : json) : json :=
  if eq_str a "center" || eq_str a "right" then a else JStr (str "left").

Definition explicit_style (style : json) : json :=
  match style with
  | JObj f =>
      JObj [(str "font_size",
             explicit_font_size (field_or f "font_size" (JInt 18)));
            (str "font_color",
             explicit_color (field_or f "font_color" black_text));
            (str "bold", field_or f "bold" (JBool false));
            (str "italic", field_or f "italic" (JBool false));
            (str "alignment",
             explicit_alignment (field_or f "alignment" (JStr (str "left"))))]
  | _ => style
  end.

Definition explicit_position (pos : json) : json :=
  match pos with
  | JObj f =>
      JObj [(str "x_percent", field_or f "x_percent" (JInt 5));
            (str "y_percent", field_or f "y_percent" (JInt 5));
            (str "width_percent", field_or f "width_percent" (JInt 90));
            (str "height_percent", field_or f "height_percent" (JInt 15))]
  | _ => pos
  end.

Definition explicit_element (elem : json) : json :=
  match elem with
  | JObj f =>
      JObj [(str "text", field_or f "text" (JStr []));
            (str "type", field_or f "type" (JStr (str "body")));
            (str "bullet_level", field_or f "bullet_level" (JInt 0));
            (str "position",
             explicit_position (field_or f "position" (JObj [])));
            (str "style", explicit_style (field_or f "style" (JObj [])))]
  | _ => elem
  end.

Definition explicit_elements (elements : json) : json :=
  match elements with
  | JArr items => JArr (map explicit_element items)
  | _ => elements
  end.

Definition explicit_content (slide_data : json) : json :=
  match slide_data with
  | JObj f =>
      JObj [(str "background_color",
             explicit_color
               (field_or f "background_color" (JStr (str "#FFFFFF"))));
            (str "elements",
             explicit_elements (field_or f "elements" (JArr [])))]
  | _ => slide_data
  end.

(** The two slide sizes the driver chooses between. *)
Definition driver_size (slide_width slide_height : Z) : bool :=
  ((slide_width =? Inches_10) || (slide_width =? Inches_13_333))
  && (slide_height =? Inches_7_5).

(** The widths and the height of those slides. *)
Definition extents : list Z := [Inches_10; Inches_13_333; Inches_7_5].

(** The integers from [lo], [n] of them, and the first [n] code points. *)
Definition zrange (lo : Z) (n : nat) : list Z :=
  map (fun k => lo + Z.of_nat k) (seq 0 n).
Definition nrange (n : nat) : list N := map N.of_nat (seq 0 n).

Definition is_ascii (c : char) : bool := (c <? 127)%N.

(** Characters that can take part in a number read by [int]: a hexadecimal
    digit, white space around it, or a sign before it. *)
Definition numeric_like (c : char) : bool :=
  Color.is_hex_digit c || c_isspace c || (c =? 43)%N || (c =? 45)%N.

(** The triple six hexadecimal digits denote. *)
Definition rgb_of_hex (h : pystr) : Z * Z * Z :=
  match h with
  | [a; b; c; d; e; f] =>
      (Color.pair_value a b, Color.pair_value c d, Color.pair_value e f)
  | _ => Color.black
  end.

Definition in_bullet_chars (c : char) : bool :=
  char_in c Reconstructor.bullet_chars.

(** The text boxes of a slide, and the texts of their paragraphs' runs. *)
Definition text_boxes (s : slide) : list box :=
  flat_map (fun sh => match sh with
                      | TextBox b _ _ => [b]
                      | Picture _ _ => []
                      end) (slide_shapes s).

Definition paragraph_texts (s : slide) : list (list (list pystr)) :=
  flat_map (fun sh => match sh with
                      | TextBox _ _ paras =>
                          [map (fun p => map run_text (para_runs p)) paras]
                      | Picture _ _ => []
                      end) (slide_shapes s).

(** The bounds a placed box keeps. *)
Definition within_slide (slide_width slide_height : Z) (b : box) : Prop :=
  0 <= box_left b /\ 0 <= box_top b
  /\ box_left b + box_width b <= slide_width
  /\ box_top b + box_height b <= slide_height
  /\ (Inches_1 <= box_width b
      \/ box_left b + box_width b = slide_width - Inches_0_2)
  /\ (Inches_0_4 <= box_height b
      \/ box_top b + box_height b = slide_height - Inches_0_2).

(** A coordinate [c] is the percentage [p] of [extent], to within one unit. *)
Definition scaled_from (c p extent : Z) : Prop :=
  Z.abs (100 * c - p * extent) <= 100.

End Schema.

(** Concrete inputs: slide contents, responses of the model service and a
    five-page document. *)
Module Scenarios.
Import Py Json Pptx Extractor Driver.

Definition obj (fields : list (string * json)) : json :=
  JObj (map (fun kv => (str (fst kv), snd kv)) fields).

Definition text (s : string) : json := JStr (str s).

(** Lines joined by line breaks. *)
Definition text_of_lines (ls : list string) : pystr :=
  List.concat (match map str ls with
               | [] => []
               | l :: rest => l :: map (cons newline) rest
               end).

(** A JSON text, written with an apostrophe for each double quote. *)
Definition json_text (s : string) : pystr :=
  map (fun c => if N.eqb c 39 then 34%N else c) (str s).

Local Open Scope string_scope.

Definition content_of (elems : list json) : json :=
  obj [("elements", JArr elems)].

Definition bullet_only_element : json :=
  obj [("text", JStr [bullet_glyph; 32%N])].

Definition agenda_element : json :=
  obj [("type", text "title");
       ("text", JStr (text_of_lines ["Agenda"; "- "; "Notes"]))].

Definition far_right_element : json :=
  obj [("text", text "Hello");
       ("position", obj [("x_percent", JInt 100); ("width_percent", JInt 50)])].

Definition narrow_element : json :=
  obj [("text", text "Hello");
       ("position", obj [("width_percent", JInt 11)])].

(** A position given by four integer percentages. *)
Definition position_of (x y w h : Z) : json :=
  obj [("x_percent", JInt x); ("y_percent", JInt y);
       ("width_percent", JInt w); ("height_percent", JInt h)].

Definition off_slide_position : json := obj [("x_percent", JInt 200)].
Definition edge_position : json := obj [("x_percent", JInt 100)].

Definition off_slide_element : json :=
  obj [("text", text "Hello"); ("position", off_slide_position)].

Definition text_percent_element : json :=
  obj [("text", text "Hello");
       ("position", obj [("x_percent", text "5")])].

Definition styled_element : json :=
  obj [("type", text "bullet");
       ("text", JStr (text_of_lines ["* First point"; ""; "- Second point"]));
       ("position", obj [("x_percent", JInt 5); ("y_percent", JInt 25);
                         ("width_percent", JInt 90); ("height_percent", JInt 50)]);
       ("style", obj [("font_size", text "20pt"); ("font_color", text "#1E90ff");
                      ("bold", JBool true); ("italic", JBool false);
                      ("alignment", text "center")]);
       ("bullet_level", JInt 2)].

(** A text that ends with the character U+FFFF. *)
Definition unwritable_element : json :=
  obj [("text", JStr (str "Total" ++ [65535%N])%list)].

(** An element that gives its text alone, one whose style cannot be read,
    and the same two with every default written out. *)
Definition bare_element : json := obj [("text", text "Hello")].

Definition vague_element : json :=
  obj [("text", text "Hello");
       ("style", obj [("font_size", text "large"); ("font_color", text "red");
                      ("alignment", text "justify")])].

Definition spelled_element : json :=
  obj [("text", text "Hello"); ("type", text "body"); ("bullet_level", JInt 0);
       ("position", position_of 5 5 90 15);
       ("style", obj [("font_size", JInt 18); ("font_color", text "#000000");
                      ("bold", JBool false); ("italic", JBool false);
                      ("alignment", text "left")])].

Definition spelled_content : json :=
  obj [("background_color", text "#FFFFFF");
       ("elements", JArr [spelled_element; spelled_element])].

Definition page_image (k : nat) : image := Image k 200 false.

(** Responses of the model, and [json.loads] on them: the three JSON
    texts are read as the values they denote, and a text that is not JSON is
    refused. Every other text is refused too; none occurs in the runs. *)
Definition refusal : pystr := str "I cannot read this slide.".

Definition title_text : pystr :=
  json_text "{'elements': [{'type': 'title', 'text': 'Agenda'}]}".
Definition title_content : json :=
  content_of [obj [("type", text "title"); ("text", text "Agenda")]].

Definition empty_text : pystr :=
  json_text "{'background_color': '#FFFFFF', 'elements': []}".
Definition empty_content : json :=
  obj [("background_color", text "#FFFFFF"); ("elements", JArr [])].

Definition text_percent_text : pystr :=
  json_text
    "{'elements': [{'text': 'Hello', 'position': {'x_percent': '5'}}]}".

Definition loads_known (t : pystr) : result json :=
  if str_eqb t title_text then Ok title_content
  else if str_eqb t empty_text then Ok empty_content
  else if str_eqb t text_percent_text then Ok (content_of [text_percent_element])
  else raise JSONDecodeError "Expecting value: line 1 column 1 (char 0)".

Definition quota_error : exn :=
  Exn OtherError (str "429 RESOURCE_EXHAUSTED. Quota exceeded.").

Definition server_error : exn :=
  Exn OtherError (str "500 INTERNAL. Try again later.").

(** An error of the class the first handler takes, raised by the call. *)
Definition decode_error : exn :=
  Exn JSONDecodeError (str "Expecting value: line 1 column 1 (char 0)").

Definition always_undecodable (n : nat) (r : request) : call_outcome :=
  Raised decode_error.

(** The service never returns JSON. *)
Definition always_refuses (n : nat) (r : request) : call_outcome :=
  Returned (Some refusal).

(** The service is rate limited on the first two calls. *)
Definition limited_twice (n : nat) (r : request) : call_outcome :=
  if (n <? 2)%nat then Raised quota_error else Returned (Some title_text).

(** The service gives the left percentage of every page as a text. *)
Definition percent_as_text (n : nat) (r : request) : call_outcome :=
  Returned (Some text_percent_text).

(** The service is rate limited once, then answers with a refusal. *)
Definition limited_then_refuses (n : nat) (r : request) : call_outcome :=
  if (n <? 1)%nat then Raised quota_error else Returned (Some refusal).

(** The service finds no element on the page of the third call. *)
Definition third_page_empty (n : nat) (r : request) : call_outcome :=
  if (n =? 2)%nat then Returned (Some empty_text)
  else Returned (Some title_text).

(** Five pages of 960 by 540 points. *)
Definition five_pages : list page :=
  map (fun k => Page k (F64.nearest 960) (F64.nearest 540)) (seq 0 5).

End Scenarios.

(** Measures and shapes the further statements speak of. *)
Module Measures.
Import Py Json Pptx Extractor.

(** A text neither begins nor ends with a white-space character. *)
Definition trimmed (s : pystr) : Prop :=
  match s with [] => True | c :: _ => isspace c = false end
  /\ match rev s with [] => True | c :: _ => isspace c = false end.

Definition blank (s : pystr) : bool := forallb isspace s.

(** The calls among some events, and the seconds slept. *)
Definition count_calls (evs : list event) : nat :=
  List.length (filter (fun e => match e with
                                | Called _ _ => true
                                | Slept _ => false
                                end) evs).

Fixpoint total_slept (evs : list event) : Z :=
  match evs with
  | [] => 0
  | Slept t :: rest => t + total_slept rest
  | Called _ _ :: rest => total_slept rest
  end.

(** The pauses of [seconds] among some events. *)
Definition count_pauses (seconds : Z) (evs : list event) : nat :=
  List.length (filter (fun e => match e with
                                | Slept t => t =? seconds
                                | Called _ _ => false
                                end) evs).

(** The events of a run from the world [w] to the world [w']. *)
Definition events_since (w w' : world) : list event :=
  skipn (List.length (log w)) (log w').

(** The events [evs] lead from the world [w] to the world [w']. *)
Definition spans (w w' : world) (evs : list event) : Prop :=
  log w' = log w ++ evs /\ calls w' = (calls w + count_calls evs)%nat.

(** The element's text, stripped, is not empty: it gets a text box. *)
Definition has_text (elem : json) : bool :=
  match elem with
  | JObj fields =>
      match lookup (str "text") fields with
      | Some (JStr s) => negb (blank s)
      | _ => false
      end
  | _ => false
  end.

(** The elements of a content, as the loop over them receives them. *)
Definition content_elements (slide_data : json) : result (list json) :=
  elements <- get slide_data "elements" (JArr []) ;;
  iterate elements.

(** The text an element holds, and the box its position gives. *)
Definition element_text (elem : json) : pystr :=
  match elem with
  | JObj fields =>
      match lookup (str "text") fields with
      | Some (JStr s) => s
      | _ => []
      end
  | _ => []
  end.

Definition placed_at (slide_width slide_height : Z) (elem : json)
  : result box :=
  pos <- get elem "position" (JObj []) ;;
  Reconstructor.element_box pos slide_width slide_height.

(** The texts of the runs of a paragraph. *)
Definition run_texts (p : paragraph) : list pystr :=
  map run_text (para_runs p).

(** The paragraphs a text is written as: for each line that is not blank,
    one paragraph with one run. *)
Definition written_lines (text : pystr) : list (list pystr) :=
  map (fun l => [Reconstructor.emitted_text (strip l)])
    (filter (fun l => negb (blank l)) (Reconstructor.text_lines (strip text))).

(** The lines of an element that are written: stripped, and not empty. *)
Definition visible_lines (elem : json) : list pystr :=
  map strip
    (filter (fun l => negb (blank l))
       (Reconstructor.text_lines (strip (element_text elem)))).

(** Segments of events joined by [sep]: one between two segments, none
    after the last. *)
Fixpoint interleave (sep : event) (segments : list (list event))
  : list event :=
  match segments with
  | [] => []
  | seg :: rest =>
      match rest with
      | [] => seg
      | _ :: _ => seg ++ sep :: interleave sep rest
      end
  end.

(** An event of the analysis of a page with three attempts a model: a
    call, or a back-off pause of 15, 30 or 45 seconds. *)
Definition extraction_event (e : event) : bool :=
  match e with
  | Called _ _ => true
  | Slept t => (t =? 15) || (t =? 30) || (t =? 45)
  end.

Definition is_text_box (sh : shape) : bool :=
  match sh with TextBox _ _ _ => true | Picture _ _ => false end.

(** The paragraphs of the text boxes of a slide, box by box. *)
Definition box_paragraphs (s : slide) : list (list paragraph) :=
  flat_map (fun sh => match sh with
                      | TextBox _ _ paras => [paras]
                      | Picture _ _ => []
                      end) (slide_shapes s).

(** A number lies between two integers, bounds included. *)
Definition num_between (lo hi : Z) (v : json) : Prop :=
  match as_num v with
  | Some n => num_lt n (NInt lo) = false /\ num_gt n (NInt hi) = false
              /\ num_compare n (NInt lo) <> None
  | None => False
  end.

End Measures.

(** Further concrete inputs. *)
Module Examples.
Import Py Json Pptx Extractor Driver Env Main TextExtractor Scenarios.

(** An environment that holds the key, and a file that gives another. *)
Definition real_key_env : environ := [(str "GEMINI_API_KEY", str "real-key")].

Definition env_file : list pystr :=
  [str "# settings" ++ [newline];
   [newline];
   str "GEMINI_API_KEY=from-file" ++ [newline];
   str " MODE = a=b " ++ [newline]].

(** A page layout: a figure between two text containers. *)
Definition sample_layout : list layout_element :=
  [LTTextContainer (str " Title" ++ [newline]); LTOther;
   LTTextContainer (str "Body text " ++ [newline])].

Definition blank_layout : list layout_element :=
  [LTOther; LTTextContainer [newline]; LTTextContainer (str "  ")].

(** A content with three elements, the second without visible text. *)
Definition three_elements : json :=
  content_of [styled_element; obj [("text"%string, text "  ")]; narrow_element].

(** A text whose second line begins with a bullet glyph and a minus sign. *)
Definition degrees_element : json :=
  obj [("text"%string, JStr (text_of_lines ["Forecast"; "- -5 degrees"]%string))].

(** The service is rate limited on every call. *)
Definition always_limited (n : nat) (r : request) : call_outcome :=
  Raised quota_error.

(** The service answers the second call, with a fenced response. *)
Definition fenced_title : pystr :=
  [newline] ++ json_fence ++ [newline] ++ title_text ++ [newline] ++ fence
  ++ [newline].

Definition answers_second (n : nat) (r : request) : call_outcome :=
  if (n <? 1)%nat then Raised server_error else Returned (Some fenced_title).

End Examples.

(* ================================================================== *)
(** * Properties *)
(* ================================================================== *)

Module ResultProps.
Import Py.

Lemma bind_ok {A B} (r : result A) (k : A -> result B) (b : B) :
  bind r k = Ok b -> exists a, r = Ok a /\ k a = Ok b.
Proof. destruct r as [a|e]; [|discriminate]. intros H. now exists a. Qed.

Lemma is_ok_true {A} (r : result A) : is_ok r = true -> exists a, r = Ok a.
Proof. destruct r as [a|e]; [|discriminate]. intros _. now exists a. Qed.

End ResultProps.

(** Splits a hypothesis [(x <- e ;; k) = Ok b] into [e = Ok a] and
    [k a = Ok b]. *)
Ltac bind_inv H :=
  let a := fresh "v" in
  let E := fresh "E" in
  apply ResultProps.bind_ok in H; destruct H as (a & E & H).

Module RangeProps.
Import Schema.

Lemma in_zrange (lo : Z) (n : nat) (z : Z) :
  lo <= z < lo + Z.of_nat n -> In z (zrange lo n).
Proof.
  intros H. unfold zrange. apply in_map_iff.
  exists (Z.to_nat (z - lo)). split; [lia|]. apply in_seq. lia.
Qed.

Lemma forallb_zrange (p : Z -> bool) (lo : Z) (n : nat) :
  forallb p (zrange lo n) = true ->
  forall z, lo <= z < lo + Z.of_nat n -> p z = true.
Proof.
  intros H z Hz. rewrite forallb_forall in H. apply H, in_zrange, Hz.
Qed.

Lemma forallb_nrange (p : N -> bool) (n : nat) :
  forallb p (nrange n) = true ->
  forall c, (c < N.of_nat n)%N -> p c = true.
Proof.
  intros H c Hc. rewrite forallb_forall in H. apply H.
  unfold nrange. apply in_map_iff. exists (N.to_nat c).
  split; [lia|]. apply in_seq. lia.
Qed.

End RangeProps.

(* ------------------------------------------------------------------ *)
(** ** Colour resolution *)
(* ------------------------------------------------------------------ *)

Module ColorProps.
Import Py Json Color Schema RangeProps.

(** Every pair of ASCII characters that [int(_, 16)] accepts is made of
    characters that can take part in a number; its value lies in -15..255
    and is negative only after a minus sign; two hexadecimal digits have the
    value they denote. *)
Lemma ascii_pairs_checked :
  forallb (fun a => forallb (fun b =>
    match int_of_ascii 16 [a; b] with
    | Some v =>
        numeric_like a && numeric_like b
        && (-15 <=? v) && (v <=? 255) && ((a =? 45)%N || (0 <=? v))
    | None => negb (is_hex_digit a && is_hex_digit b)
    end
    && (negb (is_hex_digit a && is_hex_digit b)
        || match int_of_ascii 16 [a; b] with
           | Some v => v =? pair_value a b
           | None => false
           end)) (nrange 127)) (nrange 127) = true.
Proof. vm_compute. reflexivity. Qed.

Lemma ascii_pair (a b : char) :
  (a < 127)%N -> (b < 127)%N ->
  match int_of_ascii 16 [a; b] with
  | Some v =>
      numeric_like a && numeric_like b
      && (-15 <=? v) && (v <=? 255) && ((a =? 45)%N || (0 <=? v))
  | None => negb (is_hex_digit a && is_hex_digit b)
  end
  && (negb (is_hex_digit a && is_hex_digit b)
      || match int_of_ascii 16 [a; b] with
         | Some v => v =? pair_value a b
         | None => false
         end) = true.
Proof.
  intros Ha Hb.
  pose proof (forallb_nrange _ _ ascii_pairs_checked a Ha) as H.
  cbv beta in H. exact (forallb_nrange _ _ H b Hb).
Qed.

Lemma is_hex_digit_ascii (c : char) : is_hex_digit c = true -> (c < 127)%N.
Proof.
  unfold is_hex_digit. intros H.
  repeat (apply orb_true_iff in H as [H|H]);
    apply andb_true_iff in H as [_ H]; apply N.leb_le in H; lia.
Qed.

Lemma to_ascii_char_below (c a : char) :
  to_ascii_char c = Some a -> (a < 127)%N /\ (a = 45%N -> c = 45%N).
Proof.
  unfold to_ascii_char. destruct (N.ltb_spec c 127) as [E|E].
  - intros [= <-]. split; [lia|auto].
  - destruct (isspace c); [intros [= <-]; split; [lia|discriminate]|].
    unfold unicode_decimal.
    destruct (find _ decimal_runs) as [b|] eqn:F; [|discriminate].
    apply find_some in F as [_ F]. apply andb_true_iff in F as [F1 F2].
    apply N.leb_le in F1. apply N.ltb_lt in F2.
    intros H. assert (Ha : a = (48 + (c - b))%N) by congruence.
    split; lia.
Qed.

Lemma to_ascii_char_hex (c : char) :
  is_hex_digit c = true -> to_ascii_char c = Some c.
Proof.
  intros H. apply is_hex_digit_ascii in H. unfold to_ascii_char.
  now rewrite (proj2 (N.ltb_lt _ _) H).
Qed.

Lemma int_of_hex_pair (a b : char) :
  is_hex_digit a = true -> is_hex_digit b = true ->
  int_of_str 16 [a; b] = Some (pair_value a b).
Proof.
  intros Ha Hb. unfold int_of_str. cbn [to_ascii_digits].
  rewrite (to_ascii_char_hex a Ha), (to_ascii_char_hex b Hb).
  pose proof (ascii_pair a b (is_hex_digit_ascii a Ha) (is_hex_digit_ascii b Hb)) as H.
  rewrite Ha, Hb in H. cbn [andb negb orb] in H.
  destruct (int_of_ascii 16 [a; b]) as [v|]; [|discriminate].
  apply andb_true_iff in H as [_ H]. apply Z.eqb_eq in H. now subst.
Qed.

(** The value of any accepted pair is at most 255 and is negative only
    after a minus sign. *)
Lemma int_of_pair_range (a b : char) (v : Z) :
  int_of_str 16 [a; b] = Some v ->
  -15 <= v <= 255 /\ (a <> 45%N -> 0 <= v).
Proof.
  unfold int_of_str. cbn [to_ascii_digits].
  destruct (to_ascii_char a) as [a'|] eqn:Ea; [|discriminate].
  destruct (to_ascii_char b) as [b'|] eqn:Eb; [|discriminate].
  apply to_ascii_char_below in Ea as [Ha Ha'].
  apply to_ascii_char_below in Eb as [Hb _].
  pose proof (ascii_pair a' b' Ha Hb) as H. intros E. rewrite E in H.
  apply andb_true_iff in H as [H _].
  repeat (apply andb_true_iff in H as [H ?]).
  split; [lia|]. intros Hne.
  destruct (N.eqb_spec a' 45) as [->|_]; [now elim Hne; apply Ha'|].
  cbn [orb] in *. lia.
Qed.

Lemma int_of_ascii_pair (a b : char) (v : Z) :
  is_ascii a = true -> is_ascii b = true ->
  int_of_str 16 [a; b] = Some v ->
  numeric_like a = true /\ numeric_like b = true.
Proof.
  unfold is_ascii. intros Ha Hb. apply N.ltb_lt in Ha, Hb.
  unfold int_of_str, to_ascii_digits, to_ascii_char.
  rewrite (proj2 (N.ltb_lt _ _) Ha), (proj2 (N.ltb_lt _ _) Hb).
  pose proof (ascii_pair a b Ha Hb) as H. intros E. rewrite E in H.
  apply andb_true_iff in H as [H _].
  repeat (apply andb_true_iff in H as [H ?]). now split.
Qed.

Lemma hex_to_rgb_str (s : pystr) :
  hex_to_rgb (JStr s) =
  let h := lstrip_chars (str "#") s in
  if (List.length h =? 6)%nat then
    match int_of_str 16 (slice h 0 2), int_of_str 16 (slice h 2 4),
          int_of_str 16 (slice h 4 6) with
    | Some r, Some g, Some b => Ok (r, g, b)
    | _, _, _ => Ok black
    end
  else Ok black.
Proof. destruct s as [|c s]; reflexivity. Qed.

Lemma length_six {A} (l : list A) :
  List.length l = 6%nat -> exists a b c d e f, l = [a; b; c; d; e; f].
Proof.
  destruct l as [|a [|b [|c [|d [|e [|f [|g l]]]]]]]; try discriminate.
  intros _. now exists a, b, c, d, e, f.
Qed.

(** C7, as amended: with every leading [#] removed, a text that is not six
    characters long resolves to black, six hexadecimal digits resolve to the
    triple they denote, and six ASCII characters of which one is neither a
    hexadecimal digit, white space nor a sign resolve to black; an empty or
    missing colour resolves to black. *)
Theorem hex_to_rgb_resolution (s : pystr) :
  let h := lstrip_chars (str "#") s in
  (List.length h <> 6%nat -> hex_to_rgb (JStr s) = Ok black)
  /\ (six_hex_digits h = true -> hex_to_rgb (JStr s) = Ok (rgb_of_hex h))
  /\ (List.length h = 6%nat -> forallb is_ascii h = true ->
      existsb (fun c => negb (numeric_like c)) h = true ->
      hex_to_rgb (JStr s) = Ok black)
  /\ hex_to_rgb (JStr []) = Ok black
  /\ hex_to_rgb JNull = Ok black.
Proof.
  intros h. rewrite hex_to_rgb_str. fold h. cbv zeta.
  repeat split.
  - intros Hlen. apply Nat.eqb_neq in Hlen. now rewrite Hlen.
  - unfold six_hex_digits. intros H. apply andb_true_iff in H as [Hlen Hhex].
    rewrite Hlen. apply Nat.eqb_eq, length_six in Hlen.
    destruct Hlen as (a & b & c & d & e & f & ->).
    cbn in Hhex. repeat (apply andb_true_iff in Hhex as [? Hhex]).
    cbn [slice skipn firstn Nat.sub].
    now rewrite !int_of_hex_pair.
  - intros Hlen Hascii Hbad. rewrite (proj2 (Nat.eqb_eq _ _) Hlen).
    apply length_six in Hlen. destruct Hlen as (a & b & c & d & e & f & E).
    rewrite E in *. cbn in Hascii, Hbad.
    repeat (apply andb_true_iff in Hascii as [? Hascii]).
    cbn [slice skipn firstn Nat.sub].
    destruct (int_of_str 16 [a; b]) eqn:E1; [|reflexivity].
    destruct (int_of_str 16 [c; d]) eqn:E2; [|reflexivity].
    destruct (int_of_str 16 [e; f]) eqn:E3; [|reflexivity].
    apply int_of_ascii_pair in E1 as [? ?]; [|assumption..].
    apply int_of_ascii_pair in E2 as [? ?]; [|assumption..].
    apply int_of_ascii_pair in E3 as [? ?]; [|assumption..].
    repeat match goal with
           | H : numeric_like _ = true |- _ => rewrite H in Hbad; clear H
           end.
    discriminate.
Qed.

(** The resolution at a colour of each kind. *)
Lemma hex_to_rgb_resolution_witness :
  hex_to_rgb (JStr (str "#12345")) = Ok black
  /\ hex_to_rgb (JStr (str "#1E90ff")) = Ok (30, 144, 255)
  /\ hex_to_rgb (JStr (str "#12G456")) = Ok black.
Proof.
  pose proof (hex_to_rgb_resolution (str "#12345")) as (H1 & _).
  pose proof (hex_to_rgb_resolution (str "#1E90ff")) as (_ & H2 & _).
  pose proof (hex_to_rgb_resolution (str "#12G456")) as (_ & _ & H3 & _).
  split; [apply H1; vm_compute; discriminate|].
  split; [apply H2; reflexivity|].
  apply H3; reflexivity.
Defined.

(** C7, as stated, fails: two leading [#] are both removed, so a text that
    is not six hexadecimal digits after removing one [#] resolves to red;
    and a sign is accepted in place of a digit. *)
Lemma hex_to_rgb_counterexample :
  six_hex_digits (without_one_hash (str "##FF0000")) = false
  /\ hex_to_rgb (JStr (str "##FF0000")) = Ok (255, 0, 0)
  /\ six_hex_digits (without_one_hash (str "#+F0000")) = false
  /\ hex_to_rgb (JStr (str "#+F0000")) = Ok (15, 0, 0).
Proof. repeat split; reflexivity. Qed.

End ColorProps.

(* ------------------------------------------------------------------ *)
(** ** The lines of an element *)
(* ------------------------------------------------------------------ *)

Module LineProps.
Import Py Json Pptx Reconstructor Schema Scenarios.

Lemma lstrip_by_split (p : char -> bool) (s : pystr) :
  exists run, s = run ++ lstrip_by p s /\ forallb p run = true.
Proof.
  induction s as [|c s IH]; [now exists []|].
  cbn [lstrip_by]. destruct (p c) eqn:E.
  - destruct IH as (run & Hs & Hrun). exists (c :: run). split.
    + cbn. now rewrite <- Hs.
    + cbn. now rewrite E.
  - now exists [].
Qed.

Lemma lstrip_by_head (p : char -> bool) (s : pystr) :
  match lstrip_by p s with
  | [] => True
  | c :: _ => p c = false
  end.
Proof.
  induction s as [|c s IH]; [exact I|].
  cbn [lstrip_by]. destruct (p c) eqn:E; [exact IH|exact E].
Qed.

Lemma lstrip_by_length (p : char -> bool) (s : pystr) :
  (List.length (lstrip_by p s) <= List.length s)%nat.
Proof.
  induction s as [|c s IH]; cbn; [lia|]. destruct (p c); cbn; lia.
Qed.

Lemma bullet_line_head (line : pystr) :
  is_bullet_line line = true ->
  exists c rest, line = c :: rest /\ in_bullet_chars c = true.
Proof.
  unfold is_bullet_line. destruct line as [|c rest]; [discriminate|].
  intros H. exists c, rest. split; [reflexivity|].
  unfold in_bullet_chars, char_in, bullet_chars. cbn in *.
  destruct (N.eqb c bullet_glyph); [reflexivity|].
  destruct (N.eqb c 45); [reflexivity|].
  destruct (N.eqb c 42); [reflexivity|discriminate].
Qed.

Lemma assign_text_inv (t v : pystr) :
  assign_text t = Ok v -> v = t /\ forallb xml_compatible t = true.
Proof.
  unfold assign_text. destruct (existsb is_surrogate t); [discriminate|].
  destruct (forallb xml_compatible t); [|discriminate]. now intros [= <-].
Qed.

Lemma make_run_text (style elem_type : json) (t : pystr) (r : run) :
  make_run style elem_type t = Ok r -> run_text r = t.
Proof.
  unfold make_run. intros H. bind_inv H. apply assign_text_inv in E as [-> _].
  repeat bind_inv H. now inversion H.
Qed.

(** What [add_line] writes for a line that is not blank: a paragraph holding
    a run with the emitted text. *)
Lemma add_line_writes (style bullet_level elem_type : json)
  (paras paras' : list paragraph) (i : nat) (raw : pystr) :
  strip raw <> [] ->
  add_line style bullet_level elem_type paras i raw = Ok paras' ->
  exists p r, In p paras' /\ In r (para_runs p)
              /\ run_text r = emitted_text (strip raw).
Proof.
  unfold add_line. intros Hne H.
  destruct (strip raw) as [|c line] eqn:E; [congruence|].
  repeat bind_inv H. apply make_run_text in E2.
  destruct i.
  - destruct paras as [|p0 rest]; [discriminate|]. inversion H; subst.
    exists (fill_paragraph p0 v v0 v1), v1. repeat split.
    + now left.
    + cbn. apply in_or_app. right. now left.
    + exact E2.
  - inversion H; subst.
    exists (fill_paragraph empty_paragraph v v0 v1), v1. repeat split.
    + apply in_or_app. right. now left.
    + cbn. now left.
    + exact E2.
Qed.

(** The text emitted for a line that begins with a bullet glyph: the line
    is a run of bullet glyphs and blanks followed by a rest which does not
    begin with such a character, and the text emitted is the rest,
    stripped; this is the text of the run written into the paragraph. *)
Lemma bullet_line_emitted (line : pystr) :
  is_bullet_line line = true ->
  exists run rest,
    line = run ++ rest
    /\ run <> []
    /\ forallb in_bullet_chars run = true
    /\ match rest with [] => True | c :: _ => in_bullet_chars c = false end
    /\ emitted_text line = strip rest
    /\ forall style bullet_level elem_type paras paras' i raw,
         strip raw = line ->
         add_line style bullet_level elem_type paras i raw = Ok paras' ->
         exists p r, In p paras' /\ In r (para_runs p)
                     /\ run_text r = strip rest.
Proof.
  intros Hb.
  destruct (lstrip_by_split in_bullet_chars line) as (run & Hs & Hrun).
  exists run, (lstrip_by in_bullet_chars line).
  assert (Hem : emitted_text line = strip (lstrip_by in_bullet_chars line)).
  { unfold emitted_text. now rewrite Hb. }
  split; [exact Hs|]. split.
  - destruct (bullet_line_head line Hb) as (c & rest & -> & Hc).
    cbn [lstrip_by] in Hs. rewrite Hc in Hs.
    destruct run; [|discriminate]. intros _. cbn in Hs.
    pose proof (lstrip_by_length in_bullet_chars rest) as Hl.
    rewrite <- Hs in Hl. cbn in Hl. lia.
  - split; [exact Hrun|]. split; [apply lstrip_by_head|].
    split; [exact Hem|].
    intros style bl et paras paras' i raw Hraw Hadd.
    rewrite <- Hem, <- Hraw.
    apply (add_line_writes style bl et paras paras' i raw); [|exact Hadd].
    rewrite Hraw. destruct (bullet_line_head line Hb) as (c & rest & -> & _).
    discriminate.
Qed.

(** C6 fails on the code: a line holding only a bullet glyph is not blank
    when the blank test is made, so it is kept; stripping the glyph then
    leaves the empty text, and a paragraph with an empty run is written.
    Shown for an element whose text is a bullet glyph and a blank, and for
    the middle line of a three-line element. *)
Theorem bullet_only_line_is_emitted :
  option_map paragraph_texts
    (match Reconstructor.create_slide_from_ai_data
             (content_of [bullet_only_element]) Inches_10 Inches_7_5
             (Some (page_image 0)) with
     | Ok s => Some s
     | Raise _ => None
     end) = Some [[[[]]]]
  /\ option_map paragraph_texts
       (match Reconstructor.create_slide_from_ai_data
                (content_of [agenda_element]) Inches_10 Inches_7_5
                (Some (page_image 0)) with
        | Ok s => Some s
        | Raise _ => None
        end) = Some [[[str "Agenda"]; [[]]; [str "Notes"]]].
Proof. split; vm_compute; reflexivity. Qed.

End LineProps.

(* ------------------------------------------------------------------ *)
(** ** The box of an element *)
(* ------------------------------------------------------------------ *)

Module BoxProps.
Import Py Json Pptx Reconstructor Schema Scenarios RangeProps.

(** The constants are the values the program computes. *)
Lemma Inches_values :
  Inches_literal 2 10 = Ok Inches_0_2 /\ Inches_literal 4 10 = Ok Inches_0_4
  /\ Inches_literal 6 10 = Ok Inches_0_6 /\ Inches_literal 1 1 = Ok Inches_1
  /\ Inches_literal 2 1 = Ok Inches_2 /\ Inches_literal 75 10 = Ok Inches_7_5
  /\ Inches_literal 10 1 = Ok Inches_10
  /\ Inches_literal 13333 1000 = Ok Inches_13_333.
Proof. repeat split; vm_compute; reflexivity. Qed.

Lemma clamped_box_within (slide_width slide_height : Z) (b : box) :
  within_slide slide_width slide_height
    (clamp_to_slide slide_width slide_height (ensure_minimum b)).
Proof.
  unfold within_slide, clamp_to_slide, ensure_minimum.
  unfold Inches_0_2, Inches_0_4, Inches_0_6, Inches_1, Inches_2.
  destruct b as [l t w h]. cbn [box_left box_top box_width box_height].
  destruct (Z.ltb_spec w 914400); destruct (Z.ltb_spec h 365760);
    destruct (Z.ltb_spec l 0); destruct (Z.ltb_spec t 0);
    repeat match goal with
           | |- context [?a >? ?b] => destruct (Z.gtb_spec a b)
           end; lia.
Qed.

Lemma element_box_within (pos : json) (slide_width slide_height : Z) (b : box) :
  element_box pos slide_width slide_height = Ok b ->
  within_slide slide_width slide_height b.
Proof.
  unfold element_box. intros H. bind_inv H. inversion H; subst.
  apply clamped_box_within.
Qed.

Lemma text_boxes_add_shape (s : slide) (sh : shape) :
  text_boxes (add_shape s sh) =
  text_boxes s ++ match sh with TextBox b _ _ => [b] | Picture _ _ => [] end.
Proof.
  unfold text_boxes, add_shape. cbn [slide_shapes].
  rewrite flat_map_app. cbn. now rewrite app_nil_r.
Qed.

Lemma add_element_boxes (slide_width slide_height : Z) (s s' : slide)
  (elem : json) :
  add_element slide_width slide_height s elem = Ok s' ->
  text_boxes s' = text_boxes s
  \/ exists b, text_boxes s' = text_boxes s ++ [b]
               /\ within_slide slide_width slide_height b.
Proof.
  unfold add_element. intros H. do 2 bind_inv H.
  destruct v0 as [|c t]; [inversion H; now left|].
  repeat bind_inv H. inversion H; subst. right.
  rewrite text_boxes_add_shape. eexists. split; [reflexivity|].
  eapply element_box_within; eassumption.
Qed.

Lemma fold_elements_boxes (slide_width slide_height : Z) (elems : list json) :
  forall s s',
    fold_result (add_element slide_width slide_height) elems s = Ok s' ->
    Forall (within_slide slide_width slide_height) (text_boxes s) ->
    Forall (within_slide slide_width slide_height) (text_boxes s').
Proof.
  induction elems as [|e elems IH]; intros s s' H Hs.
  - inversion H; now subst.
  - cbn [fold_result] in H. bind_inv H. apply (IH v s' H).
    apply add_element_boxes in E as [E|(b & E & Hb)]; rewrite E; [exact Hs|].
    apply Forall_app. split; [exact Hs|]. now constructor.
Qed.

Lemma set_background_boxes (slide_data : json) (slide_width slide_height : Z)
  (bg : option image) (s : slide) :
  set_background slide_data slide_width slide_height bg = Ok s ->
  text_boxes s = [].
Proof.
  unfold set_background. destruct bg as [img|].
  - intros [= <-]. reflexivity.
  - intros H. repeat bind_inv H. inversion H. reflexivity.
Qed.

(** C4, as amended: every box the reconstructor places starts at a
    non-negative coordinate and ends on or before the right and bottom
    edges; it is at least 1 inch wide unless it was cut at the right edge,
    0.2 inch before it, and at least 0.4 inch high unless it was cut at the
    bottom edge, 0.2 inch before it. *)
Theorem placed_boxes_within_slide (slide_data : json)
  (slide_width slide_height : Z) (background_image : option image)
  (s : slide) (b : box) :
  create_slide_from_ai_data slide_data slide_width slide_height
    background_image = Ok s ->
  In b (text_boxes s) ->
  within_slide slide_width slide_height b.
Proof.
  unfold create_slide_from_ai_data. intros H Hin. repeat bind_inv H.
  apply fold_elements_boxes in H.
  - rewrite Forall_forall in H. now apply H.
  - apply set_background_boxes in E. rewrite E. constructor.
Qed.

(** A box 1.1 inch wide, left as it is, keeps the bounds. *)
Lemma placed_boxes_within_slide_witness :
  within_slide Inches_10 Inches_7_5 (Box 457200 342900 1005840 1028700).
Proof.
  apply (placed_boxes_within_slide (content_of [narrow_element]) Inches_10
           Inches_7_5 (Some (page_image 0))
           (Slide None
              [Picture (page_image 0) (Box 0 0 Inches_10 Inches_7_5);
               TextBox (Box 457200 342900 1005840 1028700) true
                 [Paragraph (Some ALIGN_LEFT) 0
                    [Run (str "Hello") 228600 (RGB 0 0 0) (Some false)
                         (Some false) (str "Arial")]]])).
  - vm_compute. reflexivity.
  - cbn. now left.
Defined.

(** C4, as stated, fails: a width of 11 percent gives a box 1.1 inch wide,
    which is kept; and a box that starts at the right edge is cut to a
    negative width. Neither is about 2 inches wide. *)
Lemma minimum_width_counterexample :
  option_map text_boxes
    (match create_slide_from_ai_data (content_of [narrow_element])
             Inches_10 Inches_7_5 (Some (page_image 0)) with
     | Ok s => Some s
     | Raise _ => None
     end) = Some [Box 457200 342900 1005840 1028700]
  /\ 1005840 < Inches_2
  /\ option_map text_boxes
       (match create_slide_from_ai_data (content_of [far_right_element])
                Inches_10 Inches_7_5 (Some (page_image 0)) with
        | Ok s => Some s
        | Raise _ => None
        end) = Some [Box 9144000 342900 (-182880) 1028700]
  /\ -182880 < Inches_2.
Proof. repeat split; vm_compute; reflexivity. Qed.

End BoxProps.

(* ------------------------------------------------------------------ *)
(** ** From percentages to coordinates *)
(* ------------------------------------------------------------------ *)

Module ScaleProps.
Import Py Json Pptx Reconstructor Schema Scenarios RangeProps ResultProps.

(** Every integer percentage from -1000 to 1000 converts, at each extent of
    the driver's slides, to the percentage of the extent within one unit. *)
Lemma scale_checked :
  forallb (fun p => forallb (fun d =>
    match scale (JInt p) d with
    | Ok c => Z.abs (100 * c - p * d) <=? 100
    | Raise _ => false
    end) extents) (zrange (-1000) 2001) = true.
Proof. vm_compute. reflexivity. Qed.

Lemma scale_int (p extent : Z) :
  -1000 <= p <= 1000 -> In extent extents ->
  exists c, scale (JInt p) extent = Ok c /\ scaled_from c p extent.
Proof.
  intros Hp Hd.
  pose proof (forallb_zrange _ _ _ scale_checked p ltac:(lia)) as H.
  cbv beta in H. rewrite forallb_forall in H. specialize (H extent Hd).
  destruct (scale (JInt p) extent) as [c|e]; [|discriminate].
  exists c. split; [reflexivity|]. unfold scaled_from. lia.
Qed.

Lemma driver_size_extents (slide_width slide_height : Z) :
  driver_size slide_width slide_height = true ->
  In slide_width extents /\ In slide_height extents.
Proof.
  unfold driver_size, extents. intros H.
  apply andb_true_iff in H as [Hw Hh]. apply Z.eqb_eq in Hh.
  apply orb_true_iff in Hw as [Hw|Hw]; apply Z.eqb_eq in Hw; subst; cbn; auto.
Qed.

(** When the four percentages convert, so does the position. *)
Lemma scaled_position_of_scales (pos x y w h : json)
  (slide_width slide_height l t wd ht : Z) :
  get pos "x_percent" (JInt 5) = Ok x ->
  get pos "y_percent" (JInt 5) = Ok y ->
  get pos "width_percent" (JInt 90) = Ok w ->
  get pos "height_percent" (JInt 15) = Ok h ->
  scale x slide_width = Ok l -> scale y slide_height = Ok t ->
  scale w slide_width = Ok wd -> scale h slide_height = Ok ht ->
  scaled_position pos slide_width slide_height = Ok (Box l t wd ht).
Proof.
  unfold scaled_position, scale. intros -> -> -> -> Hl Ht Hw Hh.
  bind_inv Hl. bind_inv Ht. bind_inv Hw. bind_inv Hh.
  cbn [bind]. rewrite E, E0, E1, E2. cbn [bind].
  now rewrite Hl, Ht, Hw, Hh.
Qed.

(** C3, as amended: the percentages are converted as they are given, with
    no clamp into 0..100. At the slide sizes of the driver, integer
    percentages from -1000 to 1000 give a left, top, width and height that
    are those percentages of the slide width and height, within one unit. *)
Theorem position_scaled_as_given (x y w h slide_width slide_height : Z) :
  driver_size slide_width slide_height = true ->
  -1000 <= x <= 1000 -> -1000 <= y <= 1000 ->
  -1000 <= w <= 1000 -> -1000 <= h <= 1000 ->
  exists b,
    scaled_position (position_of x y w h) slide_width slide_height = Ok b
    /\ scaled_from (box_left b) x slide_width
    /\ scaled_from (box_top b) y slide_height
    /\ scaled_from (box_width b) w slide_width
    /\ scaled_from (box_height b) h slide_height.
Proof.
  intros Hsize Hx Hy Hw Hh.
  apply driver_size_extents in Hsize as [HW HH].
  destruct (scale_int x slide_width Hx HW) as (l & El & Hl).
  destruct (scale_int y slide_height Hy HH) as (t & Et & Ht).
  destruct (scale_int w slide_width Hw HW) as (wd & Ew & Hwd).
  destruct (scale_int h slide_height Hh HH) as (ht & Eh & Hht).
  exists (Box l t wd ht). split; [|now repeat split].
  now apply (scaled_position_of_scales _ (JInt x) (JInt y) (JInt w) (JInt h)).
Qed.

(** A left of 200 percent is twice the slide width. *)
Lemma position_scaled_as_given_witness :
  exists b,
    scaled_position (position_of 200 5 90 15) Inches_10 Inches_7_5 = Ok b
    /\ scaled_from (box_left b) 200 Inches_10
    /\ scaled_from (box_top b) 5 Inches_7_5
    /\ scaled_from (box_width b) 90 Inches_10
    /\ scaled_from (box_height b) 15 Inches_7_5.
Proof.
  apply (position_scaled_as_given 200 5 90 15 Inches_10 Inches_7_5);
    [reflexivity|lia..].
Defined.

(** C3, as stated, fails: a left of 200 percent is not treated as 100
    percent. The coordinate computed is twice the slide width, where 100
    percent gives the slide width, and the box is placed there. *)
Lemma percentage_clamp_counterexample :
  scaled_position off_slide_position Inches_10 Inches_7_5
    = Ok (Box 18288000 342900 8229600 1028700)
  /\ scaled_position edge_position Inches_10 Inches_7_5
     = Ok (Box 9144000 342900 8229600 1028700)
  /\ option_map text_boxes
       (match create_slide_from_ai_data (content_of [off_slide_element])
                Inches_10 Inches_7_5 (Some (page_image 0)) with
        | Ok s => Some s
        | Raise _ => None
        end) = Some [Box 18288000 342900 (-9326880) 1028700].
Proof. repeat split; vm_compute; reflexivity. Qed.

End ScaleProps.

(* ------------------------------------------------------------------ *)
(** ** Contents the reconstructor accepts *)
(* ------------------------------------------------------------------ *)

Module ReconstructProps.
Import Py Json Color Pptx Reconstructor Schema Scenarios.
Import RangeProps ResultProps ColorProps ScaleProps.

Lemma get_field (obj : json) (key : string) (ok : json -> bool)
  (default : json) :
  field_is obj key ok = true ->
  exists v, get obj key default = Ok v /\ (ok v = true \/ v = default).
Proof.
  destruct obj; try discriminate. unfold field_is, get.
  destruct (lookup (str key) fields) as [v|]; eauto.
Qed.

Lemma get_checked (obj : json) (key : string) (ok : json -> bool)
  (default : json) :
  field_is obj key ok = true -> ok default = true ->
  exists v, get obj key default = Ok v /\ ok v = true.
Proof.
  intros H Hd. destruct (get_field obj key ok default H) as (v & E & [Hv| ->]);
    eauto.
Qed.

Lemma get_of_object (obj : json) (key : string) (default : json) :
  is_object obj = true -> exists v, get obj key default = Ok v.
Proof. destruct obj; try discriminate. intros _. unfold get. eauto. Qed.

Lemma percent_ok_int (v : json) :
  percent_ok v = true -> exists p, v = JInt p /\ -1000 <= p <= 1000.
Proof.
  destruct v; try discriminate. cbn. intros H. exists z. split; [reflexivity|lia].
Qed.

Lemma element_box_ok (pos : json) (slide_width slide_height : Z) :
  driver_size slide_width slide_height = true ->
  position_ok pos = true ->
  exists b, element_box pos slide_width slide_height = Ok b.
Proof.
  intros Hsize H. apply driver_size_extents in Hsize as [HW HH].
  unfold position_ok in H. repeat (apply andb_true_iff in H as [H ?]).
  destruct (get_checked pos "x_percent" percent_ok (JInt 5)) as (x & Ex & Hx);
    [assumption|reflexivity|].
  destruct (get_checked pos "y_percent" percent_ok (JInt 5)) as (y & Ey & Hy);
    [assumption|reflexivity|].
  destruct (get_checked pos "width_percent" percent_ok (JInt 90))
    as (w & Ew & Hw); [assumption|reflexivity|].
  destruct (get_checked pos "height_percent" percent_ok (JInt 15))
    as (h & Eh & Hh); [assumption|reflexivity|].
  apply percent_ok_int in Hx as (px & -> & Hx), Hy as (py & -> & Hy).
  apply percent_ok_int in Hw as (pw & -> & Hw), Hh as (ph & -> & Hh).
  destruct (scale_int px slide_width Hx HW) as (l & El & _).
  destruct (scale_int py slide_height Hy HH) as (t & Et & _).
  destruct (scale_int pw slide_width Hw HW) as (wd & Ewd & _).
  destruct (scale_int ph slide_height Hh HH) as (ht & Eht & _).
  unfold element_box.
  rewrite (scaled_position_of_scales pos _ _ _ _ _ _ _ _ _ _
             Ex Ey Ew Eh El Et Ewd Eht).
  cbn [bind]. eauto.
Qed.

Lemma resolve_alignment_ok (style : json) :
  is_object style = true -> exists a, resolve_alignment style = Ok a.
Proof.
  intros H. unfold resolve_alignment.
  destruct (get_of_object style "alignment" (JStr (str "left")) H) as (v & ->).
  cbn [bind]. eauto.
Qed.

Lemma int_like_num (v : json) :
  int_like v = true -> exists z, as_num v = Some (NInt z).
Proof. destruct v; try discriminate; cbn; eauto. Qed.

Lemma py_max_int_like (a b : json) :
  int_like a = true -> int_like b = true ->
  exists c, py_max a b = Ok c /\ int_like c = true.
Proof.
  intros Ha Hb. unfold py_max, gt.
  destruct (int_like_num a Ha) as (x & ->), (int_like_num b Hb) as (y & ->).
  cbn [bind]. destruct (num_gt _ _); eauto.
Qed.

Lemma py_min_int_like (a b : json) :
  int_like a = true -> int_like b = true ->
  exists c, py_min a b = Ok c /\ int_like c = true.
Proof.
  intros Ha Hb. unfold py_min, lt.
  destruct (int_like_num a Ha) as (x & ->), (int_like_num b Hb) as (y & ->).
  cbn [bind]. destruct (num_lt _ _); eauto.
Qed.

Lemma py_max_zero (k : Z) : py_max (JInt 0) (JInt k) = Ok (JInt (Z.max 0 k)).
Proof.
  unfold py_max, gt, num_gt, num_compare. cbn [as_num bind].
  destruct (Z.compare_spec k 0); do 2 f_equal; lia.
Qed.

Lemma check_level_in_range (z : Z) :
  0 <= z <= 8 -> check_level (JInt z) = Ok z.
Proof.
  intros H. unfold check_level. cbn [as_num].
  destruct (Z.leb_spec 0 z); [|lia]. destruct (Z.leb_spec z 8); [|lia].
  reflexivity.
Qed.

Lemma resolve_level_ok (bullet_level elem_type : json) (bullet_line : bool) :
  level_ok bullet_level = true ->
  exists l, resolve_level bullet_level elem_type bullet_line = Ok l.
Proof.
  intros H. unfold resolve_level, gt.
  assert (Hz : exists z, as_num bullet_level = Some (NInt z) /\ z <= 9
                         /\ (truthy bullet_level = negb (z =? 0))).
  { destruct bullet_level as [|b|z|f|s|l|d]; try discriminate.
    - exists (if b then 1 else 0). destruct b; cbn; repeat split; lia.
    - exists z. cbn in H |- *. repeat split. lia. }
  destruct Hz as (z & Hnum & Hz & Htruthy). rewrite Hnum.
  cbn [as_num bind].
  destruct (num_gt (NInt z) (NInt 0) || bullet_line
            || eq_str elem_type "bullet"); [|eauto].
  rewrite Htruthy.
  assert (Hbelow : exists k, minus_one (if negb (z =? 0) then bullet_level
                                        else JInt 1) = Ok (JInt k) /\ k <= 8).
  { destruct (Z.eqb_spec z 0); cbn [negb]; unfold minus_one.
    - cbn. exists 0. split; [reflexivity|lia].
    - rewrite Hnum. exists (z - 1). split; [reflexivity|lia]. }
  destruct Hbelow as (k & -> & Hk). cbn [bind]. rewrite py_max_zero.
  cbn [bind]. rewrite check_level_in_range; [|lia]. cbn [bind]. eauto.
Qed.

Lemma adjust_font_size_int_like (elem_type v : json) :
  int_like v = true ->
  exists m, adjust_font_size elem_type v = Ok m /\ int_like m = true.
Proof.
  intros Hv. unfold adjust_font_size.
  assert (H : exists k,
    (if eq_str elem_type "title" then py_max v (JInt 32)
     else if eq_str elem_type "subtitle" then py_max v (JInt 24)
     else if eq_str elem_type "heading" then py_max v (JInt 22)
     else if eq_str elem_type "caption" then py_min v (JInt 14)
     else Ok v) = Ok k /\ int_like k = true).
  { repeat match goal with
           | |- context [if ?c then _ else _] => destruct c
           end;
      eauto using py_max_int_like, py_min_int_like. }
  destruct H as (k & -> & Hk). cbn [bind].
  destruct (py_min_int_like (JInt 60) k eq_refl Hk) as (j & -> & Hj).
  cbn [bind]. now apply py_max_int_like.
Qed.

Lemma Pt_int_like (v : json) : int_like v = true -> exists z, Pt v = Ok z.
Proof.
  intros H. unfold Pt. destruct (int_like_num v H) as (z & ->). eauto.
Qed.

Lemma resolve_font_size_ok (style elem_type : json) :
  is_object style = true ->
  field_is style "font_size" font_size_ok = true ->
  exists z, resolve_font_size style elem_type = Ok z.
Proof.
  intros Hobj H. unfold resolve_font_size, declared_font_size.
  destruct (get_checked style "font_size" font_size_ok (JInt 18) H eq_refl)
    as (v & -> & Hv).
  cbn [bind].
  assert (Hd : exists d,
    match v with
    | JStr s =>
        Ok (JInt (match int_of_str 10 (remove_all (str "pt") s) with
                  | Some z => z
                  | None => 18
                  end))
    | _ => Ok v
    end = Ok d /\ int_like d = true).
  { destruct v; try discriminate; eauto. }
  destruct Hd as (d & -> & Hd). cbn [bind].
  destruct (adjust_font_size_int_like elem_type d Hd) as (m & -> & Hm).
  cbn [bind]. now apply Pt_int_like.
Qed.

Lemma lstrip_by_incl (p : char -> bool) (s : pystr) (c : char) :
  In c (lstrip_by p s) -> In c s.
Proof.
  induction s as [|x s IH]; [auto|]. cbn [lstrip_by].
  destruct (p x); [intros H; right; auto|auto].
Qed.

Lemma no_minus (s : pystr) (c : char) :
  char_in 45%N s = false -> In c s -> c <> 45%N.
Proof.
  unfold char_in. intros H Hin ->.
  assert (E : existsb (N.eqb 45) s = true).
  { apply existsb_exists. exists 45%N. split; [exact Hin|apply N.eqb_refl]. }
  congruence.
Qed.

Lemma RGBColor_in_range (r g b : Z) :
  0 <= r <= 255 -> 0 <= g <= 255 -> 0 <= b <= 255 ->
  RGBColor (r, g, b) = Ok (RGB r g b).
Proof.
  intros Hr Hg Hb. unfold RGBColor.
  destruct (Z.leb_spec 0 r); [|lia]. destruct (Z.leb_spec r 255); [|lia].
  destruct (Z.leb_spec 0 g); [|lia]. destruct (Z.leb_spec g 255); [|lia].
  destruct (Z.leb_spec 0 b); [|lia]. destruct (Z.leb_spec b 255); [|lia].
  reflexivity.
Qed.

Lemma color_of_text_ok (s : pystr) :
  char_in 45%N s = false ->
  exists c, bind (hex_to_rgb (JStr s)) RGBColor = Ok c.
Proof.
  intros Hs. rewrite hex_to_rgb_str. cbv zeta.
  destruct (Nat.eqb_spec (List.length (lstrip_chars (str "#") s)) 6)
    as [Hlen|_]; [|cbn; eauto].
  assert (Hno : forall c, In c (lstrip_chars (str "#") s) -> c <> 45%N).
  { intros c Hc. apply (no_minus s c Hs). revert Hc. apply lstrip_by_incl. }
  apply length_six in Hlen. destruct Hlen as (a & b & c & d & e & f & E).
  rewrite E in *. cbn [slice skipn firstn Nat.sub].
  destruct (int_of_str 16 [a; b]) as [r|] eqn:E1; [|cbn; eauto].
  destruct (int_of_str 16 [c; d]) as [g|] eqn:E2; [|cbn; eauto].
  destruct (int_of_str 16 [e; f]) as [bl|] eqn:E3; [|cbn; eauto].
  apply int_of_pair_range in E1 as [? Hr], E2 as [? Hg], E3 as [? Hb].
  specialize (Hr (Hno a ltac:(cbn; auto))).
  specialize (Hg (Hno c ltac:(cbn; auto))).
  specialize (Hb (Hno e ltac:(cbn; auto 10))).
  cbn [bind]. rewrite RGBColor_in_range; [eauto|lia..].
Qed.

Lemma color_ok_resolves (c : json) :
  color_ok c = true -> exists v, bind (hex_to_rgb c) RGBColor = Ok v.
Proof.
  unfold color_ok. intros H. apply orb_true_iff in H as [H|H].
  - unfold hex_to_rgb. rewrite H. cbn. eauto.
  - destruct c; try discriminate. apply negb_true_iff in H.
    now apply color_of_text_ok.
Qed.

Lemma resolve_color_ok (style : json) :
  field_is style "font_color" color_ok = true ->
  exists c, resolve_color style = Ok c.
Proof.
  intros H. unfold resolve_color.
  destruct (get_checked style "font_color" color_ok (JStr (str "#000000")) H
              eq_refl) as (v & -> & Hv).
  cbn [bind]. apply color_ok_resolves in Hv as (c & Hc).
  bind_inv Hc. rewrite E. cbn [bind]. eauto.
Qed.

Lemma resolve_bold_ok (style elem_type : json) :
  field_is style "bold" bold_ok = true ->
  exists b, resolve_bold style elem_type = Ok b.
Proof.
  intros H. unfold resolve_bold.
  destruct (get_checked style "bold" bold_ok (JBool false) H eq_refl)
    as (v & -> & Hv).
  destruct v as [|[|]| | | | |]; try discriminate; cbn; eauto.
Qed.

Lemma resolve_italic_ok (style : json) :
  field_is style "italic" italic_ok = true ->
  exists i, resolve_italic style = Ok i.
Proof.
  intros H. unfold resolve_italic.
  destruct (get_checked style "italic" italic_ok (JBool false) H eq_refl)
    as (v & -> & Hv).
  destruct v as [|[|]| | | | |]; try discriminate; cbn; eauto.
Qed.

Lemma rstrip_by_incl (p : char -> bool) (s : pystr) (c : char) :
  In c (rstrip_by p s) -> In c s.
Proof.
  unfold rstrip_by. intros H. apply in_rev in H.
  apply lstrip_by_incl in H. now apply in_rev.
Qed.

Lemma strip_incl (s : pystr) (c : char) : In c (strip s) -> In c s.
Proof.
  unfold strip, strip_by. intros H. apply rstrip_by_incl in H.
  now apply lstrip_by_incl in H.
Qed.

Lemma emitted_text_incl (line : pystr) (c : char) :
  In c (emitted_text line) -> In c line.
Proof.
  unfold emitted_text. destruct (is_bullet_line line); [|auto].
  intros H. apply strip_incl in H. now apply lstrip_by_incl in H.
Qed.

Lemma split_on_incl (sep : char) (s : pystr) (l : pystr) (c : char) :
  In l (split_on sep s) -> In c l -> In c s.
Proof.
  revert l. induction s as [|x s IH]; intros l Hl Hc.
  - cbn in Hl. destruct Hl as [<-|[]]. exact Hc.
  - cbn [split_on] in Hl. destruct (x =? sep)%N.
    + destruct Hl as [<-|Hl]; [destruct Hc|]. right. eauto.
    + destruct (split_on sep s) as [|l0 ls].
      * destruct Hl as [<-|[]]. destruct Hc as [<-|[]]. now left.
      * destruct Hl as [<-|Hl].
        -- destruct Hc as [<-|Hc]; [now left|]. right.
           apply (IH l0); [now left|exact Hc].
        -- right. apply (IH l); [now right|exact Hc].
Qed.

Lemma text_lines_incl (text l : pystr) (c : char) :
  In l (text_lines text) -> In c l -> In c text.
Proof.
  unfold text_lines. destruct (contains text [newline]).
  - apply split_on_incl.
  - intros [<-|[]]. auto.
Qed.

Lemma assign_text_ok (t : pystr) :
  forallb printable t = true -> assign_text t = Ok t.
Proof.
  intros H. unfold assign_text.
  assert (Hx : forallb xml_compatible t = true).
  { rewrite forallb_forall in *. intros c Hc. specialize (H c Hc).
    unfold printable in H. now apply andb_true_iff in H as [H _]. }
  assert (Hs : existsb is_surrogate t = false).
  { destruct (existsb is_surrogate t) eqn:E; [|reflexivity].
    apply existsb_exists in E as (c & Hc & Hsur).
    rewrite forallb_forall in Hx. specialize (Hx c Hc).
    unfold xml_compatible in Hx. rewrite Hsur in Hx. discriminate. }
  now rewrite Hs, Hx.
Qed.

Lemma make_run_ok (style elem_type : json) (t : pystr) :
  style_ok style = true -> forallb printable t = true ->
  exists r, make_run style elem_type t = Ok r.
Proof.
  unfold style_ok. intros H Ht. repeat (apply andb_true_iff in H as [H ?]).
  unfold make_run. rewrite (assign_text_ok t Ht). cbn [bind].
  destruct (resolve_font_size_ok style elem_type) as (z & ->); [assumption..|].
  destruct (resolve_color_ok style) as (c & ->); [assumption|].
  destruct (resolve_bold_ok style elem_type) as (b & ->); [assumption|].
  destruct (resolve_italic_ok style) as (i & ->); [assumption|].
  cbn [bind]. eauto.
Qed.

Lemma add_line_ok (style bullet_level elem_type : json)
  (paras : list paragraph) (i : nat) (raw : pystr) :
  style_ok style = true -> level_ok bullet_level = true -> paras <> [] ->
  forallb printable raw = true ->
  exists paras',
    add_line style bullet_level elem_type paras i raw = Ok paras'
    /\ paras' <> [].
Proof.
  intros Hstyle Hlevel Hne Hraw. unfold add_line.
  destruct (strip raw) as [|c line] eqn:Es; [eauto|].
  assert (Hobj : is_object style = true).
  { unfold style_ok in Hstyle.
    now repeat (apply andb_true_iff in Hstyle as [Hstyle ?]). }
  assert (Htext : forallb printable (emitted_text (c :: line)) = true).
  { rewrite forallb_forall in *. intros x Hx. apply Hraw.
    apply strip_incl. rewrite Es. now apply emitted_text_incl. }
  destruct (resolve_alignment_ok style Hobj) as (a & ->).
  destruct (resolve_level_ok bullet_level elem_type
              (is_bullet_line (c :: line)) Hlevel) as (l & ->).
  destruct (make_run_ok style elem_type (emitted_text (c :: line)) Hstyle
              Htext) as (r & ->).
  cbn [bind]. destruct i.
  - destruct paras as [|p0 rest]; [congruence|].
    eexists. split; [reflexivity|discriminate].
  - eexists. split; [reflexivity|]. now destruct paras.
Qed.

Lemma add_lines_ok (style bullet_level elem_type : json) (lines : list pystr) :
  style_ok style = true -> level_ok bullet_level = true ->
  Forall (fun raw => forallb printable raw = true) lines ->
  forall i paras, paras <> [] ->
    exists paras',
      add_lines style bullet_level elem_type i lines paras = Ok paras'.
Proof.
  intros Hstyle Hlevel. induction lines as [|raw lines IH];
    intros Hlines i paras Hne.
  - cbn. eauto.
  - cbn [add_lines]. inversion Hlines as [|? ? Hraw Hrest]; subst.
    destruct (add_line_ok style bullet_level elem_type paras i raw Hstyle
                Hlevel Hne Hraw) as (paras' & -> & Hne').
    cbn [bind]. now apply IH.
Qed.

Lemma add_element_ok (slide_width slide_height : Z) (s : slide) (elem : json) :
  driver_size slide_width slide_height = true ->
  element_ok elem = true ->
  exists s', add_element slide_width slide_height s elem = Ok s'.
Proof.
  intros Hsize H. unfold element_ok in H.
  repeat (apply andb_true_iff in H as [H ?]).
  unfold add_element.
  destruct (get_checked elem "text" text_ok (JStr [])) as (t & -> & Ht);
    [assumption|reflexivity|].
  destruct t; try discriminate. cbn [bind strip_text]. cbn [text_ok] in Ht.
  destruct (strip s0) as [|c t] eqn:Es; [eauto|].
  destruct (get_checked elem "position" position_ok (JObj []))
    as (pos & -> & Hpos); [assumption|reflexivity|].
  destruct (get_checked elem "style" style_ok (JObj []))
    as (style & -> & Hstyle); [assumption|reflexivity|].
  cbn [bind].
  destruct (element_box_ok pos slide_width slide_height Hsize Hpos) as (b & ->).
  destruct (get_checked elem "bullet_level" level_ok (JInt 0))
    as (bl & -> & Hbl); [assumption|reflexivity|].
  destruct (get_of_object elem "type" (JStr (str "body")) H) as (et & ->).
  cbn [bind].
  assert (Hlines : Forall (fun raw => forallb printable raw = true)
                     (text_lines (c :: t))).
  { apply Forall_forall. intros raw Hraw. rewrite forallb_forall in *.
    intros x Hx. apply Ht. apply strip_incl. rewrite Es.
    now apply (text_lines_incl (c :: t) raw). }
  destruct (add_lines_ok style bl et (text_lines (c :: t)) Hstyle Hbl Hlines 0
              [empty_paragraph]) as (paras & ->); [discriminate|].
  cbn [bind]. eauto.
Qed.

Lemma fold_elements_ok (slide_width slide_height : Z) (elems : list json) :
  driver_size slide_width slide_height = true ->
  forallb element_ok elems = true ->
  forall s, exists s',
    fold_result (add_element slide_width slide_height) elems s = Ok s'.
Proof.
  intros Hsize. induction elems as [|e elems IH]; intros H s.
  - cbn. eauto.
  - cbn in H. apply andb_true_iff in H as [He H]. cbn [fold_result].
    destruct (add_element_ok slide_width slide_height s e Hsize He) as (s1 & ->).
    cbn [bind]. now apply IH.
Qed.

Lemma content_ok_gives_slide (slide_data : json)
  (slide_width slide_height : Z) (background_image : option image) :
  driver_size slide_width slide_height = true ->
  content_ok slide_data
    (match background_image with Some _ => true | None => false end) = true ->
  exists s,
    create_slide_from_ai_data slide_data slide_width slide_height
      background_image = Ok s.
Proof.
  intros Hsize H. unfold content_ok in H.
  apply andb_true_iff in H as [H Hbg]. apply andb_true_iff in H as [Hobj Hel].
  unfold create_slide_from_ai_data.
  assert (Hs : exists s0, set_background slide_data slide_width slide_height
                            background_image = Ok s0).
  { unfold set_background. destruct background_image as [img|]; [eauto|].
    cbn [orb] in Hbg.
    destruct (get_checked slide_data "background_color" color_ok
                (JStr (str "#FFFFFF")) Hbg eq_refl) as (c & -> & Hc).
    cbn [bind]. apply color_ok_resolves in Hc as (v & Hv).
    bind_inv Hv. rewrite E. cbn [bind]. rewrite Hv. cbn [bind]. eauto. }
  destruct Hs as (s0 & ->). cbn [bind].
  destruct (get_checked slide_data "elements" elements_ok (JArr []) Hel
              eq_refl) as (els & -> & Hels).
  cbn [bind]. destruct els; try discriminate. cbn [iterate bind].
  now apply fold_elements_ok.
Qed.

(** *** Defaults *)

Lemma get_field_or (f : list (pystr * json)) (key : string) (default : json) :
  get (JObj f) key default = Ok (field_or f key default).
Proof. reflexivity. Qed.

Lemma hex_to_rgb_explicit (c : json) :
  hex_to_rgb (explicit_color c) = hex_to_rgb c.
Proof.
  unfold explicit_color. destruct (truthy c) eqn:T.
  - destruct c as [| | | |s| |]; try reflexivity.
    destruct (readable_color s) eqn:R; [reflexivity|].
    change (hex_to_rgb black_text) with (Ok black).
    unfold hex_to_rgb. rewrite T. cbn [negb]. unfold readable_color in R.
    cbv zeta in R.
    destruct (List.length (lstrip_chars (str "#") s) =? 6)%nat;
      [|reflexivity].
    cbn [andb] in R.
    destruct (int_of_str 16 (slice (lstrip_chars (str "#") s) 0 2));
      [|reflexivity].
    destruct (int_of_str 16 (slice (lstrip_chars (str "#") s) 2 4));
      [|reflexivity].
    destruct (int_of_str 16 (slice (lstrip_chars (str "#") s) 4 6));
      [discriminate|reflexivity].
  - change (hex_to_rgb black_text) with (Ok black).
    unfold hex_to_rgb. now rewrite T.
Qed.

Lemma style_alike (style elem_type : json) :
  resolve_alignment (explicit_style style) = resolve_alignment style
  /\ declared_font_size (explicit_style style) = declared_font_size style
  /\ resolve_color (explicit_style style) = resolve_color style
  /\ resolve_bold (explicit_style style) elem_type
     = resolve_bold style elem_type
  /\ resolve_italic (explicit_style style) = resolve_italic style.
Proof.
  destruct style as [| | | | | |f]; try (repeat split; reflexivity).
  unfold explicit_style. split; [|split; [|split; [|split]]].
  - unfold resolve_alignment. rewrite !get_field_or.
    set (a := field_or f "alignment" (JStr (str "left"))).
    change (field_or (_ :: _) "alignment" (JStr (str "left")))
      with (explicit_alignment a).
    cbn [bind]. unfold explicit_alignment.
    destruct (eq_str a "center") eqn:Ec; cbn [orb]; [now rewrite Ec|].
    destruct (eq_str a "right") eqn:Er; [now rewrite Ec, Er|reflexivity].
  - unfold declared_font_size. rewrite !get_field_or.
    set (v := field_or f "font_size" (JInt 18)).
    change (field_or (_ :: _) "font_size" (JInt 18))
      with (explicit_font_size v).
    cbn [bind]. now destruct v.
  - unfold resolve_color. rewrite !get_field_or.
    change (JStr (str "#000000")) with black_text.
    set (c := field_or f "font_color" black_text).
    change (field_or (_ :: _) "font_color" black_text)
      with (explicit_color c).
    cbn [bind]. now rewrite hex_to_rgb_explicit.
  - unfold resolve_bold. now rewrite !get_field_or.
  - unfold resolve_italic. now rewrite !get_field_or.
Qed.

Lemma add_lines_explicit (style bullet_level elem_type : json)
  (lines : list pystr) :
  forall i paras,
    add_lines (explicit_style style) bullet_level elem_type i lines paras
    = add_lines style bullet_level elem_type i lines paras.
Proof.
  destruct (style_alike style elem_type) as (Ha & Hf & Hc & Hb & Hi).
  induction lines as [|raw lines IH]; intros i paras; [reflexivity|].
  cbn [add_lines].
  assert (Hline : add_line (explicit_style style) bullet_level elem_type
                    paras i raw
                  = add_line style bullet_level elem_type paras i raw).
  { unfold add_line, make_run, resolve_font_size.
    now rewrite Ha, Hf, Hc, Hb, Hi. }
  rewrite Hline.
  destruct (add_line style bullet_level elem_type paras i raw);
    [|reflexivity].
  cbn [bind]. apply IH.
Qed.

Lemma element_box_explicit (pos : json) (slide_width slide_height : Z) :
  element_box (explicit_position pos) slide_width slide_height
  = element_box pos slide_width slide_height.
Proof. destruct pos as [| | | | | |f]; reflexivity. Qed.

Lemma add_element_explicit (slide_width slide_height : Z) (s : slide)
  (elem : json) :
  add_element slide_width slide_height s (explicit_element elem)
  = add_element slide_width slide_height s elem.
Proof.
  destruct elem as [| | | | | |f]; try reflexivity.
  unfold add_element, explicit_element. rewrite !get_field_or.
  change (field_or (_ :: _) "text" (JStr []))
    with (field_or f "text" (JStr [])).
  change (field_or (_ :: _) "position" (JObj []))
    with (explicit_position (field_or f "position" (JObj []))).
  change (field_or (_ :: _) "style" (JObj []))
    with (explicit_style (field_or f "style" (JObj []))).
  change (field_or (_ :: _) "bullet_level" (JInt 0))
    with (field_or f "bullet_level" (JInt 0)).
  change (field_or (_ :: _) "type" (JStr (str "body")))
    with (field_or f "type" (JStr (str "body"))).
  cbn [bind]. destruct (strip_text (field_or f "text" (JStr []))) as [t|e];
    [|reflexivity].
  cbn [bind]. destruct t as [|c t]; [reflexivity|].
  rewrite element_box_explicit.
  destruct (element_box _ slide_width slide_height); [|reflexivity].
  cbn [bind]. now rewrite add_lines_explicit.
Qed.

Lemma fold_elements_explicit (slide_width slide_height : Z)
  (elems : list json) :
  forall s,
    fold_result (add_element slide_width slide_height)
      (map explicit_element elems) s
    = fold_result (add_element slide_width slide_height) elems s.
Proof.
  induction elems as [|e elems IH]; intros s; [reflexivity|].
  cbn [map fold_result]. rewrite add_element_explicit.
  destruct (add_element slide_width slide_height s e); [|reflexivity].
  cbn [bind]. apply IH.
Qed.

Lemma create_slide_explicit (slide_data : json)
  (slide_width slide_height : Z) (background_image : option image) :
  create_slide_from_ai_data (explicit_content slide_data) slide_width
    slide_height background_image
  = create_slide_from_ai_data slide_data slide_width slide_height
      background_image.
Proof.
  destruct slide_data as [| | | | | |f]; try reflexivity.
  unfold create_slide_from_ai_data, explicit_content, set_background.
  rewrite !get_field_or.
  set (c := field_or f "background_color" (JStr (str "#FFFFFF"))).
  set (els := field_or f "elements" (JArr [])).
  change (field_or (_ :: _) "background_color" (JStr (str "#FFFFFF")))
    with (explicit_color c).
  change (field_or (_ :: _) "elements" (JArr []))
    with (explicit_elements els).
  assert (Hbg : match background_image with
                | Some img =>
                    Ok (send_last_to_back
                          (add_shape blank_slide
                             (Picture img (Box 0 0 slide_width slide_height))))
                | None =>
                    bg_color <- Ok (explicit_color c) ;;
                    triple <- hex_to_rgb bg_color ;;
                    fill <- RGBColor triple ;;
                    Ok (Slide (Some fill) [])
                end
                = match background_image with
                  | Some img =>
                      Ok (send_last_to_back
                            (add_shape blank_slide
                               (Picture img
                                  (Box 0 0 slide_width slide_height))))
                  | None =>
                      bg_color <- Ok c ;;
                      triple <- hex_to_rgb bg_color ;;
                      fill <- RGBColor triple ;;
                      Ok (Slide (Some fill) [])
                  end).
  { destruct background_image; [reflexivity|].
    cbn [bind]. now rewrite hex_to_rgb_explicit. }
  rewrite Hbg.
  match goal with
  | |- bind ?r _ = _ => destruct r as [s0|e]; [|reflexivity]
  end.
  cbn [bind]. destruct els as [| | | | |items|d]; try reflexivity.
  cbn [iterate bind]. apply fold_elements_explicit.
Qed.

(** C5, as amended. At either slide size of the driver, a slide content
    whose fields are absent or of the kinds [content_ok] lists (a text of
    printable characters for the text; integer percentages from -1000 to
    1000; an integer, a boolean or any text for the font size; a text
    without a minus sign for a colour; booleans for the flags; an integer up
    to 9 for the bullet level) is turned into a slide: the reconstructor
    raises nothing. And whatever the content, the reconstructor does with it
    what it does with the content that spells the defaults out: an absent
    field counts as its default (position 5, 5, 90 and 15 percent, size 18,
    black, not bold, not italic, left, level 0, body, a white background),
    a font size that cannot be read as 18, a colour that is empty or cannot
    be read as black, an alignment other than centre and right as left. *)
Theorem well_formed_content_gives_slide (slide_data : json)
  (slide_width slide_height : Z) (background_image : option image) :
  (driver_size slide_width slide_height = true ->
   content_ok slide_data
     (match background_image with Some _ => true | None => false end) = true ->
   exists s,
     create_slide_from_ai_data slide_data slide_width slide_height
       background_image = Ok s)
  /\ create_slide_from_ai_data slide_data slide_width slide_height
       background_image
     = create_slide_from_ai_data (explicit_content slide_data) slide_width
         slide_height background_image.
Proof.
  split.
  - apply content_ok_gives_slide.
  - symmetry. apply create_slide_explicit.
Qed.

(** A styled two-line bullet element and a title are turned into a slide;
    an element that gives its text alone, and one whose size, colour and
    alignment cannot be read, are written as the element that spells the
    defaults out. *)
Lemma well_formed_content_gives_slide_witness :
  (exists s,
     create_slide_from_ai_data (content_of [styled_element; agenda_element])
       Inches_13_333 Inches_7_5 None = Ok s)
  /\ explicit_content (content_of [bare_element; vague_element])
     = spelled_content
  /\ create_slide_from_ai_data (content_of [bare_element; vague_element])
       Inches_10 Inches_7_5 None
     = create_slide_from_ai_data spelled_content Inches_10 Inches_7_5 None.
Proof.
  split; [|split].
  - apply (proj1 (well_formed_content_gives_slide
                    (content_of [styled_element; agenda_element])
                    Inches_13_333 Inches_7_5 None)); reflexivity.
  - vm_compute. reflexivity.
  - exact (proj2 (well_formed_content_gives_slide
                    (content_of [bare_element; vague_element])
                    Inches_10 Inches_7_5 None)).
Defined.

(** C5, as stated, fails: a percentage given as a text cannot be divided by
    100; the [TypeError] leaves the reconstructor, and the page loop of the
    driver with it. And a text that holds the character U+FFFF is refused by
    the writer with a [ValueError]. *)
Lemma malformed_position_counterexample :
  Schema.field_is text_percent_element "text" Schema.text_ok = true
  /\ create_slide_from_ai_data (content_of [text_percent_element])
       Inches_10 Inches_7_5 (Some (page_image 0))
     = raise TypeError "unsupported operand type(s) for /: 'str' and 'int'"
  /\ Driver.create_pptx_from_pdf_with_ai loads_known percent_as_text
       five_pages Extractor.start
     = raise TypeError "unsupported operand type(s) for /: 'str' and 'int'"
  /\ create_slide_from_ai_data (content_of [unwritable_element])
       Inches_10 Inches_7_5 (Some (page_image 0))
     = raise ValueError
         "All strings must be XML compatible: Unicode or ASCII, no NULL bytes or control characters".
Proof. repeat split; vm_compute; reflexivity. Qed.

End ReconstructProps.

(* ------------------------------------------------------------------ *)
(** ** The retry loop of the extractor *)
(* ------------------------------------------------------------------ *)

Module ExtractorProps.
Import Py Json Pptx Extractor Scenarios.

Lemma split_cons {A} (before after rest : list A) (x e : A) :
  e :: rest = before ++ x :: after ->
  (before = [] /\ e = x /\ rest = after)
  \/ exists b', before = e :: b' /\ rest = b' ++ x :: after.
Proof.
  destruct before as [|b before]; cbn; intros [= -> ->]; [now left|].
  right. now exists before.
Qed.

Lemma split_app {A} (l1 l2 before after : list A) (x : A) :
  l1 ++ l2 = before ++ x :: after ->
  (exists a', l1 = before ++ x :: a' /\ after = a' ++ l2)
  \/ exists b', before = l1 ++ b' /\ l2 = b' ++ x :: after.
Proof.
  revert before. induction l1 as [|e l1 IH]; intros before H.
  - right. now exists before.
  - cbn in H. apply split_cons in H as [(-> & -> & <-)|(b' & -> & H)].
    + left. now exists l1.
    + apply IH in H as [(a' & -> & ->)|(b'' & -> & ->)].
      * left. now exists a'.
      * right. now exists b''.
Qed.

Section Service.

Variable json_loads : pystr -> result json.
Variable api : nat -> request -> call_outcome.

Lemma malformed_read (text : pystr) :
  malformed json_loads text = true ->
  exists e, read_response json_loads (Returned (Some text)) = Raise e
            /\ is_json_decode_error e = true.
Proof.
  unfold malformed, read_response.
  destruct (json_loads (clean_response text)) as [v|e]; [discriminate|].
  intros H. now exists e.
Qed.

Lemma try_model_trace (model : pystr) (img : image) (remaining : nat) :
  forall attempt w ex w',
    try_model json_loads api model img attempt remaining w = (ex, w') ->
    exists evs, log w' = log w ++ evs
                /\ ends_at_malformed json_loads evs (ex = Return None).
Proof.
  induction remaining as [|remaining IH]; intros attempt w ex w' H.
  - inversion H; subst. exists []. split; [now rewrite app_nil_r|].
    intros [|? ?] ? ? ? ?; discriminate.
  - cbn [try_model] in H.
    set (o := api (calls w) (Request model img)) in *.
    assert (Hone : forall ex0, (is_ok (read_response json_loads o) = true \/
              exists e, read_response json_loads o = Raise e
                        /\ (is_json_decode_error e = true -> ex0 = Return None)) ->
            ends_at_malformed json_loads [Called model o] (ex0 = Return None)).
    { intros ex0 Hr before m text after Hsplit Hbad.
      apply split_cons in Hsplit as [(-> & Ho & <-)|(b' & _ & Hsplit)];
        [|destruct b'; discriminate].
      injection Ho as -> Ho. split; [|reflexivity].
      destruct (malformed_read text Hbad) as (e & He & Hj).
      rewrite Ho, He in Hr. destruct Hr as [Hr|(e' & [= <-] & Hr)];
        [discriminate|auto]. }
    destruct (read_response json_loads o) as [data|e] eqn:Er.
    + inversion H; subst. exists [Called model o]. split; [reflexivity|].
      apply Hone. now left.
    + destruct (is_json_decode_error e) eqn:Ej.
      * inversion H; subst. exists [Called model o]. split; [reflexivity|].
        apply Hone. right. exists e. auto.
      * destruct (rate_limited e).
        -- apply IH in H as (evs & Hlog & Hevs).
           exists (Called model o :: Slept (15 * (Z.of_nat attempt + 1)) :: evs).
           split; [rewrite Hlog; cbn; now rewrite <- !app_assoc|].
           intros before m text after Hsplit Hbad.
           apply split_cons in Hsplit as [(-> & Ho & <-)|(b' & -> & Hsplit)].
           ++ injection Ho as -> Ho.
              destruct (malformed_read text Hbad) as (e' & He & Hj).
              rewrite Ho in Er. congruence.
           ++ apply split_cons in Hsplit as [(_ & Ho & _)|(b'' & -> & Hsplit)];
                [discriminate|].
              now apply (Hevs b'' m text after).
        -- inversion H; subst. exists [Called model o]. split; [reflexivity|].
           apply Hone. right. exists e. split; [reflexivity|congruence].
Qed.

Lemma try_models_trace (img : image) (max_retries : nat) (ms : list pystr) :
  forall w r w',
    try_models json_loads api ms img max_retries w = (r, w') ->
    exists evs, log w' = log w ++ evs
                /\ ends_at_malformed json_loads evs (r = None).
Proof.
  induction ms as [|model rest IH]; intros w r w' H.
  - inversion H; subst. exists []. split; [now rewrite app_nil_r|].
    intros [|? ?] ? ? ? ?; discriminate.
  - cbn [try_models] in H.
    destruct (try_model json_loads api model img 0 max_retries w)
      as [ex w1] eqn:E.
    apply try_model_trace in E as (evs1 & Hlog1 & Hevs1).
    destruct ex as [r1|].
    + inversion H; subst. exists evs1. split; [exact Hlog1|].
      intros before m text after Hsplit Hbad.
      destruct (Hevs1 before m text after Hsplit Hbad) as [[= ->] ->]; auto.
    + apply IH in H as (evs2 & Hlog2 & Hevs2).
      exists (evs1 ++ evs2). split; [now rewrite Hlog2, Hlog1, app_assoc|].
      intros before m text after Hsplit Hbad.
      apply split_app in Hsplit as [(a' & -> & ->)|(b' & -> & ->)].
      * now destruct (Hevs1 before m text a' eq_refl Hbad).
      * now apply (Hevs2 b' m text after).
Qed.

(** C1: when a response of the model is not JSON, the extractor returns
    the failure signal at once. Among the events of the analysis of a page,
    a call answered by a text that [json.loads] refuses is the last one (no
    retry of the model and no call of a later model follows it), and the
    result is [None]. *)
Theorem malformed_response_is_terminal (img : image) (slide_num : Z)
  (max_retries : nat) (w : world) (r : option json) (w' : world) :
  analyze_slide_with_gemini json_loads api img slide_num max_retries w
    = (r, w') ->
  exists evs,
    log w' = log w ++ evs
    /\ forall before model text after,
         evs = before ++ Called model (Returned (Some text)) :: after ->
         malformed json_loads text = true ->
         r = None /\ after = [].
Proof. apply try_models_trace. Qed.

(** C2, as amended: when the first response of the first model is not JSON,
    the analysis of the page ends there with [None]: one call was made, to
    the first model, and no other model is tried. *)
Theorem malformed_first_response_ends_page (img : image) (slide_num : Z)
  (max_retries : nat) (w : world) (text : pystr) :
  api (calls w) (Request first_model img) = Returned (Some text) ->
  malformed json_loads text = true ->
  analyze_slide_with_gemini json_loads api img slide_num (S max_retries) w
    = (None, record_call w first_model (Returned (Some text))).
Proof.
  intros Hapi Hbad. destruct (malformed_read text Hbad) as (e & He & Hj).
  unfold analyze_slide_with_gemini, models.
  cbn [try_models try_model]. fold first_model.
  now rewrite Hapi, He, Hj.
Qed.

Lemma sleep_record (w : world) (model : pystr) (o : call_outcome) (t : Z) :
  sleep t (record_call w model o)
  = World (S (calls w)) (log w ++ [Called model o; Slept t]).
Proof. unfold sleep, record_call. cbn. now rewrite <- app_assoc. Qed.

Lemma try_model_rate_limited (model : pystr) (img : image)
  (attempt remaining : nat) (w : world) (e : exn) :
  api (calls w) (Request model img) = Raised e ->
  rate_limit_error e = true ->
  try_model json_loads api model img attempt (S remaining) w
  = try_model json_loads api model img (S attempt) remaining
      (sleep (15 * (Z.of_nat attempt + 1)) (record_call w model (Raised e))).
Proof.
  unfold rate_limit_error. intros Hapi H.
  apply andb_true_iff in H as [Hj Hr]. apply negb_true_iff in Hj.
  cbn [try_model]. rewrite Hapi. cbn [read_response]. now rewrite Hj, Hr.
Qed.

Lemma try_model_retry (model : pystr) (img : image)
  (attempt remaining : nat) (w : world) (e : exn) :
  let o := api (calls w) (Request model img) in
  read_response json_loads o = Raise e ->
  rate_limit_error e = true ->
  try_model json_loads api model img attempt (S remaining) w
  = try_model json_loads api model img (S attempt) remaining
      (sleep (15 * (Z.of_nat attempt + 1)) (record_call w model o)).
Proof.
  cbv zeta. unfold rate_limit_error. intros Hread H.
  apply andb_true_iff in H as [Hj Hr]. apply negb_true_iff in Hj.
  cbn [try_model]. now rewrite Hread, Hj, Hr.
Qed.

(** C8, as amended: an attempt that fails with an error that is not a JSON
    decode error and has the rate-limit signature in its message is followed
    by a pause of 15 seconds times the number of the attempt and a new
    attempt with the same model; with two such failures and a readable
    response on the third attempt, the result is that response, after pauses
    of 15 and 30 seconds; after a third failure and a pause of 45 seconds
    the next model is tried; an error that is neither a JSON decode error
    nor rate limited, at any attempt, leaves the model at once for the next
    one; and a JSON decode error, raised by the call or by the reading of
    its response, ends the analysis of the page at once with [None]: the
    model is not tried again and no other model is tried. *)
Theorem rate_limit_backoff (model : pystr) (rest : list pystr) (img : image)
  (w : world) :
  let req := Request model img in
  let o := api (calls w) req in
  (forall attempt remaining e,
     read_response json_loads o = Raise e -> rate_limit_error e = true ->
     try_model json_loads api model img attempt (S remaining) w
     = try_model json_loads api model img (S attempt) remaining
         (sleep (15 * (Z.of_nat attempt + 1)) (record_call w model o)))
  /\ (forall e1 e2 text data,
        api (calls w) req = Raised e1 -> rate_limit_error e1 = true ->
        api (S (calls w)) req = Raised e2 -> rate_limit_error e2 = true ->
        api (S (S (calls w))) req = Returned (Some text) ->
        read_response json_loads (Returned (Some text)) = Ok data ->
        try_models json_loads api (model :: rest) img 3 w
        = (Some data,
           World (S (S (S (calls w))))
             (log w ++ [Called model (Raised e1); Slept 15;
                        Called model (Raised e2); Slept 30;
                        Called model (Returned (Some text))])))
  /\ (forall e1 e2 e3,
        api (calls w) req = Raised e1 -> rate_limit_error e1 = true ->
        api (S (calls w)) req = Raised e2 -> rate_limit_error e2 = true ->
        api (S (S (calls w))) req = Raised e3 -> rate_limit_error e3 = true ->
        try_models json_loads api (model :: rest) img 3 w
        = try_models json_loads api rest img 3
            (World (S (S (S (calls w))))
               (log w ++ [Called model (Raised e1); Slept 15;
                          Called model (Raised e2); Slept 30;
                          Called model (Raised e3); Slept 45])))
  /\ (forall attempt remaining e,
        read_response json_loads o = Raise e -> other_error e = true ->
        try_model json_loads api model img attempt (S remaining) w
        = (NextModel, record_call w model o))
  /\ (forall e max_retries,
        read_response json_loads o = Raise e -> other_error e = true ->
        try_models json_loads api (model :: rest) img (S max_retries) w
        = try_models json_loads api rest img (S max_retries)
            (record_call w model o))
  /\ (forall e attempt remaining max_retries,
        read_response json_loads o = Raise e ->
        is_json_decode_error e = true ->
        try_model json_loads api model img attempt (S remaining) w
        = (Return None, record_call w model o)
        /\ try_models json_loads api (model :: rest) img (S max_retries) w
           = (None, record_call w model o)).
Proof.
  cbv zeta. split; [|split; [|split; [|split; [|split]]]].
  - intros attempt remaining e. apply try_model_retry.
  - intros e1 e2 text data H1 R1 H2 R2 H3 Hdata.
    cbn [try_models].
    rewrite (try_model_rate_limited model img 0 2 w e1 H1 R1), sleep_record.
    rewrite (try_model_rate_limited model img 1 1 (World (S (calls w)) _) e2
               H2 R2), sleep_record.
    cbn [try_model calls log]. rewrite H3, Hdata.
    unfold record_call. cbn [calls log]. now rewrite <- !app_assoc.
  - intros e1 e2 e3 H1 R1 H2 R2 H3 R3.
    cbn [try_models].
    rewrite (try_model_rate_limited model img 0 2 w e1 H1 R1), sleep_record.
    rewrite (try_model_rate_limited model img 1 1 (World (S (calls w)) _) e2
               H2 R2), sleep_record.
    rewrite (try_model_rate_limited model img 2 0
               (World (S (S (calls w))) _) e3 H3 R3), sleep_record.
    cbn [try_model calls log]. now rewrite <- !app_assoc.
  - intros attempt remaining e He Ho. unfold other_error in Ho.
    apply andb_true_iff in Ho as [Hj Hr]. apply negb_true_iff in Hj, Hr.
    cbn [try_model]. now rewrite He, Hj, Hr.
  - intros e max_retries He Ho. unfold other_error in Ho.
    apply andb_true_iff in Ho as [Hj Hr]. apply negb_true_iff in Hj, Hr.
    cbn [try_models try_model]. now rewrite He, Hj, Hr.
  - intros e attempt remaining max_retries He Hj.
    cbn [try_models try_model]. now rewrite He, Hj.
Qed.

End Service.

(** A page analysed while the service is rate limited once and then answers
    with a refusal: the refusal is the last event and the result is [None]. *)
Lemma malformed_response_is_terminal_witness :
  analyze_slide_with_gemini loads_known limited_then_refuses
    (Image 0 100 true) 1 3 start
  = (None,
     World 2 [Called first_model (Raised quota_error); Slept 15;
              Called first_model (Returned (Some refusal))])
  /\ malformed loads_known refusal = true
  /\ exists evs,
       [Called first_model (Raised quota_error); Slept 15;
        Called first_model (Returned (Some refusal))] = [] ++ evs
       /\ forall before model text after,
            evs = before ++ Called model (Returned (Some text)) :: after ->
            malformed loads_known text = true ->
            @None json = None /\ after = [].
Proof.
  split; [reflexivity|]. split; [reflexivity|].
  exact (malformed_response_is_terminal loads_known limited_then_refuses
           (Image 0 100 true) 1 3 start None _ eq_refl).
Defined.

(** A service that never returns JSON: the page ends after one call. *)
Lemma malformed_first_response_ends_page_witness :
  malformed loads_known refusal = true
  /\ analyze_slide_with_gemini loads_known always_refuses
       (Image 0 100 true) 1 3 start
     = (None, record_call start first_model (Returned (Some refusal))).
Proof.
  split; [reflexivity|].
  apply (malformed_first_response_ends_page loads_known always_refuses
           (Image 0 100 true) 1 2 start refusal); reflexivity.
Defined.

(** C2, as stated, fails: the first model answers with a text that is not
    JSON, and the second model is never called; the analysis returns [None]
    after the one call. *)
Lemma next_model_counterexample :
  malformed loads_known refusal = true
  /\ analyze_slide_with_gemini loads_known always_refuses
       (Image 0 100 true) 1 3 start
     = (None, World 1 [Called first_model (Returned (Some refusal))])
  /\ existsb (calls_model second_model)
       (log (snd (analyze_slide_with_gemini loads_known always_refuses
                    (Image 0 100 true) 1 3 start))) = false.
Proof. repeat split; vm_compute; reflexivity. Qed.

(** C8, as stated, fails: the call of the first model raises a JSON decode
    error, which has no rate-limit signature; the model is not left for the
    next one: the analysis returns [None] after the one call and the second
    model is never called. *)
Lemma decode_error_counterexample :
  rate_limited decode_error = false
  /\ analyze_slide_with_gemini loads_known always_undecodable
       (Image 0 100 true) 1 3 start
     = (None, World 1 [Called first_model (Raised decode_error)])
  /\ existsb (calls_model second_model)
       (log (snd (analyze_slide_with_gemini loads_known always_undecodable
                    (Image 0 100 true) 1 3 start))) = false.
Proof. repeat split; vm_compute; reflexivity. Qed.

(** Rate limited on the first two attempts and answered on the third: the
    slide data is returned after pauses of 15 and 30 seconds. *)
Lemma rate_limit_backoff_witness :
  rate_limit_error quota_error = true
  /\ analyze_slide_with_gemini loads_known limited_twice
       (Image 0 100 true) 1 3 start
     = (Some title_content,
        World 3 [Called first_model (Raised quota_error); Slept 15;
                 Called first_model (Raised quota_error); Slept 30;
                 Called first_model (Returned (Some title_text))]).
Proof.
  split; [reflexivity|].
  destruct (rate_limit_backoff loads_known limited_twice first_model
              [second_model; str "gemini-2.0-flash"] (Image 0 100 true) start)
    as (_ & H & _).
  apply (H quota_error quota_error title_text title_content); reflexivity.
Defined.

End ExtractorProps.

(* ------------------------------------------------------------------ *)
(** ** The page loop of the driver *)
(* ------------------------------------------------------------------ *)

Module DriverProps.
Import Py Json Pptx Extractor Driver Scenarios ResultProps.

Section Service.

Variable json_loads : pystr -> result json.
Variable api : nat -> request -> call_outcome.

Local Abbreviation extract_page := (extract_page json_loads api).
Local Abbreviation process_page := (process_page json_loads api).
Local Abbreviation run_pages := (run_pages json_loads api).
Local Abbreviation world_before := (world_before json_loads api).

(** What one turn of the page loop does to the state. *)
Lemma process_page_inv (slide_width slide_height : Z) (total_pages : nat)
  (st st1 : run_state) (page_num : nat) (p : page) :
  process_page slide_width slide_height total_pages st page_num p = Ok st1 ->
  exists s,
    slides st1 = slides st ++ [s]
    /\ outside st1
       = pace total_pages page_num (snd (extract_page page_num p (outside st)))
    /\ (forall z, In z (failed_slides st) -> In z (failed_slides st1))
    /\ (has_elements (fst (extract_page page_num p (outside st))) = Ok false ->
        s = fallback_slide slide_width slide_height
              (render_page_to_pil_image p 200 false)
        /\ failed_slides st1 = failed_slides st ++ [Z.of_nat page_num + 1]).
Proof.
  unfold Driver.process_page.
  destruct (extract_page page_num p (outside st)) as [slide_data w1] eqn:Ex.
  cbn [fst snd]. cbv beta iota. intros H. bind_inv H. bind_inv H.
  inversion H; subst. clear H.
  assert (Hfallback :
    v0 = RunState
           (slides st ++ [fallback_slide slide_width slide_height
                            (render_page_to_pil_image p 200 false)])
           (failed_slides st ++ [Z.of_nat page_num + 1]) w1 ->
    exists s,
      slides v0 = slides st ++ [s] /\ outside v0 = w1
      /\ (forall z, In z (failed_slides st) -> In z (failed_slides v0))
      /\ (s = fallback_slide slide_width slide_height
                (render_page_to_pil_image p 200 false)
          /\ failed_slides v0 = failed_slides st ++ [Z.of_nat page_num + 1])).
  { intros ->. cbn [slides failed_slides outside]. eexists.
    split; [reflexivity|]. split; [reflexivity|]. split; [|auto].
    intros z Hz. apply in_or_app. now left. }
  cbn [slides failed_slides outside].
  destruct slide_data as [data|], v as [|].
  - bind_inv E0. inversion E0; subst. cbn [slides failed_slides outside].
    eexists. split; [reflexivity|]. split; [reflexivity|]. split; [auto|].
    intros Hno. congruence.
  - destruct Hfallback as (s & Hs & -> & Hf & Hfb); [congruence|].
    exists s. split; [exact Hs|]. split; [reflexivity|]. now split.
  - destruct Hfallback as (s & Hs & -> & Hf & Hfb); [congruence|].
    exists s. split; [exact Hs|]. split; [reflexivity|]. now split.
  - destruct Hfallback as (s & Hs & -> & Hf & Hfb); [congruence|].
    exists s. split; [exact Hs|]. split; [reflexivity|]. now split.
Qed.

Lemma run_pages_inv (slide_width slide_height : Z) (total_pages : nat)
  (pages : list page) :
  forall page_num st st',
    run_pages slide_width slide_height total_pages pages page_num st = Ok st' ->
    List.length (slides st') = (List.length (slides st) + List.length pages)%nat
    /\ (forall z, In z (failed_slides st) -> In z (failed_slides st'))
    /\ (forall j s, nth_error (slides st) j = Some s ->
                    nth_error (slides st') j = Some s)
    /\ forall k p,
         nth_error pages k = Some p ->
         has_elements
           (fst (extract_page (page_num + k) p
                   (world_before total_pages pages page_num (outside st) k)))
         = Ok false ->
         In (Z.of_nat (page_num + k) + 1) (failed_slides st')
         /\ nth_error (slides st') (List.length (slides st) + k)
            = Some (fallback_slide slide_width slide_height
                      (render_page_to_pil_image p 200 false)).
Proof.
  induction pages as [|p0 pages IH]; intros page_num st st' H.
  - inversion H; subst. cbn [List.length].
    split; [lia|]. split; [auto|]. split; [auto|].
    intros [|k] q; discriminate.
  - cbn [Driver.run_pages] in H. bind_inv H.
    apply process_page_inv in E as (s & Hs & Hw & Hf & Hfb).
    apply IH in H as (Hlen & Hfail & Hkeep & Hpages).
    rewrite Hs, length_app in Hlen. cbn [List.length] in Hlen |- *.
    split; [lia|]. split; [auto|]. split.
    + intros j s0 Hj. apply Hkeep. rewrite Hs.
      rewrite nth_error_app1; [exact Hj|].
      apply nth_error_Some. congruence.
    + intros [|k] p Hp Hno.
      * cbn in Hp. injection Hp as ->. rewrite Nat.add_0_r in *.
        cbn [Driver.world_before] in Hno.
        destruct (Hfb Hno) as (-> & Hfailed). split.
        -- apply Hfail. rewrite Hfailed. apply in_or_app. right. now left.
        -- apply Hkeep. rewrite Hs.
           replace (List.length (slides st) + 0)%nat
             with (List.length (slides st)) by lia.
           rewrite nth_error_app2, Nat.sub_diag; [reflexivity|lia].
      * cbn in Hp. cbn [Driver.world_before] in Hno. rewrite <- Hw in Hno.
        replace (page_num + S k)%nat with (S page_num + k)%nat in * by lia.
        destruct (Hpages k p Hp Hno) as (Hin & Hnth). split; [exact Hin|].
        rewrite Hs, length_app in Hnth. cbn [List.length] in Hnth.
        now replace (List.length (slides st) + S k)%nat
          with (List.length (slides st) + 1 + k)%nat by lia.
Qed.

Lemma process_page_passes (slide_width slide_height : Z) (total_pages : nat)
  (st : run_state) (page_num : nat) (p : page) :
  page_passes slide_width slide_height p
    (fst (extract_page page_num p (outside st))) ->
  exists st1,
    process_page slide_width slide_height total_pages st page_num p = Ok st1.
Proof.
  unfold Driver.process_page, page_passes.
  destruct (extract_page page_num p (outside st)) as [slide_data w1].
  cbn [fst]. cbv beta iota.
  intros [H|(data & s & -> & H & Hs)]; rewrite H; cbn [bind].
  - destruct slide_data; cbn [bind]; eauto.
  - rewrite Hs. cbn [bind]. eauto.
Qed.

Lemma run_pages_completes (slide_width slide_height : Z) (total_pages : nat)
  (pages : list page) :
  forall page_num st,
    (forall k p,
       nth_error pages k = Some p ->
       page_passes slide_width slide_height p
         (fst (extract_page (page_num + k) p
                 (world_before total_pages pages page_num (outside st) k)))) ->
    exists st',
      run_pages slide_width slide_height total_pages pages page_num st = Ok st'.
Proof.
  induction pages as [|p0 pages IH]; intros page_num st H.
  - cbn. eauto.
  - cbn [Driver.run_pages].
    pose proof (H 0%nat p0 eq_refl) as H0. rewrite Nat.add_0_r in H0.
    cbn [Driver.world_before] in H0.
    destruct (process_page_passes slide_width slide_height total_pages st
                page_num p0 H0) as (st1 & E).
    rewrite E. cbn [bind]. apply IH. intros k p Hp.
    apply process_page_inv in E as (s & _ & Hw & _).
    specialize (H (S k) p Hp). cbn [Driver.world_before] in H.
    rewrite <- Hw in H.
    now replace (page_num + S k)%nat with (S page_num + k)%nat in H by lia.
Qed.

(** C9: a page whose extraction returns nothing, or a content without
    elements, is recorded in the failure list and gets a slide that holds
    only the high-resolution image at full bleed; a run that ends has one
    slide per page; and the run does end when every page either is such a
    page or is reconstructed without an exception, so such a page never
    stops it. *)
Theorem failed_pages_fall_back (doc : list page) (w : world)
  (slide_width slide_height : Z) :
  slide_size doc = Ok (slide_width, slide_height) ->
  let extracted k p :=
    fst (extract_page k p (world_before (List.length doc) doc 0 w k)) in
  (forall final,
     create_pptx_from_pdf_with_ai json_loads api doc w = Ok final ->
     List.length (slides final) = List.length doc
     /\ forall k p,
          nth_error doc k = Some p ->
          has_elements (extracted k p) = Ok false ->
          In (Z.of_nat k + 1) (failed_slides final)
          /\ nth_error (slides final) k
             = Some (fallback_slide slide_width slide_height
                       (render_page_to_pil_image p 200 false)))
  /\ ((forall k p,
         nth_error doc k = Some p ->
         page_passes slide_width slide_height p (extracted k p)) ->
      exists final,
        create_pptx_from_pdf_with_ai json_loads api doc w = Ok final).
Proof.
  intros Hsize extracted. unfold create_pptx_from_pdf_with_ai.
  rewrite Hsize. cbn [bind]. split.
  - intros final H. apply run_pages_inv in H as (Hlen & _ & _ & Hpages).
    split; [exact Hlen|]. intros k p Hp Hno.
    exact (Hpages k p Hp Hno).
  - intros H. apply run_pages_completes. exact H.
Qed.

End Service.

(** Five pages, the third without elements: five slides, page 3 in the
    failure list, and its slide the image alone. *)
Lemma failed_pages_fall_back_witness :
  exists final,
    create_pptx_from_pdf_with_ai loads_known third_page_empty five_pages start
      = Ok final
    /\ List.length (slides final) = 5%nat
    /\ failed_slides final = [3]
    /\ In 3 (failed_slides final)
    /\ nth_error (slides final) 2
       = Some (Slide None
                 [Picture (page_image 2) (Box 0 0 Inches_13_333 Inches_7_5)]).
Proof.
  destruct (failed_pages_fall_back loads_known third_page_empty five_pages
              start Inches_13_333 Inches_7_5) as (Hrun & _);
    [vm_compute; reflexivity|].
  assert (E : exists final,
             create_pptx_from_pdf_with_ai loads_known third_page_empty
               five_pages start = Ok final
             /\ failed_slides final = [3]).
  { vm_compute. eexists. split; reflexivity. }
  destruct E as (final & E & Hfailed).
  exists final. split; [exact E|].
  destruct (Hrun final E) as (Hlen & Hpages).
  split; [exact Hlen|]. split; [exact Hfailed|].
  apply (Hpages 2%nat (Page 2 (F64.nearest 960) (F64.nearest 540)));
    [reflexivity|vm_compute; reflexivity].
Defined.

End DriverProps.

(* ------------------------------------------------------------------ *)
(** ** Stripping *)
(* ------------------------------------------------------------------ *)

Module StringProps.
Import Py Measures.

Lemma lstrip_by_prefix (p : char -> bool) (s : pystr) :
  exists run, s = run ++ lstrip_by p s /\ forallb p run = true.
Proof.
  induction s as [|c s IH]; [now exists []|].
  cbn [lstrip_by]. destruct (p c) eqn:E.
  - destruct IH as (run & Hs & Hrun). exists (c :: run). split.
    + cbn. now rewrite <- Hs.
    + cbn. now rewrite E.
  - now exists [].
Qed.

Lemma lstrip_by_first (p : char -> bool) (s : pystr) :
  match lstrip_by p s with [] => True | c :: _ => p c = false end.
Proof.
  induction s as [|c s IH]; [exact I|].
  cbn [lstrip_by]. destruct (p c) eqn:E; [exact IH|exact E].
Qed.

Lemma lstrip_by_all (p : char -> bool) (s : pystr) :
  forallb p s = true -> lstrip_by p s = [].
Proof.
  induction s as [|c s IH]; [reflexivity|]. cbn. intros H.
  apply andb_true_iff in H as [Hc Hs]. rewrite Hc. auto.
Qed.

Lemma lstrip_by_keeps (p : char -> bool) (c : char) (s : pystr) :
  p c = false -> lstrip_by p (c :: s) = c :: s.
Proof. intros H. cbn. now rewrite H. Qed.

Lemma lstrip_by_app (p : char -> bool) (run s : pystr) :
  forallb p run = true -> lstrip_by p (run ++ s) = lstrip_by p s.
Proof.
  induction run as [|c run IH]; [reflexivity|]. cbn. intros H.
  apply andb_true_iff in H as [Hc Hr]. rewrite Hc. auto.
Qed.

(** The shape of any text: white space, a core that neither begins nor
    ends with white space, white space. *)
Lemma strip_decompose (p : char -> bool) (s : pystr) :
  exists l m r,
    s = l ++ m ++ r /\ forallb p l = true /\ forallb p r = true
    /\ match m with [] => True | c :: _ => p c = false end
    /\ match rev m with [] => True | c :: _ => p c = false end.
Proof.
  destruct (lstrip_by_prefix p s) as (l & Hs & Hl).
  destruct (lstrip_by_prefix p (rev (lstrip_by p s))) as (r' & Hr & Hr').
  set (m' := lstrip_by p (rev (lstrip_by p s))) in *.
  exists l, (rev m'), (rev r'). repeat split.
  - rewrite Hs at 1. f_equal.
    rewrite <- rev_app_distr, <- Hr. now rewrite rev_involutive.
  - exact Hl.
  - rewrite forallb_forall in *. intros x Hx. apply Hr'. now apply in_rev.
  - destruct (rev m') as [|c t] eqn:E; [exact I|].
    pose proof (lstrip_by_first p s) as Hf.
    assert (Hrev : lstrip_by p s = rev m' ++ rev r').
    { rewrite <- rev_app_distr, <- Hr. now rewrite rev_involutive. }
    rewrite Hrev, E in Hf. exact Hf.
  - rewrite rev_involutive. apply lstrip_by_first.
Qed.

Lemma rstrip_by_app (p : char -> bool) (s run : pystr) :
  forallb p run = true -> rstrip_by p (s ++ run) = rstrip_by p s.
Proof.
  intros H. unfold rstrip_by. rewrite rev_app_distr, lstrip_by_app; [reflexivity|].
  rewrite forallb_forall in *. intros x Hx. apply H. now apply in_rev.
Qed.

Lemma rstrip_by_keeps (p : char -> bool) (s : pystr) :
  match rev s with [] => True | c :: _ => p c = false end ->
  rstrip_by p s = s.
Proof.
  unfold rstrip_by. intros H. destruct (rev s) as [|c t] eqn:E.
  - cbn. apply (f_equal (@rev char)) in E. now rewrite rev_involutive in E.
  - rewrite lstrip_by_keeps by exact H. rewrite <- E. apply rev_involutive.
Qed.

(** Stripping a text of that shape leaves the core; stripping on one side
    leaves the core and the other side. *)
Lemma strip_of_parts (p : char -> bool) (l m r : pystr) :
  forallb p l = true -> forallb p r = true ->
  match m with [] => True | c :: _ => p c = false end ->
  match rev m with [] => True | c :: _ => p c = false end ->
  strip_by p (l ++ m ++ r) = m
  /\ lstrip_by p (l ++ m ++ r) = match m with [] => [] | _ => m ++ r end
  /\ rstrip_by p (l ++ m ++ r) = match m with [] => [] | _ => l ++ m end.
Proof.
  intros Hl Hr Hm Hm'. destruct m as [|c m].
  - cbn [app]. unfold strip_by, rstrip_by.
    rewrite lstrip_by_app by exact Hl. rewrite (lstrip_by_all p r Hr).
    repeat split; try reflexivity.
    rewrite lstrip_by_all; [reflexivity|].
    rewrite forallb_forall. intros x Hx. apply in_rev in Hx.
    apply in_app_or in Hx as [Hx|Hx];
      [rewrite forallb_forall in Hl; auto|rewrite forallb_forall in Hr; auto].
  - assert (Hls : lstrip_by p (l ++ (c :: m) ++ r) = (c :: m) ++ r).
    { rewrite lstrip_by_app by exact Hl. now apply lstrip_by_keeps. }
    split; [|split; [exact Hls|]].
    + unfold strip_by. rewrite Hls, rstrip_by_app by exact Hr.
      now apply rstrip_by_keeps.
    + rewrite app_assoc, rstrip_by_app by exact Hr.
      apply rstrip_by_keeps. rewrite rev_app_distr.
      destruct (rev (c :: m)) as [|x t] eqn:E; [|exact Hm'].
      apply (f_equal (@rev char)) in E. rewrite rev_involutive in E.
      discriminate.
Qed.

Lemma strip_by_trimmed (p : char -> bool) (s : pystr) :
  match strip_by p s with [] => True | c :: _ => p c = false end
  /\ match rev (strip_by p s) with [] => True | c :: _ => p c = false end.
Proof.
  destruct (strip_decompose p s) as (l & m & r & -> & Hl & Hr & Hm & Hm').
  destruct (strip_of_parts p l m r Hl Hr Hm Hm') as (-> & _). now split.
Qed.

Lemma strip_by_blank (p : char -> bool) (s : pystr) :
  forallb p s = true -> strip_by p s = [].
Proof.
  intros H. unfold strip_by, rstrip_by. now rewrite (lstrip_by_all p s H).
Qed.

Lemma strip_by_nonblank (p : char -> bool) (s : pystr) :
  strip_by p s = [] -> forallb p s = true.
Proof.
  destruct (strip_decompose p s) as (l & m & r & -> & Hl & Hr & Hm & Hm').
  destruct (strip_of_parts p l m r Hl Hr Hm Hm') as (-> & _). intros ->.
  cbn [app]. rewrite forallb_app. now rewrite Hl, Hr.
Qed.

(** Stripping again changes nothing, on either side first. *)
Lemma strip_by_sides (p : char -> bool) (s : pystr) :
  strip_by p (lstrip_by p s) = strip_by p s
  /\ strip_by p (rstrip_by p s) = strip_by p s
  /\ strip_by p (strip_by p s) = strip_by p s.
Proof.
  destruct (strip_decompose p s) as (l & m & r & -> & Hl & Hr & Hm & Hm').
  destruct (strip_of_parts p l m r Hl Hr Hm Hm') as (E1 & E2 & E3).
  rewrite E1, E2, E3.
  destruct (strip_of_parts p [] m [] eq_refl eq_refl Hm Hm') as (F1 & _).
  cbn [app] in F1. rewrite app_nil_r in F1.
  destruct m as [|c m]; [repeat split; reflexivity|].
  destruct (strip_of_parts p [] (c :: m) r eq_refl Hr Hm Hm') as (G1 & _).
  destruct (strip_of_parts p l (c :: m) [] Hl eq_refl Hm Hm') as (H1 & _).
  rewrite app_nil_r in H1. cbn [app] in G1.
  repeat split; assumption.
Qed.

End StringProps.

(* ------------------------------------------------------------------ *)
(** ** The [.env] file *)
(* ------------------------------------------------------------------ *)

Module EnvProps.
Import Py Env Measures StringProps Examples.

Lemma str_eqb_eq (a b : pystr) : str_eqb a b = true <-> a = b.
Proof.
  revert b. induction a as [|x a IH]; intros [|y b]; cbn; try easy.
  rewrite andb_true_iff, N.eqb_eq, IH. split.
  - now intros [-> ->].
  - now intros [= -> ->].
Qed.

Lemma getenv_app (k k' v' : pystr) (env : environ) :
  getenv k (env ++ [(k', v')]) =
  match getenv k env with
  | Some v => Some v
  | None => if str_eqb k' k then Some v' else None
  end.
Proof.
  induction env as [|[k0 v0] env IH]; cbn; [reflexivity|].
  destruct (str_eqb k0 k); [reflexivity|exact IH].
Qed.

Lemma setdefault_keeps (env env' : environ) (key value k v : pystr) :
  getenv k env = Some v -> setdefault env key value = Ok env' ->
  getenv k env' = Some v.
Proof.
  unfold setdefault. intros Hk.
  destruct (forallb encodable key); [|discriminate]. cbn [negb].
  destruct (getenv key env); [now intros [= <-]|].
  destruct (forallb encodable value); [|discriminate]. cbn [negb].
  destruct (char_in 0%N key || char_in 0%N value); [discriminate|].
  destruct (char_in equals_sign key); [discriminate|].
  destruct key; [discriminate|]. intros [= <-].
  now rewrite getenv_app, Hk.
Qed.

Lemma load_line_keeps (env env' : environ) (raw k v : pystr) :
  getenv k env = Some v -> load_line env raw = Ok env' ->
  getenv k env' = Some v.
Proof.
  unfold load_line. intros Hk.
  destruct (strip raw) as [|c line]; [now intros [= <-]|].
  destruct (negb _ && _); [|now intros [= <-]].
  destruct (split_first _ _) as [[key value]|]; [|now intros [= <-]].
  now apply setdefault_keeps.
Qed.

(** X1: a variable that is set in the environment keeps its value,
    whatever the [.env] file assigns to it. *)
Theorem environment_is_never_overridden (file : option (list pystr))
  (env env' : environ) (k v : pystr) :
  getenv k env = Some v ->
  load_env file env = Ok env' ->
  getenv k env' = Some v.
Proof.
  destruct file as [lines|]; cbn [load_env]; [|now intros ? [= <-]].
  revert env. induction lines as [|raw lines IH]; intros env Hk H.
  - now inversion H; subst.
  - cbn [fold_result] in H. bind_inv H.
    apply (IH v0); [|exact H]. eapply load_line_keeps; eassumption.
Qed.

(** The key of the environment wins over the key of the file. *)
Lemma environment_is_never_overridden_witness :
  exists env',
    load_env (Some env_file) real_key_env = Ok env'
    /\ GEMINI_API_KEY env' = str "real-key".
Proof.
  assert (E : exists env', load_env (Some env_file) real_key_env = Ok env').
  { vm_compute. eauto. }
  destruct E as (env' & E). exists env'. split; [exact E|].
  unfold GEMINI_API_KEY.
  now rewrite (environment_is_never_overridden (Some env_file) real_key_env
                 env' (str "GEMINI_API_KEY") (str "real-key") eq_refl E).
Defined.

Lemma lstrip_by_stop (p : char -> bool) (a b : pystr) (c : char) :
  p c = false -> lstrip_by p (a ++ c :: b) = lstrip_by p a ++ c :: b.
Proof.
  intros Hc. induction a as [|x a IH]; cbn; [now rewrite Hc|].
  destruct (p x); [exact IH|reflexivity].
Qed.

Lemma strip_around (p : char -> bool) (a b : pystr) (c : char) :
  p c = false ->
  strip_by p (a ++ c :: b) = lstrip_by p a ++ c :: rstrip_by p b.
Proof.
  intros Hc. unfold strip_by. rewrite (lstrip_by_stop p a b c Hc).
  unfold rstrip_by. rewrite rev_app_distr. cbn [rev].
  rewrite <- app_assoc. cbn [app].
  rewrite (lstrip_by_stop p (rev b) (rev (lstrip_by p a)) c Hc).
  rewrite rev_app_distr. cbn [rev]. rewrite rev_involutive.
  now rewrite <- app_assoc.
Qed.

Lemma split_first_at (sep : char) (a b : pystr) :
  char_in sep a = false -> split_first sep (a ++ sep :: b) = Some (a, b).
Proof.
  unfold char_in. induction a as [|x a IH]; cbn.
  - now rewrite N.eqb_refl.
  - intros H. apply orb_false_iff in H as [Hx Ha].
    rewrite N.eqb_sym, Hx. now rewrite (IH Ha).
Qed.

Lemma contains_middle (a b : pystr) (c : char) :
  contains (a ++ c :: b) [c] = true.
Proof.
  induction a as [|x a IH].
  - destruct b; cbn; now rewrite N.eqb_refl.
  - cbn [app contains]. rewrite IH. apply orb_true_r.
Qed.

Lemma char_in_lstrip (p : char -> bool) (c : char) (s : pystr) :
  char_in c s = false -> char_in c (lstrip_by p s) = false.
Proof.
  unfold char_in. induction s as [|x s IH]; cbn; [auto|].
  intros H. apply orb_false_iff in H as [Hx Hs].
  destruct (p x); [auto|]. cbn. now rewrite Hx, Hs.
Qed.

Lemma startswith_nil (s : pystr) : startswith s [] = true.
Proof. now destruct s. Qed.

Lemma startswith_one (c h : char) (s t : pystr) :
  startswith (c :: s) [h] = startswith (c :: t) [h].
Proof. cbn [startswith]. now rewrite !startswith_nil. Qed.

Lemma scalar_encodable (s : pystr) :
  forallb scalar s = true -> forallb encodable s = true.
Proof.
  rewrite !forallb_forall. intros H c Hc. unfold encodable.
  now rewrite (H c Hc).
Qed.

Lemma char_in_strip (c : char) (s : pystr) :
  char_in c s = false -> char_in c (strip s) = false.
Proof.
  destruct (strip_decompose isspace s) as (l & m & r & -> & Hl & Hr & Hm & Hm').
  destruct (strip_of_parts isspace l m r Hl Hr Hm Hm') as (E & _).
  unfold strip. rewrite E. unfold char_in. rewrite !existsb_app.
  intros H. apply orb_false_iff in H as [_ H].
  now apply orb_false_iff in H as [H _].
Qed.

(** X2: a line [KEY=VALUE] of texts without surrogates, whose key is not
    yet set, is read back: the variable named by the stripped key holds the
    stripped value, which is everything after the first equals sign. *)
Theorem assignment_is_read_back (env : environ) (key value : pystr) :
  strip key <> [] ->
  startswith (strip key) (str "#") = false ->
  char_in equals_sign key = false ->
  forallb scalar (strip key) = true ->
  forallb scalar (strip value) = true ->
  char_in 0%N (strip key) = false ->
  char_in 0%N (strip value) = false ->
  getenv (strip key) env = None ->
  exists env',
    load_line env (key ++ equals_sign :: value) = Ok env'
    /\ getenv (strip key) env' = Some (strip value).
Proof.
  intros Hne Hhash Heq Hkey_scalar Hvalue_scalar Hnul Hnul' Hunset.
  apply scalar_encodable in Hkey_scalar, Hvalue_scalar.
  pose proof (char_in_strip equals_sign key Heq) as Heq'.
  assert (Hline : strip (key ++ equals_sign :: value)
                  = lstrip_by isspace key ++ equals_sign :: rstrip_by isspace value)
    by exact (strip_around isspace key value equals_sign eq_refl).
  assert (Hkey : strip (lstrip_by isspace key) = strip key)
    by apply (strip_by_sides isspace key).
  assert (Hvalue : strip (rstrip_by isspace value) = strip value)
    by apply (strip_by_sides isspace value).
  assert (Hsplit : split_first equals_sign
                     (lstrip_by isspace key ++ equals_sign :: rstrip_by isspace value)
                   = Some (lstrip_by isspace key, rstrip_by isspace value))
    by (apply split_first_at, char_in_lstrip, Heq).
  assert (Hhas : contains (lstrip_by isspace key ++ equals_sign :: rstrip_by isspace value)
                   [equals_sign] = true) by apply contains_middle.
  destruct (strip_decompose isspace key) as (l & m & r & Ek & Hl & Hr & Hm & Hm').
  destruct (strip_of_parts isspace l m r Hl Hr Hm Hm') as (Es & El & _).
  assert (Hs : strip key = m) by (rewrite Ek; exact Es).
  rewrite Hs in *. destruct m as [|c m]; [congruence|].
  assert (Hls : lstrip_by isspace key = (c :: m) ++ r)
    by (rewrite Ek; exact El).
  unfold load_line. rewrite Hline.
  rewrite Hhas, Hsplit, Hls. cbn [app].
  assert (Hstart : startswith
                     (c :: m ++ r ++ equals_sign :: rstrip_by isspace value)
                     (str "#") = false).
  { exact (eq_trans (startswith_one c _ _ m) Hhash). }
  rewrite <- app_assoc. cbn [app]. rewrite Hstart. cbn [negb andb].
  rewrite app_comm_cons, <- Hls, Hkey, Hvalue.
  unfold setdefault.
  rewrite Hkey_scalar, Hunset, Hvalue_scalar, Hnul, Hnul', Heq'.
  cbn [orb negb]. eexists. split; [reflexivity|].
  rewrite getenv_app, Hunset.
  now rewrite (proj2 (str_eqb_eq (c :: m) (c :: m)) eq_refl).
Qed.

(** The line [ MODE = a=b ] sets [MODE] to [a=b]. *)
Lemma assignment_is_read_back_witness :
  exists env',
    load_line real_key_env (str " MODE " ++ equals_sign :: str " a=b ")
    = Ok env'
    /\ getenv (str "MODE") env' = Some (str "a=b").
Proof.
  apply (assignment_is_read_back real_key_env (str " MODE ") (str " a=b "));
    vm_compute; congruence.
Defined.

End EnvProps.

(* ------------------------------------------------------------------ *)
(** ** The text extractor *)
(* ------------------------------------------------------------------ *)

Module TextExtractorProps.
Import Py TextExtractor Measures StringProps Examples.

Lemma join_blank (parts : list pystr) :
  blank (join [newline] parts) = forallb blank parts.
Proof.
  unfold blank. induction parts as [|p parts IH]; [reflexivity|].
  destruct parts as [|q parts].
  - cbn. now rewrite andb_true_r.
  - change (join [newline] (p :: q :: parts))
      with (p ++ [newline] ++ join [newline] (q :: parts)).
    rewrite !forallb_app, IH. reflexivity.
Qed.

(** X3: the extractor returns one text per page, in the order of the
    pages, and no text begins or ends with white space. *)
Theorem extracted_text_per_page (pages : list (list layout_element)) :
  List.length (extract_text_by_page pages) = List.length pages
  /\ Forall trimmed (extract_text_by_page pages)
  /\ forall k layout,
       nth_error pages k = Some layout ->
       nth_error (extract_text_by_page pages) k = Some (cleaned_text layout).
Proof.
  unfold extract_text_by_page. split; [apply length_map|]. split.
  - apply Forall_forall. intros t Ht. apply in_map_iff in Ht as (layout & <- & _).
    apply strip_by_trimmed.
  - intros k layout H. now apply map_nth_error.
Qed.

(** X4: the text of a page is empty exactly when the page has no text
    container whose text holds a character that is not white space. *)
Theorem empty_text_iff_blank_page (layout : list layout_element) :
  cleaned_text layout = [] <-> forallb blank (container_texts layout) = true.
Proof.
  unfold cleaned_text, strip. rewrite <- join_blank. unfold blank. split.
  - apply strip_by_nonblank.
  - apply strip_by_blank.
Qed.

End TextExtractorProps.

(* ------------------------------------------------------------------ *)
(** ** The cost of an extraction *)
(* ------------------------------------------------------------------ *)

Module BudgetProps.
Import Py Json Pptx Extractor Driver Scenarios Measures Examples.

Lemma count_calls_app (evs1 evs2 : list event) :
  count_calls (evs1 ++ evs2) = (count_calls evs1 + count_calls evs2)%nat.
Proof. unfold count_calls. now rewrite filter_app, length_app. Qed.

Lemma count_pauses_app (t : Z) (evs1 evs2 : list event) :
  count_pauses t (evs1 ++ evs2)
  = (count_pauses t evs1 + count_pauses t evs2)%nat.
Proof. unfold count_pauses. now rewrite filter_app, length_app. Qed.

Lemma total_slept_app (evs1 evs2 : list event) :
  total_slept (evs1 ++ evs2) = total_slept evs1 + total_slept evs2.
Proof.
  induction evs1 as [|[m o|t] evs1 IH]; cbn [app total_slept]; lia.
Qed.

Lemma events_since_spans (w w' : world) (evs : list event) :
  spans w w' evs -> events_since w w' = evs.
Proof.
  intros [H _]. unfold events_since. rewrite H, skipn_app, Nat.sub_diag.
  now rewrite skipn_all.
Qed.

Lemma spans_nil (w : world) : spans w w [].
Proof. split; [now rewrite app_nil_r|cbn; lia]. Qed.

Lemma spans_call (w : world) (model : pystr) (o : call_outcome) :
  spans w (record_call w model o) [Called model o].
Proof. split; cbn; [reflexivity|lia]. Qed.

Lemma spans_trans (w1 w2 w3 : world) (evs1 evs2 : list event) :
  spans w1 w2 evs1 -> spans w2 w3 evs2 -> spans w1 w3 (evs1 ++ evs2).
Proof.
  intros [L1 C1] [L2 C2]. split.
  - now rewrite L2, L1, app_assoc.
  - rewrite C2, C1, count_calls_app. lia.
Qed.

Lemma spans_call_sleep (w : world) (model : pystr) (o : call_outcome) (t : Z) :
  spans w (sleep t (record_call w model o)) [Called model o; Slept t].
Proof. split; cbn; [now rewrite <- app_assoc|lia]. Qed.

Section Service.

Variable json_loads : pystr -> result json.
Variable api : nat -> request -> call_outcome.

Local Abbreviation try_model := (try_model json_loads api).
Local Abbreviation try_models := (try_models json_loads api).
Local Abbreviation analyze := (analyze_slide_with_gemini json_loads api).

(** The cost of the attempts with one model. *)
Lemma try_model_budget (model : pystr) (img : image) (remaining : nat) :
  forall attempt w,
  exists evs,
    spans w (snd (try_model model img attempt remaining w)) evs
    /\ (count_calls evs <= remaining)%nat
    /\ 0 <= total_slept evs
    /\ 2 * total_slept evs
       <= 15 * Z.of_nat remaining
          * (2 * Z.of_nat attempt + Z.of_nat remaining + 1)
    /\ count_pauses 10 evs = 0%nat.
Proof.
  induction remaining as [|remaining IH]; intros attempt w.
  - exists []. cbn. split; [apply spans_nil|]. repeat split; lia.
  - cbn [Extractor.try_model].
    set (o := api (calls w) (Request model img)).
    assert (Hone : exists evs,
               spans w (record_call w model o) evs
               /\ (count_calls evs <= S remaining)%nat
               /\ 0 <= total_slept evs
               /\ 2 * total_slept evs
                  <= 15 * Z.of_nat (S remaining)
                     * (2 * Z.of_nat attempt + Z.of_nat (S remaining) + 1)
               /\ count_pauses 10 evs = 0%nat).
    { exists [Called model o]. split; [apply spans_call|].
      split; [cbn; lia|]. split; [cbn; lia|]. split; [|reflexivity].
      change (total_slept [Called model o]) with 0.
      apply Z.mul_nonneg_nonneg; lia. }
    destruct (read_response json_loads o) as [data|e]; [exact Hone|].
    destruct (is_json_decode_error e); [exact Hone|].
    destruct (rate_limited e); [|exact Hone].
    set (t := 15 * (Z.of_nat attempt + 1)).
    destruct (IH (S attempt) (sleep t (record_call w model o)))
      as (evs & Hspan & Hcalls & Hpos & Hsum & Hten).
    exists ([Called model o; Slept t] ++ evs). split.
    + eapply spans_trans; [apply spans_call_sleep|exact Hspan].
    + rewrite count_calls_app, total_slept_app, count_pauses_app, Hten.
      cbn [count_calls count_pauses filter List.length total_slept].
      assert (Hne : (t =? 10) = false) by (apply Z.eqb_neq; unfold t; lia).
      rewrite Hne. cbn [List.length]. unfold t.
      repeat split; lia.
Qed.

(** The cost of the attempts with the models of a list. *)
Lemma try_models_budget (img : image) (max_retries : nat) (ms : list pystr) :
  forall w,
  exists evs,
    spans w (snd (try_models ms img max_retries w)) evs
    /\ (count_calls evs <= List.length ms * max_retries)%nat
    /\ 0 <= total_slept evs
    /\ 2 * total_slept evs
       <= Z.of_nat (List.length ms)
          * (15 * Z.of_nat max_retries * (Z.of_nat max_retries + 1))
    /\ count_pauses 10 evs = 0%nat.
Proof.
  induction ms as [|model rest IH]; intros w.
  - exists []. cbn. split; [apply spans_nil|]. repeat split; lia.
  - cbn [Extractor.try_models].
    destruct (try_model_budget model img max_retries 0 w)
      as (evs1 & Hspan1 & Hcalls1 & Hpos1 & Hsum1 & Hten1).
    destruct (try_model model img 0 max_retries w) as [[r|] w1];
      cbn [snd] in *.
    + exists evs1. split; [exact Hspan1|]. cbn [List.length].
      repeat split; try lia; try nia; exact Hten1.
    + destruct (IH w1) as (evs2 & Hspan2 & Hcalls2 & Hpos2 & Hsum2 & Hten2).
      exists (evs1 ++ evs2). split; [eapply spans_trans; eassumption|].
      rewrite count_calls_app, total_slept_app, count_pauses_app, Hten1, Hten2.
      cbn [List.length]. repeat split; try lia; try nia.
Qed.

(** X5: the analysis of a page makes at most as many calls as there are
    models times attempts (nine by default) and, between them, sleeps at
    most 45 seconds times r(r+1)/2 for r attempts per model (270 seconds by
    default); the call counter advances by the number of calls made. *)
Theorem extraction_budget (img : image) (slide_num : Z) (max_retries : nat)
  (w : world) :
  let w' := snd (analyze img slide_num max_retries w) in
  let evs := events_since w w' in
  log w' = log w ++ evs
  /\ calls w' = (calls w + count_calls evs)%nat
  /\ (count_calls evs <= 3 * max_retries)%nat
  /\ 0 <= total_slept evs
  /\ 2 * total_slept evs
     <= 45 * Z.of_nat max_retries * (Z.of_nat max_retries + 1).
Proof.
  cbv zeta. unfold analyze_slide_with_gemini.
  destruct (try_models_budget img max_retries models w)
    as (evs & Hspan & Hcalls & Hpos & Hsum & _).
  rewrite (events_since_spans _ _ _ Hspan). destruct Hspan as [Hlog Hn].
  split; [exact Hlog|]. split; [exact Hn|].
  change (List.length models) with 3%nat in *.
  repeat split; lia.
Qed.

(** With a service that is rate limited on every call, each model uses
    up its attempts. *)
Lemma try_model_exhausts (model : pystr) (img : image) (remaining : nat) :
  (forall n req, exists e, api n req = Raised e /\ rate_limit_error e = true) ->
  forall attempt w,
  exists w' evs,
    try_model model img attempt remaining w = (NextModel, w')
    /\ spans w w' evs
    /\ count_calls evs = remaining
    /\ 2 * total_slept evs
       = 15 * Z.of_nat remaining
         * (2 * Z.of_nat attempt + Z.of_nat remaining + 1).
Proof.
  intros Hapi. induction remaining as [|remaining IH]; intros attempt w.
  - exists w, []. split; [reflexivity|]. split; [apply spans_nil|].
    split; [reflexivity|]. cbn. lia.
  - destruct (Hapi (calls w) (Request model img)) as (e & He & Hlim).
    rewrite (ExtractorProps.try_model_rate_limited json_loads api model img
               attempt remaining w e He Hlim).
    set (t := 15 * (Z.of_nat attempt + 1)).
    destruct (IH (S attempt) (sleep t (record_call w model (Raised e))))
      as (w' & evs & Hrun & Hspan & Hcalls & Hsum).
    exists w', ([Called model (Raised e); Slept t] ++ evs).
    split; [exact Hrun|]. split.
    + eapply spans_trans; [apply spans_call_sleep|exact Hspan].
    + rewrite count_calls_app, total_slept_app, Hcalls.
      cbn [count_calls filter List.length total_slept]. unfold t.
      split; lia.
Qed.

Lemma try_models_exhaust (img : image) (max_retries : nat) (ms : list pystr) :
  (forall n req, exists e, api n req = Raised e /\ rate_limit_error e = true) ->
  forall w,
  exists w' evs,
    try_models ms img max_retries w = (None, w')
    /\ spans w w' evs
    /\ count_calls evs = (List.length ms * max_retries)%nat
    /\ 2 * total_slept evs
       = Z.of_nat (List.length ms)
         * (15 * Z.of_nat max_retries * (Z.of_nat max_retries + 1)).
Proof.
  intros Hapi. induction ms as [|model rest IH]; intros w.
  - exists w, []. split; [reflexivity|]. split; [apply spans_nil|].
    split; [reflexivity|]. cbn. lia.
  - cbn [Extractor.try_models].
    destruct (try_model_exhausts model img max_retries Hapi 0 w)
      as (w1 & evs1 & Hrun1 & Hspan1 & Hcalls1 & Hsum1).
    rewrite Hrun1.
    destruct (IH w1) as (w' & evs2 & Hrun2 & Hspan2 & Hcalls2 & Hsum2).
    exists w', (evs1 ++ evs2). split; [exact Hrun2|].
    split; [eapply spans_trans; eassumption|].
    rewrite count_calls_app, total_slept_app, Hcalls1, Hcalls2.
    cbn [List.length]. split; lia.
Qed.

(** X6: when every call fails with the rate-limit signature, the analysis
    of a page uses every attempt of every model: it returns nothing after
    three times r calls and 45 seconds times r(r+1)/2 of sleep for r
    attempts per model, so the bound of the budget is reached. *)
Theorem rate_limit_exhaustion (img : image) (slide_num : Z)
  (max_retries : nat) (w : world) :
  (forall n req, exists e, api n req = Raised e /\ rate_limit_error e = true) ->
  let run := analyze img slide_num max_retries w in
  fst run = None
  /\ count_calls (events_since w (snd run)) = (3 * max_retries)%nat
  /\ 2 * total_slept (events_since w (snd run))
     = 45 * Z.of_nat max_retries * (Z.of_nat max_retries + 1).
Proof.
  intros Hapi. cbv zeta. unfold analyze_slide_with_gemini.
  destruct (try_models_exhaust img max_retries models Hapi w)
    as (w' & evs & Hrun & Hspan & Hcalls & Hsum).
  rewrite Hrun. cbn [fst snd]. rewrite (events_since_spans _ _ _ Hspan).
  change (List.length models) with 3%nat in *.
  split; [reflexivity|]. split; lia.
Qed.

(** What a readable response is. *)
Lemma read_response_ok (o : call_outcome) (data : json) :
  read_response json_loads o = Ok data ->
  exists text fields elements n,
    o = Returned (Some text)
    /\ json_loads (clean_response text) = Ok data
    /\ data = JObj fields
    /\ get data "elements" (JArr []) = Ok elements
    /\ len elements = Ok n.
Proof.
  destruct o as [[text|]|e]; cbn [read_response]; try discriminate.
  intros H. bind_inv H. bind_inv H. bind_inv H. inversion H; subst.
  destruct data; try discriminate. exists text, fields, v0, v1. auto.
Qed.

Lemma try_model_returns (model : pystr) (img : image) (remaining : nat) :
  forall attempt w data w',
    try_model model img attempt remaining w = (Return (Some data), w') ->
    exists before o,
      log w' = log w ++ before ++ [Called model o]
      /\ read_response json_loads o = Ok data.
Proof.
  induction remaining as [|remaining IH]; intros attempt w data w' H;
    [discriminate|].
  cbn [Extractor.try_model] in H.
  set (o := api (calls w) (Request model img)) in *.
  destruct (read_response json_loads o) as [d|e] eqn:Er.
  - inversion H; subst. exists [], o. now split.
  - destruct (is_json_decode_error e); [discriminate|].
    destruct (rate_limited e); [|discriminate].
    apply IH in H as (before & o' & Hlog & Hread).
    exists ([Called model o; Slept (15 * (Z.of_nat attempt + 1))] ++ before), o'.
    split; [|exact Hread]. rewrite Hlog. cbn. now rewrite <- !app_assoc.
Qed.

Lemma try_models_return (img : image) (max_retries : nat) (ms : list pystr) :
  forall w data w',
    try_models ms img max_retries w = (Some data, w') ->
    exists before model o,
      log w' = log w ++ before ++ [Called model o]
      /\ In model ms
      /\ read_response json_loads o = Ok data.
Proof.
  induction ms as [|m rest IH]; intros w data w' H; [discriminate|].
  cbn [Extractor.try_models] in H.
  destruct (try_model_budget m img max_retries 0 w) as (evs1 & [Hlog1 _] & _).
  destruct (try_model m img 0 max_retries w) as [[r|] w1] eqn:E;
    cbn [snd] in Hlog1.
  - inversion H; subst.
    apply try_model_returns in E as (before & o & Hlog & Hread).
    exists before, m, o. split; [exact Hlog|]. split; [now left|exact Hread].
  - apply IH in H as (before & model & o & Hlog & Hin & Hread).
    exists (evs1 ++ before), model, o.
    split; [rewrite Hlog, Hlog1; now rewrite <- !app_assoc|].
    split; [now right|exact Hread].
Qed.

(** X7: the content the analysis of a page returns is read from the
    response of the last call made, which went to one of the three models;
    it is an object whose elements have a length, and the test the driver
    makes on it (has it any element?) never raises. *)
Theorem returned_content_is_last_response (img : image) (slide_num : Z)
  (max_retries : nat) (w w' : world) (data : json) :
  analyze img slide_num max_retries w = (Some data, w') ->
  exists before model text fields b,
    events_since w w' = before ++ [Called model (Returned (Some text))]
    /\ In model models
    /\ json_loads (clean_response text) = Ok data
    /\ data = JObj fields
    /\ is_ok (elements <- get data "elements" (JArr []) ;; len elements) = true
    /\ has_elements (Some data) = Ok b.
Proof.
  unfold analyze_slide_with_gemini. intros H.
  apply try_models_return in H as (before & model & o & Hlog & Hin & Hread).
  apply read_response_ok
    in Hread as (text & fields & elements & n & -> & Hloads & -> & Hget & Hlen).
  exists before, model, text, fields.
  exists (if truthy (JObj fields)
          then truthy (match lookup (str "elements") fields with
                       | Some v => v
                       | None => JNull
                       end)
          else false).
  split.
  - unfold events_since. rewrite Hlog, skipn_app, Nat.sub_diag.
    now rewrite skipn_all.
  - split; [exact Hin|]. split; [exact Hloads|]. split; [reflexivity|].
    split; [rewrite Hget; cbn [bind]; now rewrite Hlen|].
    cbn [has_elements get bind]. now destruct (truthy (JObj fields)).
Qed.

End Service.

(** Rate limited for good: nine calls, 270 seconds, nothing returned. *)
Lemma rate_limit_exhaustion_witness :
  let run := analyze_slide_with_gemini loads_known always_limited
               (page_image 0) 1 3 start in
  fst run = None
  /\ count_calls (events_since start (snd run)) = 9%nat
  /\ 2 * total_slept (events_since start (snd run)) = 540.
Proof.
  apply (rate_limit_exhaustion loads_known always_limited (page_image 0) 1 3
           start).
  intros n req. exists quota_error. split; reflexivity.
Defined.

(** The first model is out of service and the second answers with a fenced
    response: the content is the one read from that response. *)
Lemma returned_content_is_last_response_witness :
  exists before model text fields b,
    events_since start
      (snd (analyze_slide_with_gemini loads_known answers_second
              (page_image 0) 1 3 start))
    = before ++ [Called model (Returned (Some text))]
    /\ In model models
    /\ loads_known (clean_response text) = Ok title_content
    /\ title_content = JObj fields
    /\ is_ok (elements <- get title_content "elements" (JArr []) ;;
              len elements) = true
    /\ has_elements (Some title_content) = Ok b.
Proof.
  apply (returned_content_is_last_response loads_known answers_second
           (page_image 0) 1 3 start).
  vm_compute. reflexivity.
Defined.

End BudgetProps.

(* ------------------------------------------------------------------ *)
(** ** The markdown fence of a response *)
(* ------------------------------------------------------------------ *)

Module FenceProps.
Import Py Extractor Measures StringProps Scenarios Examples.

Lemma startswith_app (prefix s : pystr) : startswith (prefix ++ s) prefix = true.
Proof.
  induction prefix as [|c prefix IH]; [now destruct s|].
  cbn. now rewrite N.eqb_refl, IH.
Qed.

Lemma endswith_app (s suffix : pystr) : endswith (s ++ suffix) suffix = true.
Proof. unfold endswith. rewrite rev_app_distr. apply startswith_app. Qed.

Lemma drop_back_app (s suffix : pystr) :
  drop_back (List.length suffix) (s ++ suffix) = s.
Proof.
  unfold drop_back. rewrite length_app, Nat.add_sub, firstn_app, Nat.sub_diag.
  rewrite firstn_all. cbn. apply app_nil_r.
Qed.

Lemma strip_fenced (opening l body r : pystr) :
  blank l = true -> blank r = true ->
  match opening with [] => False | c :: _ => isspace c = false end ->
  strip (l ++ opening ++ body ++ fence ++ r) = opening ++ body ++ fence.
Proof.
  intros Hl Hr Ho.
  replace (l ++ opening ++ body ++ fence ++ r)
    with (l ++ (opening ++ body ++ fence) ++ r)
    by now rewrite <- !app_assoc.
  apply strip_of_parts; [exact Hl|exact Hr| |].
  - destruct opening; [contradiction|exact Ho].
  - rewrite !rev_app_distr. reflexivity.
Qed.

Lemma no_json_after_fence (body : pystr) :
  startswith body (str "json") = false ->
  startswith (fence ++ body ++ fence) json_fence = false.
Proof.
  change (startswith (fence ++ body ++ fence) json_fence)
    with (startswith (body ++ fence) (str "json")).
  destruct body as [|a [|b [|c [|d body]]]]; try reflexivity; cbn;
    repeat match goal with
           | |- context [(?x =? ?y)%N] => destruct (x =? y)%N
           end; cbn; try reflexivity; try discriminate; auto.
  now destruct body.
Qed.

(** X8: a response wrapped in a markdown fence, with white space around
    it, is read as the text between the fences, stripped, whether the
    opening fence names JSON or not; a response that neither begins nor ends
    with a fence is only stripped. *)
Theorem fenced_response_is_unwrapped (l body r : pystr) :
  blank l = true ->
  blank r = true ->
  clean_response (l ++ json_fence ++ body ++ fence ++ r) = strip body
  /\ (startswith body (str "json") = false ->
      clean_response (l ++ fence ++ body ++ fence ++ r) = strip body)
  /\ (startswith (strip body) fence = false ->
      endswith (strip body) fence = false ->
      clean_response body = strip body).
Proof.
  intros Hl Hr. split; [|split].
  - unfold clean_response.
    rewrite (strip_fenced json_fence l body r Hl Hr eq_refl).
    rewrite startswith_app.
    change (drop_front 7 (json_fence ++ body ++ fence)) with (body ++ fence).
    rewrite endswith_app.
    now rewrite (drop_back_app body fence : drop_back 3 (body ++ fence) = body).
  - intros Hbody. unfold clean_response.
    rewrite (strip_fenced fence l body r Hl Hr eq_refl).
    rewrite (no_json_after_fence body Hbody), startswith_app.
    change (drop_front 3 (fence ++ body ++ fence)) with (body ++ fence).
    rewrite endswith_app.
    now rewrite (drop_back_app body fence : drop_back 3 (body ++ fence) = body).
  - intros Hstart Hend. unfold clean_response.
    assert (Hjson : startswith (strip body) json_fence = false).
    { revert Hstart. clear Hend.
      destruct (strip body) as [|a [|b [|c t]]]; cbn;
        repeat match goal with
               | |- context [(?x =? ?y)%N] => destruct (x =? y)%N
               end; cbn; try reflexivity; try discriminate.
      now destruct t. }
    rewrite Hjson, Hstart, Hend. apply (strip_by_sides isspace body).
Qed.

(** The fenced response of the examples is read as the JSON text inside. *)
Lemma fenced_response_is_unwrapped_witness :
  clean_response fenced_title = title_text.
Proof.
  destruct (fenced_response_is_unwrapped [newline]
              ([newline] ++ title_text ++ [newline]) [newline] eq_refl eq_refl)
    as (H & _).
  exact H.
Defined.

End FenceProps.

(* ------------------------------------------------------------------ *)
(** ** The layers of a slide *)
(* ------------------------------------------------------------------ *)

Module LayerProps.
Import Py Json Pptx Reconstructor Schema Scenarios Measures StringProps Examples.

Lemma strip_blank (s : pystr) : strip s = [] <-> blank s = true.
Proof. split; [apply strip_by_nonblank|apply strip_by_blank]. Qed.

Lemma strip_not_blank (s : pystr) (c : char) (t : pystr) :
  strip s = c :: t -> blank s = false.
Proof.
  intros H. destruct (blank s) eqn:E; [|reflexivity].
  apply strip_blank in E. congruence.
Qed.

(** A line after the first adds a paragraph when it is not blank. *)
Lemma add_line_later (style bullet_level elem_type : json)
  (paras paras' : list paragraph) (i : nat) (raw : pystr) :
  add_line style bullet_level elem_type paras (S i) raw = Ok paras' ->
  map run_texts paras'
  = map run_texts paras
    ++ (if blank raw then [] else [[emitted_text (strip raw)]]).
Proof.
  unfold add_line. destruct (strip raw) as [|c line] eqn:E.
  - intros [= <-]. apply strip_blank in E. rewrite E. now rewrite app_nil_r.
  - intros H. rewrite (strip_not_blank raw c line E).
    repeat bind_inv H. inversion H; subst. rewrite map_app. f_equal.
    unfold run_texts, fill_paragraph, empty_paragraph. cbn.
    now rewrite (LineProps.make_run_text _ _ _ _ E2).
Qed.

Lemma add_lines_later (style bullet_level elem_type : json)
  (lines : list pystr) :
  forall i paras paras',
    add_lines style bullet_level elem_type (S i) lines paras = Ok paras' ->
    map run_texts paras'
    = map run_texts paras
      ++ map (fun l => [emitted_text (strip l)])
           (filter (fun l => negb (blank l)) lines).
Proof.
  induction lines as [|raw lines IH]; intros i paras paras' H.
  - inversion H; subst. now rewrite app_nil_r.
  - cbn [add_lines] in H. bind_inv H.
    apply add_line_later in E. apply IH in H. rewrite H, E.
    cbn [filter]. destruct (blank raw); cbn [negb map app].
    + now rewrite app_nil_r.
    + now rewrite <- app_assoc.
Qed.

(** The first line fills the paragraph the text frame starts with. *)
Lemma add_line_first (style bullet_level elem_type : json)
  (paras' : list paragraph) (raw : pystr) :
  blank raw = false ->
  add_line style bullet_level elem_type [empty_paragraph] 0 raw = Ok paras' ->
  map run_texts paras' = [[emitted_text (strip raw)]].
Proof.
  unfold add_line. intros Hb. destruct (strip raw) as [|c line] eqn:E.
  - apply strip_blank in E. congruence.
  - intros H. repeat bind_inv H. inversion H; subst. cbn.
    unfold run_texts. cbn.
    now rewrite (LineProps.make_run_text _ _ _ _ E2).
Qed.

(** The first line of a text that begins with a visible character is not
    blank. *)
Lemma text_lines_first (c : char) (t : pystr) :
  isspace c = false ->
  exists first rest, text_lines (c :: t) = first :: rest /\ blank first = false.
Proof.
  intros Hc. unfold text_lines.
  destruct (contains (c :: t) [newline]).
  - cbn [split_on].
    assert (Hn : (c =? newline)%N = false).
    { destruct (N.eqb_spec c newline) as [->|]; [discriminate|reflexivity]. }
    rewrite Hn. destruct (split_on newline t) as [|l ls].
    + exists [c], []. split; [reflexivity|]. cbn. now rewrite Hc.
    + exists (c :: l), ls. split; [reflexivity|]. cbn. now rewrite Hc.
  - exists (c :: t), []. split; [reflexivity|]. cbn. now rewrite Hc.
Qed.

Lemma add_lines_texts (style bullet_level elem_type : json) (c : char)
  (t : pystr) (paras : list paragraph) :
  isspace c = false ->
  add_lines style bullet_level elem_type 0 (text_lines (c :: t))
    [empty_paragraph] = Ok paras ->
  map run_texts paras
  = map (fun l => [emitted_text (strip l)])
      (filter (fun l => negb (blank l)) (text_lines (c :: t))).
Proof.
  intros Hc H.
  destruct (text_lines_first c t Hc) as (first & rest & Hl & Hfirst).
  rewrite Hl in *. cbn [add_lines] in H. bind_inv H.
  apply (add_line_first _ _ _ _ _ Hfirst) in E.
  apply add_lines_later in H. rewrite H, E.
  cbn [filter]. now rewrite Hfirst.
Qed.

(** What one element adds to the slide. *)
Lemma add_element_shape (slide_width slide_height : Z) (s s' : slide)
  (elem : json) :
  add_element slide_width slide_height s elem = Ok s' ->
  (has_text elem = false /\ s' = s)
  \/ (has_text elem = true
      /\ exists b paras,
           placed_at slide_width slide_height elem = Ok b
           /\ map run_texts paras = written_lines (element_text elem)
           /\ s' = add_shape s (TextBox b true paras)).
Proof.
  unfold add_element. intros H. do 2 bind_inv H.
  destruct elem as [| | | | |items|fields]; try discriminate.
  cbn [get] in E. injection E as <-.
  unfold has_text, element_text, written_lines.
  destruct (lookup (str "text") fields) as [tv|] eqn:L.
  - destruct tv as [| | | |x| |]; try discriminate.
    cbn [strip_text] in E0. injection E0 as <-.
    destruct (strip x) as [|c t] eqn:Ex.
    + left. inversion H; subst. apply strip_blank in Ex. now rewrite Ex.
    + right. rewrite (strip_not_blank x c t Ex). split; [reflexivity|].
      repeat bind_inv H. inversion H; subst.
      exists v1, v4. unfold placed_at. rewrite E. cbn [bind]. rewrite E1.
      split; [reflexivity|]. split; [|reflexivity].
      eapply add_lines_texts; [|exact E4].
      pose proof (strip_by_trimmed isspace x) as [Hh _].
      unfold strip in Ex. now rewrite Ex in Hh.
  - cbn in E0. injection E0 as <-. left. inversion H; now subst.
Qed.

Lemma paragraph_texts_add_shape (s : slide) (b : box) (wrap : bool)
  (paras : list paragraph) :
  paragraph_texts (add_shape s (TextBox b wrap paras))
  = paragraph_texts s ++ [map run_texts paras].
Proof.
  unfold paragraph_texts, add_shape. cbn [slide_shapes].
  rewrite flat_map_app. reflexivity.
Qed.

Lemma fold_elements_shapes (slide_width slide_height : Z) (elems : list json) :
  forall s s',
    fold_result (add_element slide_width slide_height) elems s = Ok s' ->
    slide_fill s' = slide_fill s
    /\ (exists boxes, slide_shapes s' = slide_shapes s ++ boxes
                      /\ forallb is_text_box boxes = true)
    /\ map (@Ok box) (text_boxes s')
       = map (@Ok box) (text_boxes s)
         ++ map (placed_at slide_width slide_height) (filter has_text elems)
    /\ paragraph_texts s'
       = paragraph_texts s
         ++ map (fun e => written_lines (element_text e))
              (filter has_text elems).
Proof.
  induction elems as [|e elems IH]; intros s s' H.
  - inversion H; subst. cbn. rewrite !app_nil_r.
    split; [reflexivity|]. split; [|now split].
    exists []. now rewrite app_nil_r.
  - cbn [fold_result] in H. bind_inv H.
    apply IH in H as (Hfill & (boxes & Hshapes & Hboxes) & Htb & Hpt).
    apply add_element_shape in E
      as [(Hno & ->)|(Hyes & b & paras & Hb & Hparas & ->)];
      cbn [filter].
    + rewrite Hno. split; [exact Hfill|]. split; [|now split].
      now exists boxes.
    + rewrite Hyes. split; [exact Hfill|]. split; [|split].
      * exists (TextBox b true paras :: boxes). split.
        -- rewrite Hshapes. cbn. now rewrite <- app_assoc.
        -- exact Hboxes.
      * rewrite Htb, BoxProps.text_boxes_add_shape, map_app. cbn [map].
        now rewrite Hb, <- app_assoc.
      * rewrite Hpt, paragraph_texts_add_shape, Hparas. cbn [map].
        now rewrite <- app_assoc.
Qed.

(** X9: a slide built over the image of its page has that image, at full
    bleed, as its backmost shape and no fill of its own; every other shape
    is a text box; and the text boxes are those of the elements that hold
    visible text, in the order of the elements, each at the box its
    position gives. *)
Theorem text_boxes_follow_elements (slide_data : json)
  (slide_width slide_height : Z) (img : image) (s : slide) :
  create_slide_from_ai_data slide_data slide_width slide_height (Some img)
  = Ok s ->
  exists elems boxes,
    content_elements slide_data = Ok elems
    /\ slide_fill s = None
    /\ slide_shapes s = Picture img (Box 0 0 slide_width slide_height) :: boxes
    /\ forallb is_text_box boxes = true
    /\ map (@Ok box) (text_boxes s)
       = map (placed_at slide_width slide_height) (filter has_text elems).
Proof.
  unfold create_slide_from_ai_data. intros H. repeat bind_inv H.
  cbn [set_background] in E. injection E as <-.
  apply fold_elements_shapes in H as (Hfill & (boxes & Hshapes & Hboxes) & Htb & _).
  exists v1, boxes. unfold content_elements. rewrite E0. cbn [bind].
  split; [exact E1|]. split; [exact Hfill|]. split; [exact Hshapes|].
  split; [exact Hboxes|exact Htb].
Qed.

(** X10: every line of an element's text that is not blank is written as
    one paragraph holding one run, in the order of the lines, and nothing
    else is written: the paragraphs of the text boxes of a slide are those
    of the elements that hold visible text. *)
Theorem lines_become_paragraphs (slide_data : json)
  (slide_width slide_height : Z) (background_image : option image)
  (s : slide) :
  create_slide_from_ai_data slide_data slide_width slide_height
    background_image = Ok s ->
  exists elems,
    content_elements slide_data = Ok elems
    /\ paragraph_texts s
       = map (fun e => written_lines (element_text e)) (filter has_text elems).
Proof.
  unfold create_slide_from_ai_data. intros H. repeat bind_inv H.
  apply fold_elements_shapes in H as (_ & _ & _ & Hpt).
  exists v1. unfold content_elements. rewrite E0. cbn [bind].
  split; [exact E1|]. rewrite Hpt.
  assert (Hv : paragraph_texts v = []).
  { unfold set_background in E. destruct background_image.
    - now injection E as <-.
    - repeat bind_inv E. now inversion E. }
  now rewrite Hv.
Qed.

(** Three elements, the second blank: the picture and two text boxes. *)
Lemma text_boxes_follow_elements_witness :
  exists s boxes,
    create_slide_from_ai_data three_elements Inches_10 Inches_7_5
      (Some (page_image 0)) = Ok s
    /\ slide_shapes s
       = Picture (page_image 0) (Box 0 0 Inches_10 Inches_7_5) :: boxes
    /\ forallb is_text_box boxes = true
    /\ List.length (text_boxes s) = 2%nat.
Proof.
  assert (E : exists s,
             create_slide_from_ai_data three_elements Inches_10 Inches_7_5
               (Some (page_image 0)) = Ok s).
  { vm_compute. eexists. reflexivity. }
  destruct E as (s & E).
  destruct (text_boxes_follow_elements _ _ _ _ _ E)
    as (elems & boxes & Helems & _ & Hshapes & Hboxes & Htb).
  exists s, boxes. split; [exact E|]. split; [exact Hshapes|].
  split; [exact Hboxes|].
  apply (f_equal (@List.length _)) in Htb. rewrite !length_map in Htb.
  rewrite Htb. vm_compute in Helems. injection Helems as <-. reflexivity.
Defined.

(** Two lines with a blank line between them: two paragraphs. *)
Lemma lines_become_paragraphs_witness :
  exists s,
    create_slide_from_ai_data (content_of [styled_element]) Inches_10
      Inches_7_5 None = Ok s
    /\ paragraph_texts s = [[[str "First point"]; [str "Second point"]]].
Proof.
  assert (E : exists s,
             create_slide_from_ai_data (content_of [styled_element]) Inches_10
               Inches_7_5 None = Ok s).
  { vm_compute. eexists. reflexivity. }
  destruct E as (s & E). exists s. split; [exact E|].
  destruct (lines_become_paragraphs _ _ _ _ _ E) as (elems & Helems & ->).
  vm_compute in Helems. injection Helems as <-. vm_compute. reflexivity.
Defined.

End LayerProps.

(* ------------------------------------------------------------------ *)
(** ** Bullet lines on the slide *)
(* ------------------------------------------------------------------ *)

Module BulletProps.
Import Py Json Pptx Reconstructor Schema Scenarios Measures Examples.

Lemma written_lines_visible (elem : json) :
  written_lines (element_text elem)
  = map (fun l => [emitted_text l]) (visible_lines elem).
Proof. unfold written_lines, visible_lines. now rewrite map_map. Qed.

(** C10: on the slide the reconstructor returns, a line that begins with a
    bullet glyph has lost the whole leading run of bullet glyphs and blanks,
    not only the first glyph. The text boxes of the slide are those of the
    elements with visible text, in order; and for the line at place j among
    the written lines of the element at place i, when it begins with a
    bullet glyph, the line is a run of characters among the glyphs and the
    blank, not empty, followed by a rest which does not begin with such a
    character, and paragraph j of text box i holds one run, whose text is
    the rest, stripped. *)
Theorem bullet_run_stripped (slide_data : json)
  (slide_width slide_height : Z) (background_image : option image)
  (s : slide) :
  create_slide_from_ai_data slide_data slide_width slide_height
    background_image = Ok s ->
  exists elems,
    content_elements slide_data = Ok elems
    /\ List.length (paragraph_texts s) = List.length (filter has_text elems)
    /\ forall i elem j line,
         nth_error (filter has_text elems) i = Some elem ->
         nth_error (visible_lines elem) j = Some line ->
         is_bullet_line line = true ->
         exists run rest paras,
           line = run ++ rest
           /\ run <> []
           /\ forallb in_bullet_chars run = true
           /\ match rest with
              | [] => True
              | c :: _ => in_bullet_chars c = false
              end
           /\ emitted_text line = strip rest
           /\ nth_error (paragraph_texts s) i = Some paras
           /\ nth_error paras j = Some [strip rest].
Proof.
  unfold create_slide_from_ai_data. intros H. repeat bind_inv H.
  apply LayerProps.fold_elements_shapes in H as (_ & _ & _ & Hpt).
  assert (Hv : paragraph_texts v = []).
  { unfold set_background in E. destruct background_image.
    - now injection E as <-.
    - repeat bind_inv E. now inversion E. }
  rewrite Hv in Hpt. cbn [app] in Hpt.
  exists v1. unfold content_elements. rewrite E0. cbn [bind].
  split; [exact E1|]. split; [rewrite Hpt; apply length_map|].
  intros i elem j line Hi Hj Hb.
  destruct (LineProps.bullet_line_emitted line Hb)
    as (run & rest & Hsplit & Hrun & Hall & Hrest & Hem & _).
  exists run, rest, (written_lines (element_text elem)).
  split; [exact Hsplit|]. split; [exact Hrun|]. split; [exact Hall|].
  split; [exact Hrest|]. split; [exact Hem|]. split.
  - rewrite Hpt.
    now apply (map_nth_error (fun e => written_lines (element_text e))).
  - rewrite written_lines_visible, <- Hem.
    now apply (map_nth_error (fun l => [emitted_text l])).
Qed.

(** The line "- -5 degrees" under a first line: the second paragraph of
    the text box holds the run "5 degrees". *)
Lemma bullet_run_stripped_witness :
  exists s paras,
    create_slide_from_ai_data (content_of [degrees_element]) Inches_10
      Inches_7_5 (Some (page_image 0)) = Ok s
    /\ paragraph_texts s = [paras]
    /\ nth_error paras 1 = Some [str "5 degrees"].
Proof.
  assert (E : exists s,
             create_slide_from_ai_data (content_of [degrees_element])
               Inches_10 Inches_7_5 (Some (page_image 0)) = Ok s).
  { vm_compute. eexists. reflexivity. }
  destruct E as (s & E).
  destruct (bullet_run_stripped _ _ _ _ _ E) as (elems & Helems & Hlen & Hall).
  vm_compute in Helems. injection Helems as <-.
  destruct (Hall 0%nat degrees_element 1%nat (str "- -5 degrees") eq_refl
              eq_refl eq_refl)
    as (run & rest & paras & _ & _ & _ & _ & Hem & Hi & Hj).
  exists s, paras. split; [exact E|]. split.
  - destruct (paragraph_texts s) as [|p0 [|p1 ps]]; try discriminate.
    now injection Hi as ->.
  - rewrite <- Hem in Hj. exact Hj.
Defined.

End BulletProps.

(* ------------------------------------------------------------------ *)
(** ** The style of a run *)
(* ------------------------------------------------------------------ *)

Module StyleProps.
Import Py Json Pptx Reconstructor Schema Scenarios Measures Examples.

(** Comparing a number with a larger integer. *)
Lemma compare_int_float_mono (k1 k2 : Z) (f : spec_float) :
  k1 < k2 ->
  match F64.compare_int_float k1 f, F64.compare_int_float k2 f with
  | Some c1, Some c2 =>
      (c2 = Lt -> c1 = Lt) /\ (c2 = Eq -> c1 = Lt)
      /\ (c1 = Gt -> c2 = Gt) /\ (c1 = Eq -> c2 = Gt)
  | None, None => True
  | _, _ => False
  end.
Proof.
  intros Hk.
  assert (Hz : forall a b,
             a < b ->
             forall z,
               ((b ?= z) = Lt -> (a ?= z) = Lt)
               /\ ((b ?= z) = Eq -> (a ?= z) = Lt)
               /\ ((a ?= z) = Gt -> (b ?= z) = Gt)
               /\ ((a ?= z) = Eq -> (b ?= z) = Gt)).
  { intros a b Hab z.
    destruct (Z.compare_spec a z), (Z.compare_spec b z);
      repeat split; intros; try discriminate; try reflexivity; lia. }
  destruct f as [s|s| |s m e]; cbn [F64.compare_int_float].
  - apply Hz, Hk.
  - destruct s; repeat split; intros; congruence.
  - exact I.
  - destruct e as [|p|p]; try (apply Hz, Hk).
    apply Hz. assert (0 < 2 ^ (- Z.neg p)) by (apply Z.pow_pos_nonneg; lia).
    nia.
Qed.

Lemma num_compare_mono (x : num) (k1 k2 : Z) :
  k1 < k2 ->
  match num_compare x (NInt k1), num_compare x (NInt k2) with
  | Some c1, Some c2 =>
      (c1 = Lt -> c2 = Lt) /\ (c1 = Eq -> c2 = Lt)
      /\ (c2 = Gt -> c1 = Gt) /\ (c2 = Eq -> c1 = Gt)
  | None, None => True
  | _, _ => False
  end.
Proof.
  intros Hk. destruct x as [z|f]; cbn [num_compare].
  - destruct (Z.compare_spec z k1), (Z.compare_spec z k2);
      repeat split; intros; try discriminate; try reflexivity; lia.
  - pose proof (compare_int_float_mono k1 k2 f Hk) as H.
    destruct (F64.compare_int_float k1 f) as [[]|],
             (F64.compare_int_float k2 f) as [[]|];
      cbn in *; intuition congruence.
Qed.

Lemma num_compare_flip (x : num) (k : Z) :
  num_compare (NInt k) x = option_map CompOpp (num_compare x (NInt k)).
Proof.
  destruct x as [z|f]; cbn.
  - now rewrite Z.compare_antisym.
  - destruct (F64.compare_int_float k f) as [c|]; cbn; [|reflexivity].
    now rewrite CompOpp_involutive.
Qed.

(** Only the float that is not a number compares with nothing. *)
Lemma num_compare_defined (v : json) (x : num) (k : Z) :
  as_num v = Some x -> v <> JFloat S754_nan ->
  num_compare x (NInt k) <> None.
Proof.
  destruct v as [|b|z|f| | |]; cbn; try discriminate; intros [= <-] Hv; cbn;
    try discriminate.
  destruct f as [s|s| |s m e]; cbn; try discriminate; [congruence|].
  destruct e; discriminate.
Qed.

Lemma num_between_int (lo hi z : Z) :
  lo <= z <= hi -> num_between lo hi (JInt z).
Proof.
  intros H. unfold num_between, num_lt, num_gt. cbn.
  destruct (Z.compare_spec z lo), (Z.compare_spec z hi);
    repeat split; try discriminate; try reflexivity; lia.
Qed.

Lemma num_compare_ints (a b : Z) :
  num_compare (NInt a) (NInt b) = Some (a ?= b).
Proof. reflexivity. Qed.

Ltac run_comparisons H Ex :=
  unfold py_max, py_min, gt, lt in H;
  repeat first
    [ progress cbn [as_num bind] in H
    | rewrite Ex in H
    | match type of H with
      | context [if ?b then _ else _] => destruct b eqn:?
      end ].

(** Settles the order of a number [x] against 10, [K] and 60. *)
Ltac settle_order x K Ex :=
  let Hflip := fresh "Hflip" in
  pose proof (num_compare_mono x 10 K ltac:(lia));
  pose proof (num_compare_mono x K 60 ltac:(lia));
  pose proof (num_compare_mono x 10 60 ltac:(lia));
  pose proof (num_compare_flip x K) as Hflip;
  unfold num_between, num_lt, num_gt in *;
  cbn [as_num] in *; try rewrite Ex;
  rewrite ?Hflip in *; rewrite ?num_compare_ints in *;
  rewrite ?(proj2 (Z.compare_gt_iff K 10) ltac:(lia)),
          ?(proj2 (Z.compare_lt_iff K 60) ltac:(lia)),
          ?(proj2 (Z.compare_lt_iff 10 K) ltac:(lia)),
          ?(proj2 (Z.compare_gt_iff 60 K) ltac:(lia)),
          ?(Z.compare_refl K),
          ?(eq_refl : (10 ?= 60) = Lt), ?(eq_refl : (60 ?= 10) = Gt),
          ?(eq_refl : (10 ?= 10) = Eq), ?(eq_refl : (60 ?= 60) = Eq) in *;
  destruct (num_compare x (NInt 10)) as [[]|],
           (num_compare x (NInt K)) as [[]|],
           (num_compare x (NInt 60)) as [[]|];
  cbn [option_map CompOpp] in *; intuition congruence.

(** The floor of a kind, then the clamp. *)
Lemma floor_then_clamp (K : Z) (font_size r : json) :
  10 < K < 60 ->
  (by_kind <- py_max font_size (JInt K) ;;
   capped <- py_min (JInt 60) by_kind ;;
   py_max (JInt 10) capped) = Ok r ->
  num_between K 60 r.
Proof.
  intros HK H.
  destruct (as_num font_size) as [x|] eqn:Ex;
    [|unfold py_max, gt in H; cbn [as_num] in H; rewrite Ex in H;
      discriminate].
  run_comparisons H Ex.
  all: injection H as <-.
  all: settle_order x K Ex.
Qed.

(** The ceiling of a caption, then the clamp. *)
Lemma ceiling_then_clamp (K : Z) (font_size r : json) :
  10 < K < 60 ->
  (by_kind <- py_min font_size (JInt K) ;;
   capped <- py_min (JInt 60) by_kind ;;
   py_max (JInt 10) capped) = Ok r ->
  num_between 10 60 r
  /\ (font_size <> JFloat S754_nan -> num_between 10 K r).
Proof.
  intros HK H.
  destruct (as_num font_size) as [x|] eqn:Ex;
    [|unfold py_min, lt in H; cbn [as_num] in H; rewrite Ex in H;
      discriminate].
  assert (Hdef : font_size <> JFloat S754_nan ->
                 num_compare x (NInt K) <> None)
    by (intros Hv; now apply (num_compare_defined font_size)).
  run_comparisons H Ex.
  all: injection H as <-.
  all: split; [|intros Hv; specialize (Hdef Hv)].
  all: settle_order x K Ex.
Qed.

(** The clamp alone. *)
Lemma clamp_only (font_size r : json) :
  (capped <- py_min (JInt 60) font_size ;; py_max (JInt 10) capped) = Ok r ->
  num_between 10 60 r.
Proof.
  intros H.
  destruct (as_num font_size) as [x|] eqn:Ex;
    [|unfold py_min, lt in H; rewrite Ex in H; discriminate].
  run_comparisons H Ex.
  all: injection H as <-.
  all: settle_order x 32 Ex.
Qed.

Lemma num_between_wider (lo lo' hi : Z) (v : json) :
  lo' < lo -> num_between lo hi v -> num_between lo' hi v.
Proof.
  unfold num_between. intros Hlo. destruct (as_num v) as [x|]; [|auto].
  pose proof (num_compare_mono x lo' lo Hlo).
  unfold num_lt, num_gt.
  destruct (num_compare x (NInt lo')) as [[]|],
           (num_compare x (NInt lo)) as [[]|];
    cbn in *; intuition congruence.
Qed.

Lemma eq_str_eq (v : json) (k : string) :
  eq_str v k = true -> v = JStr (str k).
Proof.
  destruct v; try discriminate. cbn [eq_str]. intros H.
  now apply EnvProps.str_eqb_eq in H as ->.
Qed.

(** X11: the font size of a run, whatever size the style declares, lies
    between 10 and 60 points; a title is at least 32 points, a subtitle 24
    and a heading 22; a caption is at most 14 points, unless the declared
    size is the float that is not a number, which the clamp turns into 60. *)
Theorem font_size_within_limits (elem_type font_size r : json) :
  adjust_font_size elem_type font_size = Ok r ->
  num_between 10 60 r
  /\ (eq_str elem_type "title" = true -> num_between 32 60 r)
  /\ (eq_str elem_type "subtitle" = true -> num_between 24 60 r)
  /\ (eq_str elem_type "heading" = true -> num_between 22 60 r)
  /\ (eq_str elem_type "caption" = true ->
      (font_size <> JFloat S754_nan -> num_between 10 14 r)
      /\ (font_size = JFloat S754_nan -> r = JInt 60)).
Proof.
  intros H. split; [|split; [|split; [|split]]].
  - unfold adjust_font_size in H.
    destruct (eq_str elem_type "title");
      [apply (num_between_wider 32); [lia|];
       apply (floor_then_clamp 32 font_size); [lia|exact H]|].
    destruct (eq_str elem_type "subtitle");
      [apply (num_between_wider 24); [lia|];
       apply (floor_then_clamp 24 font_size); [lia|exact H]|].
    destruct (eq_str elem_type "heading");
      [apply (num_between_wider 22); [lia|];
       apply (floor_then_clamp 22 font_size); [lia|exact H]|].
    destruct (eq_str elem_type "caption");
      [exact (proj1 (ceiling_then_clamp 14 font_size r ltac:(lia) H))|].
    cbn [bind] in H. exact (clamp_only font_size r H).
  - intros Hk. apply eq_str_eq in Hk. subst elem_type.
    apply (floor_then_clamp 32 font_size); [lia|exact H].
  - intros Hk. apply eq_str_eq in Hk. subst elem_type.
    apply (floor_then_clamp 24 font_size); [lia|exact H].
  - intros Hk. apply eq_str_eq in Hk. subst elem_type.
    apply (floor_then_clamp 22 font_size); [lia|exact H].
  - intros Hk. apply eq_str_eq in Hk. subst elem_type. split.
    + exact (proj2 (ceiling_then_clamp 14 font_size r ltac:(lia) H)).
    + intros ->. vm_compute in H. now injection H as <-.
Qed.

(** A caption that declares 40 points is written at 14; a title that
    declares 12 is written at 32. *)
Lemma font_size_within_limits_witness :
  num_between 10 60 (JInt 14)
  /\ num_between 10 14 (JInt 14)
  /\ num_between 32 60 (JInt 32).
Proof.
  destruct (font_size_within_limits (JStr (str "caption")) (JInt 40) (JInt 14)
              eq_refl) as (H1 & _ & _ & _ & H2).
  destruct (font_size_within_limits (JStr (str "title")) (JInt 12) (JInt 32)
              eq_refl) as (_ & H3 & _).
  split; [exact H1|]. split; [|exact (H3 eq_refl)].
  apply (H2 eq_refl). discriminate.
Defined.

(** A float that counts as true is not equal to zero. *)
Lemma compare_zero_nonzero (f : spec_float) :
  truthy (JFloat f) = true -> F64.compare_int_float 0 f <> Some Eq.
Proof.
  destruct f as [s|s| |s m e]; cbn [truthy F64.compare_int_float];
    try discriminate.
  - destruct s; discriminate.
  - intros _. destruct e as [|p|p].
    + destruct s; discriminate.
    + intros H.
      assert (H' : (0 ?= (if s then Z.neg m else Z.pos m) * 2 ^ Z.pos p) = Eq)
        by congruence.
      apply Z.compare_eq_iff in H'.
      assert (0 < 2 ^ Z.pos p) by (apply Z.pow_pos_nonneg; lia).
      destruct s; nia.
    + rewrite Z.mul_0_l. destruct s; discriminate.
Qed.

(** A value that counts as true is accepted as a flag only when it equals
    [True]. *)
Lemma check_flag_truthy (v : json) (b : option bool) :
  truthy v = true -> check_flag v = Ok b -> b = Some true.
Proof.
  destruct v as [|c|z|f|t|l|d]; cbn [truthy check_flag as_num];
    try discriminate.
  - intros ->. cbn. congruence.
  - intros Hz. apply negb_true_iff, Z.eqb_neq in Hz. cbn [num_compare].
    destruct (Z.compare_spec z 1); try congruence;
      destruct (Z.compare_spec z 0); try congruence; try discriminate; lia.
  - intros Hf H. pose proof (compare_zero_nonzero f Hf) as Hz.
    cbn [num_compare] in H.
    destruct (F64.compare_int_float 1 f) as [[]|]; cbn [CompOpp] in H;
      try (now injection H);
      destruct (F64.compare_int_float 0 f) as [[]|]; cbn [CompOpp] in H;
      try discriminate; congruence.
Qed.

(** X12: a run is bold exactly when the style declares a bold that counts
    as true, or the element is a title or a heading; the flag is never left
    unset. *)
Theorem bold_rule (style elem_type : json) (b : option bool) :
  resolve_bold style elem_type = Ok b ->
  exists declared,
    get style "bold" (JBool false) = Ok declared
    /\ b = Some (truthy declared || eq_str elem_type "title"
                 || eq_str elem_type "heading").
Proof.
  unfold resolve_bold. intros H. bind_inv H. exists v. split; [exact E|].
  destruct (truthy v) eqn:T.
  - now apply (check_flag_truthy v b T).
  - now injection H as <-.
Qed.

(** A heading is bold though its style declares nothing. *)
Lemma bold_rule_witness :
  exists declared,
    get (JObj []) "bold" (JBool false) = Ok declared
    /\ Some true
       = Some (truthy declared || eq_str (text "heading") "title"
               || eq_str (text "heading") "heading").
Proof.
  apply (bold_rule (JObj []) (text "heading") (Some true)). reflexivity.
Defined.

Lemma resolve_level_int (n : Z) (elem_type : json) (bullet_line : bool) :
  resolve_level (JInt n) elem_type bullet_line
  = if (0 <? n) || bullet_line || eq_str elem_type "bullet"
    then if n <=? 9 then Ok (Some (Z.max 0 (n - 1)))
         else raise ValueError "value must be in range 0 to 8 inclusive"
    else Ok None.
Proof.
  unfold resolve_level, gt, num_gt. cbn [as_num bind num_compare].
  assert (Hpos : match n ?= 0 with Gt => true | _ => false end = (0 <? n)).
  { destruct (Z.compare_spec n 0), (Z.ltb_spec 0 n); try reflexivity; lia. }
  rewrite Hpos.
  destruct ((0 <? n) || bullet_line || eq_str elem_type "bullet");
    [|reflexivity].
  assert (Hbelow : minus_one (if truthy (JInt n) then JInt n else JInt 1)
                   = Ok (JInt (if n =? 0 then 0 else n - 1))).
  { cbn [truthy]. now destruct (n =? 0). }
  rewrite Hbelow. cbn [bind]. rewrite ReconstructProps.py_max_zero.
  cbn [bind check_level as_num].
  assert (Hmax : Z.max 0 (if n =? 0 then 0 else n - 1) = Z.max 0 (n - 1))
    by (destruct (Z.eqb_spec n 0); lia).
  rewrite Hmax.
  destruct (Z.leb_spec 0 (Z.max 0 (n - 1))), (Z.leb_spec (Z.max 0 (n - 1)) 8),
    (Z.leb_spec n 9); cbn [andb bind]; try reflexivity; lia.
Qed.

(** X13: with an integer bullet level n, a line gets a paragraph level
    when n is positive, the line begins with a bullet glyph or the element
    is a bullet; the level is n - 1, and 0 when n is not positive; a level
    n above 9 is refused by the writer with a [ValueError], which ends the
    reconstruction; otherwise the level of the paragraph is left alone. *)
Theorem bullet_level_rule (n : Z) (elem_type : json) (bullet_line : bool) :
  if (0 <? n) || bullet_line || eq_str elem_type "bullet"
  then if n <=? 9
       then resolve_level (JInt n) elem_type bullet_line
            = Ok (Some (Z.max 0 (n - 1)))
       else exists e,
              resolve_level (JInt n) elem_type bullet_line = Raise e
              /\ exn_kind e = ValueError
  else resolve_level (JInt n) elem_type bullet_line = Ok None.
Proof.
  rewrite resolve_level_int.
  destruct ((0 <? n) || bullet_line || eq_str elem_type "bullet");
    [|reflexivity].
  destruct (n <=? 9); [reflexivity|]. eexists. split; reflexivity.
Qed.

End StyleProps.

(* ------------------------------------------------------------------ *)
(** ** The deck of a run *)
(* ------------------------------------------------------------------ *)

Module DeckProps.
Import Py Json Pptx Extractor Driver Main Scenarios Measures Examples.

(** A slide built over an image has it as its backmost shape. *)
Lemma slide_over_image (slide_data : json) (slide_width slide_height : Z)
  (img : image) (s : slide) :
  Reconstructor.create_slide_from_ai_data slide_data slide_width slide_height
    (Some img) = Ok s ->
  exists boxes,
    slide_fill s = None
    /\ slide_shapes s = Picture img (Box 0 0 slide_width slide_height) :: boxes
    /\ forallb is_text_box boxes = true.
Proof.
  unfold Reconstructor.create_slide_from_ai_data. intros H. repeat bind_inv H.
  cbn [Reconstructor.set_background] in E. injection E as <-.
  apply LayerProps.fold_elements_shapes
    in H as (Hfill & (boxes & Hshapes & Hboxes) & _).
  now exists boxes.
Qed.

Section Service.

Variable json_loads : pystr -> result json.
Variable api : nat -> request -> call_outcome.

Local Abbreviation extract_page := (extract_page json_loads api).
Local Abbreviation process_page := (process_page json_loads api).
Local Abbreviation run_pages := (run_pages json_loads api).
Local Abbreviation world_before := (world_before json_loads api).
Local Abbreviation convert := (create_pptx_from_pdf_with_ai json_loads api).

(** The two ways a turn of the page loop ends. *)
Lemma process_page_cases (slide_width slide_height : Z) (total_pages : nat)
  (st st1 : run_state) (page_num : nat) (p : page) :
  process_page slide_width slide_height total_pages st page_num p = Ok st1 ->
  let extracted := extract_page page_num p (outside st) in
  let bg_image := render_page_to_pil_image p 200 false in
  outside st1 = pace total_pages page_num (snd extracted)
  /\ ((has_elements (fst extracted) = Ok false
       /\ slides st1
          = slides st ++ [fallback_slide slide_width slide_height bg_image]
       /\ failed_slides st1 = failed_slides st ++ [Z.of_nat page_num + 1])
      \/ (exists data s,
            fst extracted = Some data
            /\ has_elements (fst extracted) = Ok true
            /\ Reconstructor.create_slide_from_ai_data data slide_width
                 slide_height (Some bg_image) = Ok s
            /\ slides st1 = slides st ++ [s]
            /\ failed_slides st1 = failed_slides st)).
Proof.
  unfold Driver.process_page. cbv zeta.
  destruct (extract_page page_num p (outside st)) as [slide_data w1].
  cbn [fst snd]. cbv beta iota. intros H. bind_inv H. bind_inv H.
  inversion H; subst. clear H. cbn [slides failed_slides outside].
  destruct slide_data as [data|], v as [|].
  - bind_inv E0. inversion E0; subst. cbn [slides failed_slides outside].
    split; [reflexivity|]. right. exists data, v. auto.
  - inversion E0; subst. cbn. split; [reflexivity|]. left. auto.
  - discriminate.
  - inversion E0; subst. cbn. split; [reflexivity|]. left. auto.
Qed.

(** Every slide of the deck shows its page. *)
Lemma run_pages_pictures (slide_width slide_height : Z) (total_pages : nat)
  (pages : list page) :
  forall page_num st st',
    run_pages slide_width slide_height total_pages pages page_num st = Ok st' ->
    exists new,
      slides st' = slides st ++ new
      /\ List.length new = List.length pages
      /\ forall j p,
           nth_error pages j = Some p ->
           exists s boxes,
             nth_error new j = Some s
             /\ slide_fill s = None
             /\ slide_shapes s
                = Picture (render_page_to_pil_image p 200 false)
                    (Box 0 0 slide_width slide_height) :: boxes
             /\ forallb is_text_box boxes = true.
Proof.
  induction pages as [|p0 pages IH]; intros page_num st st' H.
  - inversion H; subst. exists []. rewrite app_nil_r.
    split; [reflexivity|]. split; [reflexivity|]. intros [|j] p; discriminate.
  - cbn [Driver.run_pages] in H. bind_inv H.
    apply IH in H as (new & Hnew & Hlen & Hall).
    assert (Hfirst : exists s boxes,
               slides v = slides st ++ [s]
               /\ slide_fill s = None
               /\ slide_shapes s
                  = Picture (render_page_to_pil_image p0 200 false)
                      (Box 0 0 slide_width slide_height) :: boxes
               /\ forallb is_text_box boxes = true).
    { apply process_page_cases in E as (_ & [(_ & Hs & _)|Hs]).
      - exists (fallback_slide slide_width slide_height
                  (render_page_to_pil_image p0 200 false)), [].
        now split.
      - destruct Hs as (data & s & _ & _ & Hmade & Hs & _).
        apply slide_over_image in Hmade as (boxes & Hfill & Hshapes & Hboxes).
        now exists s, boxes. }
    destruct Hfirst as (s & boxes & Hs & Hfill & Hshapes & Hboxes).
    exists (s :: new). split; [rewrite Hnew, Hs; now rewrite <- app_assoc|].
    split; [cbn; now rewrite Hlen|].
    intros [|j] p Hp.
    + injection Hp as <-. now exists s, boxes.
    + now apply Hall.
Qed.

(** The failure list grows in page order, by pages that gave no element. *)
Lemma run_pages_failures (slide_width slide_height : Z) (total_pages : nat)
  (pages : list page) :
  forall page_num st st',
    run_pages slide_width slide_height total_pages pages page_num st = Ok st' ->
    exists extra,
      failed_slides st' = failed_slides st ++ extra
      /\ StronglySorted Z.lt extra
      /\ forall z,
           In z extra ->
           exists j p,
             nth_error pages j = Some p
             /\ z = Z.of_nat (page_num + j) + 1
             /\ has_elements
                  (fst (extract_page (page_num + j) p
                          (world_before total_pages pages page_num
                             (outside st) j))) = Ok false.
Proof.
  induction pages as [|p0 pages IH]; intros page_num st st' H.
  - inversion H; subst. exists []. rewrite app_nil_r.
    split; [reflexivity|]. split; [constructor|]. intros z [].
  - cbn [Driver.run_pages] in H. bind_inv H.
    apply IH in H as (extra & Hextra & Hsorted & Hall).
    apply process_page_cases in E as (Hw & Hcase).
    assert (Hlater : forall z,
               In z extra ->
               Z.of_nat page_num + 1 < z
               /\ exists j p,
                    nth_error (p0 :: pages) j = Some p
                    /\ z = Z.of_nat (page_num + j) + 1
                    /\ has_elements
                         (fst (extract_page (page_num + j) p
                                 (world_before total_pages (p0 :: pages)
                                    page_num (outside st) j))) = Ok false).
    { intros z Hz. destruct (Hall z Hz) as (j & p & Hp & -> & Hno).
      split; [lia|]. exists (S j), p. split; [exact Hp|].
      replace (page_num + S j)%nat with (S page_num + j)%nat by lia.
      split; [reflexivity|]. cbn [Driver.world_before]. now rewrite <- Hw. }
    destruct Hcase as [(Hno & _ & Hfailed)|(data & s & _ & _ & _ & _ & Hfailed)].
    + exists ((Z.of_nat page_num + 1) :: extra).
      split; [rewrite Hextra, Hfailed; now rewrite <- app_assoc|]. split.
      * constructor; [exact Hsorted|]. apply Forall_forall.
        intros z Hz. now apply Hlater.
      * intros z [<-|Hz]; [|now apply Hlater].
        exists 0%nat, p0. rewrite Nat.add_0_r. now split.
    + exists extra. split; [now rewrite Hextra, Hfailed|].
      split; [exact Hsorted|]. intros z Hz. now apply Hlater.
Qed.

(** X14: every slide of a finished run shows its own page: its backmost
    shape is the page rendered at 200 dpi, not resized, at full bleed; the
    slide has no fill of its own and every other shape is a text box. *)
Theorem every_slide_shows_its_page (doc : list page) (w : world)
  (final : run_state) :
  convert doc w = Ok final ->
  exists slide_width slide_height,
    slide_size doc = Ok (slide_width, slide_height)
    /\ forall k p,
         nth_error doc k = Some p ->
         exists s boxes,
           nth_error (slides final) k = Some s
           /\ slide_fill s = None
           /\ slide_shapes s
              = Picture (Image (page_id p) 200 false)
                  (Box 0 0 slide_width slide_height) :: boxes
           /\ forallb is_text_box boxes = true.
Proof.
  unfold create_pptx_from_pdf_with_ai. intros H. bind_inv H.
  destruct v as [slide_width slide_height].
  exists slide_width, slide_height. split; [exact E|].
  apply run_pages_pictures in H as (new & Hnew & _ & Hall).
  cbn [slides app] in Hnew. rewrite Hnew. exact Hall.
Qed.

(** X15: the failure list of a finished run holds page numbers in
    increasing order, none twice, and each is the number of a page whose
    extraction gave nothing or a content without elements. *)
Theorem failure_list_is_exact (doc : list page) (w : world)
  (final : run_state) :
  convert doc w = Ok final ->
  StronglySorted Z.lt (failed_slides final)
  /\ forall z,
       In z (failed_slides final) ->
       exists k p,
         nth_error doc k = Some p
         /\ z = Z.of_nat k + 1
         /\ has_elements
              (fst (extract_page k p
                      (world_before (List.length doc) doc 0 w k))) = Ok false.
Proof.
  unfold create_pptx_from_pdf_with_ai. intros H. bind_inv H.
  destruct v as [slide_width slide_height].
  apply run_pages_failures in H as (extra & Hextra & Hsorted & Hall).
  cbn [failed_slides app outside] in Hextra, Hall. rewrite Hextra.
  split; [exact Hsorted|exact Hall].
Qed.

(** The events of the page loop. *)
Lemma run_pages_events (slide_width slide_height : Z) (total_pages : nat)
  (pages : list page) :
  forall page_num st st',
    run_pages slide_width slide_height total_pages pages page_num st = Ok st' ->
    total_pages = (page_num + List.length pages)%nat ->
    exists evs,
      spans (outside st) (outside st') evs
      /\ count_pauses 10 evs = (List.length pages - 1)%nat
      /\ (count_calls evs <= 9 * List.length pages)%nat
      /\ 10 * Z.of_nat (List.length pages - 1) <= total_slept evs
      /\ total_slept evs
         <= 270 * Z.of_nat (List.length pages)
            + 10 * Z.of_nat (List.length pages - 1).
Proof.
  induction pages as [|p0 pages IH]; intros page_num st st' H Htotal.
  - inversion H; subst. exists []. split; [apply BudgetProps.spans_nil|].
    cbn. repeat split; lia.
  - cbn [Driver.run_pages] in H. bind_inv H.
    apply process_page_cases in E as (Hw & _).
    apply IH in H as (evs2 & Hspan2 & Hten2 & Hcalls2 & Hlow2 & Hhigh2);
      [|cbn [List.length] in Htotal; lia].
    unfold Driver.extract_page, analyze_slide_with_gemini in Hw.
    destruct (BudgetProps.try_models_budget json_loads api
                (render_page_to_pil_image p0 100 true) default_max_retries
                models (outside st))
      as (evs1 & Hspan1 & Hcalls1 & Hlow1 & Hhigh1 & Hten1).
    change (List.length models) with 3%nat in *.
    change default_max_retries with 3%nat in *.
    set (w1 := snd (try_models json_loads api models
                      (render_page_to_pil_image p0 100 true) 3 (outside st)))
      in *.
    unfold pace in Hw. cbn [List.length] in *.
    destruct (Z.ltb_spec (Z.of_nat page_num) (Z.of_nat total_pages - 1)).
    + assert (Hpace : spans w1 (outside v) [Slept 10]).
      { rewrite Hw. split; cbn; [reflexivity|lia]. }
      exists (evs1 ++ [Slept 10] ++ evs2). split.
      * eapply BudgetProps.spans_trans; [exact Hspan1|].
        eapply BudgetProps.spans_trans; [exact Hpace|exact Hspan2].
      * rewrite !BudgetProps.count_pauses_app, !BudgetProps.count_calls_app,
          !BudgetProps.total_slept_app, Hten1, Hten2.
        cbn [count_pauses count_calls total_slept filter List.length Z.eqb
             Pos.eqb].
        repeat split; lia.
    + rewrite <- Hw in Hspan1. exists (evs1 ++ evs2). split.
      * eapply BudgetProps.spans_trans; eassumption.
      * rewrite !BudgetProps.count_pauses_app, !BudgetProps.count_calls_app,
          !BudgetProps.total_slept_app, Hten1, Hten2.
        repeat split; lia.
Qed.

(** The events of the attempts with one model, within three attempts. *)
Lemma try_model_events (model : pystr) (img : image) (remaining : nat) :
  forall attempt w,
    (attempt + remaining <= 3)%nat ->
    exists evs,
      spans w (snd (Extractor.try_model json_loads api model img attempt
                      remaining w)) evs
      /\ forallb extraction_event evs = true
      /\ (1 <= remaining -> 1 <= count_calls evs)%nat.
Proof.
  induction remaining as [|remaining IH]; intros attempt w Hle.
  - exists []. split; [apply BudgetProps.spans_nil|]. split; [reflexivity|lia].
  - cbn [Extractor.try_model].
    set (o := api (calls w) (Request model img)).
    assert (Hone : exists evs,
               spans w (record_call w model o) evs
               /\ forallb extraction_event evs = true
               /\ (1 <= S remaining -> 1 <= count_calls evs)%nat).
    { exists [Called model o]. split; [apply BudgetProps.spans_call|].
      split; [reflexivity|]. cbn. lia. }
    destruct (read_response json_loads o) as [data|e]; [exact Hone|].
    destruct (is_json_decode_error e); [exact Hone|].
    destruct (rate_limited e); [|exact Hone].
    set (t := 15 * (Z.of_nat attempt + 1)).
    destruct (IH (S attempt) (sleep t (record_call w model o)))
      as (evs & Hspan & Hall & _); [lia|].
    exists ([Called model o; Slept t] ++ evs). split.
    + eapply BudgetProps.spans_trans;
        [apply BudgetProps.spans_call_sleep|exact Hspan].
    + rewrite forallb_app, Hall, BudgetProps.count_calls_app.
      split; [|cbn; lia].
      assert (Ht : extraction_event (Slept t) = true).
      { unfold t. cbn [extraction_event].
        assert (attempt = 0 \/ attempt = 1 \/ attempt = 2)%nat
          as [->|[->| ->]] by lia; reflexivity. }
      cbn [forallb]. rewrite Ht. reflexivity.
Qed.

Lemma try_models_events (img : image) (ms : list pystr) :
  forall w,
  exists evs,
    spans w (snd (Extractor.try_models json_loads api ms img 3 w)) evs
    /\ forallb extraction_event evs = true
    /\ (ms <> [] -> 1 <= count_calls evs)%nat.
Proof.
  induction ms as [|model rest IH]; intros w.
  - exists []. split; [apply BudgetProps.spans_nil|].
    split; [reflexivity|congruence].
  - cbn [Extractor.try_models].
    destruct (try_model_events model img 3 0 w)
      as (evs1 & Hspan1 & Hall1 & Hcalls1); [lia|].
    destruct (Extractor.try_model json_loads api model img 0 3 w)
      as [[r|] w1]; cbn [snd] in *.
    + exists evs1. split; [exact Hspan1|]. split; [exact Hall1|].
      intros _. apply Hcalls1. lia.
    + destruct (IH w1) as (evs2 & Hspan2 & Hall2 & _).
      exists (evs1 ++ evs2).
      split; [eapply BudgetProps.spans_trans; eassumption|].
      rewrite forallb_app, Hall1, Hall2, BudgetProps.count_calls_app.
      split; [reflexivity|]. intros _.
      assert (1 <= count_calls evs1)%nat by (apply Hcalls1; lia). lia.
Qed.

(** The events of the extraction of one page. *)
Lemma extract_page_events (page_num : nat) (p : page) (w : world) :
  let evs := events_since w (snd (extract_page page_num p w)) in
  spans w (snd (extract_page page_num p w)) evs
  /\ forallb extraction_event evs = true
  /\ (1 <= count_calls evs)%nat.
Proof.
  cbv zeta. unfold Driver.extract_page, analyze_slide_with_gemini.
  change default_max_retries with 3%nat.
  destruct (try_models_events (render_page_to_pil_image p 100 true) models w)
    as (evs & Hspan & Hall & Hcalls).
  rewrite (BudgetProps.events_since_spans _ _ _ Hspan).
  split; [exact Hspan|]. split; [exact Hall|].
  apply Hcalls. discriminate.
Qed.

(** The events of the page loop, page by page. *)
Lemma run_pages_segments (slide_width slide_height : Z) (total_pages : nat)
  (pages : list page) :
  forall page_num st st',
    run_pages slide_width slide_height total_pages pages page_num st = Ok st' ->
    total_pages = (page_num + List.length pages)%nat ->
    exists segments,
      spans (outside st) (outside st') (interleave (Slept 10) segments)
      /\ List.length segments = List.length pages
      /\ Forall (fun seg => forallb extraction_event seg = true
                            /\ (1 <= count_calls seg)%nat) segments
      /\ forall j p,
           nth_error pages j = Some p ->
           let before :=
             world_before total_pages pages page_num (outside st) j in
           nth_error segments j
           = Some (events_since before
                     (snd (extract_page (page_num + j) p before))).
Proof.
  induction pages as [|p0 pages IH]; intros page_num st st' H Htotal.
  - inversion H; subst. exists []. split; [apply BudgetProps.spans_nil|].
    split; [reflexivity|]. split; [constructor|]. intros [|j] p; discriminate.
  - cbn [Driver.run_pages] in H. bind_inv H.
    apply process_page_cases in E as (Hw & _).
    apply IH in H as (segments & Hspan & Hlen & Hall & Hnth);
      [|cbn [List.length] in Htotal; lia].
    destruct (extract_page_events page_num p0 (outside st))
      as (Hspan0 & Hall0 & Hcalls0).
    set (seg0 := events_since (outside st)
                   (snd (extract_page page_num p0 (outside st)))) in *.
    exists (seg0 :: segments). split; [|split; [|split]].
    + unfold pace in Hw. cbn [interleave].
      destruct (Z.ltb_spec (Z.of_nat page_num) (Z.of_nat total_pages - 1)).
      * destruct segments as [|seg1 segments'];
          [cbn [List.length] in *; lia|].
        assert (Hpace : spans (snd (extract_page page_num p0 (outside st)))
                          (outside v) [Slept 10]).
        { rewrite Hw. split; cbn; [reflexivity|lia]. }
        change (seg0 ++ Slept 10 :: interleave (Slept 10) (seg1 :: segments'))
          with (seg0 ++ [Slept 10] ++ interleave (Slept 10) (seg1 :: segments')).
        eapply BudgetProps.spans_trans; [exact Hspan0|].
        eapply BudgetProps.spans_trans; [exact Hpace|exact Hspan].
      * destruct segments as [|seg1 segments'];
          [|cbn [List.length] in *; lia].
        cbn [interleave] in Hspan. rewrite <- Hw in Hspan0.
        rewrite <- (app_nil_r seg0).
        eapply BudgetProps.spans_trans; eassumption.
    + cbn [List.length]. now rewrite Hlen.
    + constructor; [now split|exact Hall].
    + intros [|j] p Hp; cbv zeta.
      * injection Hp as <-. rewrite Nat.add_0_r. reflexivity.
      * cbn [nth_error Driver.world_before]. rewrite <- Hw.
        replace (page_num + S j)%nat with (S page_num + j)%nat by lia.
        now apply Hnth.
Qed.

(** X16: a finished run over n pages pauses 10 seconds between two
    pages, n - 1 times in all and not after the last page: its events are
    those of the extraction of each page in turn, with one pause of 10
    seconds between two pages and none after the last; the events of an
    extraction hold at least one call, and their pauses are back-off pauses
    of 15, 30 or 45 seconds, never of 10. The run makes at most nine calls
    a page, and sleeps at least 10(n - 1) and at most 280n - 10 seconds. *)
Theorem run_budget (doc : list page) (w : world) (final : run_state) :
  convert doc w = Ok final ->
  let evs := events_since w (outside final) in
  let n := List.length doc in
  log (outside final) = log w ++ evs
  /\ calls (outside final) = (calls w + count_calls evs)%nat
  /\ count_pauses 10 evs = (n - 1)%nat
  /\ (count_calls evs <= 9 * n)%nat
  /\ 10 * (Z.of_nat n - 1) <= total_slept evs <= 280 * Z.of_nat n - 10
  /\ exists segments,
       evs = interleave (Slept 10) segments
       /\ List.length segments = n
       /\ Forall (fun seg => forallb extraction_event seg = true
                             /\ (1 <= count_calls seg)%nat) segments
       /\ forall k p,
            nth_error doc k = Some p ->
            let before := world_before n doc 0 w k in
            nth_error segments k
            = Some (events_since before (snd (extract_page k p before))).
Proof.
  unfold create_pptx_from_pdf_with_ai. intros H. cbv zeta. bind_inv H.
  destruct v as [slide_width slide_height].
  assert (Hdoc : doc <> []) by (destruct doc; [discriminate|discriminate]).
  pose proof H as Hrun.
  apply run_pages_events in H as (evs & Hspan & Hten & Hcalls & Hlow & Hhigh);
    [|reflexivity].
  apply run_pages_segments
    in Hrun as (segments & Hspan' & Hlen & Hall & Hnth); [|reflexivity].
  cbn [outside] in Hspan, Hspan', Hnth.
  rewrite (BudgetProps.events_since_spans _ _ _ Hspan).
  assert (Hsame : evs = interleave (Slept 10) segments).
  { rewrite <- (BudgetProps.events_since_spans _ _ _ Hspan).
    apply (BudgetProps.events_since_spans _ _ _ Hspan'). }
  destruct Hspan as [Hlog Hn].
  assert (0 < List.length doc)%nat by (destruct doc; [congruence|cbn; lia]).
  split; [exact Hlog|]. split; [exact Hn|]. split; [exact Hten|].
  split; [exact Hcalls|]. split; [lia|].
  exists segments. split; [exact Hsame|]. split; [exact Hlen|].
  split; [exact Hall|exact Hnth].
Qed.

(** When no page gives an element, the deck is the image deck. *)
Lemma run_pages_all_failed (slide_width slide_height : Z) (total_pages : nat)
  (pages : list page) :
  forall page_num st st',
    run_pages slide_width slide_height total_pages pages page_num st = Ok st' ->
    (forall j p,
       nth_error pages j = Some p ->
       has_elements
         (fst (extract_page (page_num + j) p
                 (world_before total_pages pages page_num (outside st) j)))
       = Ok false) ->
    slides st' = slides st ++ map (image_slide slide_width slide_height) pages
    /\ failed_slides st'
       = failed_slides st
         ++ map (fun k => Z.of_nat k + 1) (seq page_num (List.length pages)).
Proof.
  induction pages as [|p0 pages IH]; intros page_num st st' H Hno.
  - inversion H; subst. cbn. now rewrite !app_nil_r.
  - cbn [Driver.run_pages] in H. bind_inv H.
    pose proof (Hno 0%nat p0 eq_refl) as H0. rewrite Nat.add_0_r in H0.
    cbn [Driver.world_before] in H0.
    apply process_page_cases in E as (Hw & Hcase).
    destruct Hcase as [(_ & Hs & Hf)|(data & s & _ & Hyes & _)];
      [|congruence].
    apply IH in H as (Hslides & Hfailed).
    + rewrite Hslides, Hfailed, Hs, Hf. cbn [map seq List.length].
      now rewrite <- !app_assoc.
    + intros j p Hp. specialize (Hno (S j) p Hp).
      cbn [Driver.world_before] in Hno. rewrite <- Hw in Hno.
      now replace (page_num + S j)%nat with (S page_num + j)%nat in Hno by lia.
Qed.

Lemma images_deck (slide_width slide_height : Z) (doc : list page) :
  forall written,
    fold_result (fun slides p =>
                   Ok (slides ++ [image_slide slide_width slide_height p]))
      doc written
    = Ok (written ++ map (image_slide slide_width slide_height) doc).
Proof.
  induction doc as [|p doc IH]; intros written; cbn [fold_result map bind].
  - now rewrite app_nil_r.
  - rewrite IH. now rewrite <- app_assoc.
Qed.

(** X17: when the extraction of every page gives nothing or a content
    without elements, the finished run holds exactly the slides the
    image-only conversion writes for the document, and its failure list
    names every page, 1 to n. *)
Theorem failed_run_is_image_deck (doc : list page) (w : world)
  (final : run_state) :
  convert doc w = Ok final ->
  (forall k p,
     nth_error doc k = Some p ->
     has_elements
       (fst (extract_page k p (world_before (List.length doc) doc 0 w k)))
     = Ok false) ->
  create_pptx_from_pdf_images doc = Ok (slides final)
  /\ failed_slides final
     = map (fun k => Z.of_nat k + 1) (seq 0 (List.length doc)).
Proof.
  unfold create_pptx_from_pdf_with_ai, create_pptx_from_pdf_images.
  intros H Hno. bind_inv H. rewrite E. cbn [bind].
  destruct v as [slide_width slide_height].
  apply run_pages_all_failed in H as (Hslides & Hfailed); [|exact Hno].
  cbn [slides failed_slides app] in Hslides, Hfailed.
  rewrite Hslides, Hfailed, images_deck. now split.
Qed.

(** X18: what [main] leaves behind tells how it ran: nothing when the
    input is missing; the image deck when the library or the key is
    missing; the editable deck when both are present. With both present the
    image-only conversion is never reached, whatever the extraction does. *)
Theorem main_outcome (cfg : settings) (doc : list page) (w : world)
  (out : output) :
  main json_loads api cfg doc w = Ok out ->
  match out with
  | NoOutput => input_exists cfg = false
  | ImagesOnly written =>
      input_exists cfg = true
      /\ (GEMINI_AVAILABLE cfg = false \/ api_key cfg = [])
      /\ create_pptx_from_pdf_images doc = Ok written
  | Editable final =>
      input_exists cfg = true
      /\ GEMINI_AVAILABLE cfg = true
      /\ api_key cfg <> []
      /\ convert doc w = Ok final
  end.
Proof.
  unfold main, convert_with_ai.
  destruct (input_exists cfg); cbn [negb]; [|now intros [= <-]].
  destruct (GEMINI_AVAILABLE cfg); cbn [negb andb].
  - destruct (api_key cfg) as [|c key]; cbn [is_set negb bind].
    + intros H. bind_inv H. inversion H; subst. auto.
    + intros H. bind_inv H. bind_inv E. inversion E; subst.
      inversion H; subst. repeat split; [discriminate|exact E0].
  - cbn [bind]. intros H. bind_inv H. inversion H; subst. auto.
Qed.

End Service.

(** Five pages, the third without elements: the last slide shows page 5
    behind its text boxes. *)
Lemma every_slide_shows_its_page_witness :
  exists final s boxes,
    create_pptx_from_pdf_with_ai loads_known third_page_empty five_pages start
    = Ok final
    /\ nth_error (slides final) 4 = Some s
    /\ slide_shapes s
       = Picture (page_image 4) (Box 0 0 Inches_13_333 Inches_7_5) :: boxes
    /\ forallb is_text_box boxes = true.
Proof.
  assert (E : exists final,
             create_pptx_from_pdf_with_ai loads_known third_page_empty
               five_pages start = Ok final).
  { vm_compute. eexists. reflexivity. }
  destruct E as (final & E).
  destruct (every_slide_shows_its_page _ _ _ _ _ E)
    as (slide_width & slide_height & Hsize & Hall).
  vm_compute in Hsize. injection Hsize as <- <-.
  destruct (Hall 4%nat (Page 4 (F64.nearest 960) (F64.nearest 540)) eq_refl)
    as (s & boxes & Hs & _ & Hshapes & Hboxes).
  exists final, s, boxes. auto.
Defined.

(** The same run: the failure list is the third page alone. *)
Lemma failure_list_is_exact_witness :
  exists final,
    create_pptx_from_pdf_with_ai loads_known third_page_empty five_pages start
    = Ok final
    /\ failed_slides final = [3]
    /\ StronglySorted Z.lt (failed_slides final).
Proof.
  assert (E : exists final,
             create_pptx_from_pdf_with_ai loads_known third_page_empty
               five_pages start = Ok final
             /\ failed_slides final = [3]).
  { vm_compute. eexists. split; reflexivity. }
  destruct E as (final & E & Hfailed).
  exists final. split; [exact E|]. split; [exact Hfailed|].
  exact (proj1 (failure_list_is_exact _ _ _ _ _ E)).
Defined.

(** The same run: four pauses of 10 seconds, five calls. *)
Lemma run_budget_witness :
  exists final,
    create_pptx_from_pdf_with_ai loads_known third_page_empty five_pages start
    = Ok final
    /\ count_pauses 10 (events_since start (outside final)) = 4%nat
    /\ calls (outside final) = 5%nat.
Proof.
  assert (E : exists final,
             create_pptx_from_pdf_with_ai loads_known third_page_empty
               five_pages start = Ok final
             /\ calls (outside final) = 5%nat).
  { vm_compute. eexists. split; reflexivity. }
  destruct E as (final & E & Hcalls).
  exists final. split; [exact E|]. split; [|exact Hcalls].
  destruct (run_budget _ _ _ _ _ E) as (_ & _ & Hten & _). exact Hten.
Defined.

Lemma always_refuses_fails (k : nat) (p : page) :
  nth_error five_pages k = Some p ->
  has_elements
    (fst (extract_page loads_known always_refuses k p
            (world_before loads_known always_refuses
               (List.length five_pages) five_pages 0 start k)))
  = Ok false.
Proof.
  intros Hp.
  do 5 (destruct k as [|k];
        [injection Hp as <-; vm_compute; reflexivity|]).
  destruct k; discriminate.
Qed.

(** Five pages and a service that never returns JSON: the run holds the
    image deck and lists the five pages. *)
Lemma failed_run_is_image_deck_witness :
  exists final,
    create_pptx_from_pdf_with_ai loads_known always_refuses five_pages start
    = Ok final
    /\ create_pptx_from_pdf_images five_pages = Ok (slides final)
    /\ failed_slides final = [1; 2; 3; 4; 5].
Proof.
  assert (E : exists final,
             create_pptx_from_pdf_with_ai loads_known always_refuses
               five_pages start = Ok final).
  { vm_compute. eexists. reflexivity. }
  destruct E as (final & E). exists final. split; [exact E|].
  exact (failed_run_is_image_deck loads_known always_refuses five_pages start
           final E always_refuses_fails).
Defined.

(** With the key set, a run whose every extraction fails is still the
    editable path: the images are written by the driver, not by the
    image-only conversion. *)
Lemma main_outcome_witness :
  exists final,
    main loads_known always_refuses (Settings true true (str "key"))
      five_pages start = Ok (Editable final)
    /\ create_pptx_from_pdf_with_ai loads_known always_refuses five_pages
         start = Ok final.
Proof.
  assert (E : exists final,
             main loads_known always_refuses (Settings true true (str "key"))
               five_pages start = Ok (Editable final)).
  { vm_compute. eexists. reflexivity. }
  destruct E as (final & E). exists final. split; [exact E|].
  exact (proj2 (proj2 (proj2 (main_outcome _ _ _ _ _ _ E)))).
Defined.

End DeckProps.
